(** * Session and frame lifecycle of the OpenXR state tracker

    A shallow embedding of [src/xrt/state_trackers/oxr/oxr_session.c]:
    the session state machine, frame begin/end, composition-layer
    verification and submission, and head-pose prediction.

    Conventions.
    - C integers are [Z]; the two places where the source converts between
      integer types ([int64_t] from a [uint64_t] difference, [(int)] of a
      [uint32_t]) have their wrap-around written out.
    - [uint32_t] counts that are only compared and used as loop bounds
      ([layerCount], [viewCount]) are [nat].
    - A pointer that the source compares with [NULL] is an [option].
    - The compositor is an object that the session calls into; it is
      modelled by the log of the calls it has received, oldest first.
    - C [float] values and the math library working on them are kept
      abstract (section variables). *)

From Stdlib Require Import ZArith QArith List Bool Lia.
Import ListNotations.
Open Scope Z_scope.

(** ** Result codes *)

(** The [XrResult] values that occur in the file. *)
Inductive XrResult : Type :=
| XR_SUCCESS
| XR_SESSION_LOSS_PENDING
| XR_FRAME_DISCARDED
| XR_ERROR_VALIDATION_FAILURE
| XR_ERROR_RUNTIME_FAILURE
| XR_ERROR_SIZE_INSUFFICIENT
| XR_ERROR_SESSION_RUNNING
| XR_ERROR_SESSION_NOT_RUNNING
| XR_ERROR_SESSION_NOT_STOPPING
| XR_ERROR_VIEW_CONFIGURATION_TYPE_UNSUPPORTED
| XR_ERROR_CALL_ORDER_INVALID
| XR_ERROR_TIME_INVALID
| XR_ERROR_LAYER_INVALID
| XR_ERROR_POSE_INVALID
| XR_ERROR_SWAPCHAIN_RECT_INVALID
| XR_ERROR_ENVIRONMENT_BLEND_MODE_UNSUPPORTED.

(** The OpenXR macro [XR_SUCCEEDED]: the three qualified-success codes are
    the non-negative ones, every [XR_ERROR_] code is negative. *)
Definition XR_SUCCEEDED (r : XrResult) : bool :=
  match r with
  | XR_SUCCESS | XR_SESSION_LOSS_PENDING | XR_FRAME_DISCARDED => true
  | _ => false
  end.

(** Modelled from the spec: [oxr_error] lives in oxr_logger.c, which is not
    among the sources.  It prints a parameterised diagnostic and hands back
    the error kind it was given (spec section 7: "returns a specific error
    kind"); the diagnostic text is not modelled. *)
Definition oxr_error (code : XrResult) : XrResult := code.

(** What a C function call evaluates to: a returned result code, or
    undefined behaviour (a null pointer dereferenced, an array read past
    its end). *)
Inductive outcome : Type :=
| Ret (r : XrResult)
| Undefined.

(** ** Session states *)

(** [XrSessionState] of OpenXR 1.0. *)
Inductive XrSessionState : Type :=
| XR_SESSION_STATE_UNKNOWN
| XR_SESSION_STATE_IDLE
| XR_SESSION_STATE_READY
| XR_SESSION_STATE_SYNCHRONIZED
| XR_SESSION_STATE_VISIBLE
| XR_SESSION_STATE_FOCUSED
| XR_SESSION_STATE_STOPPING
| XR_SESSION_STATE_LOSS_PENDING
| XR_SESSION_STATE_EXITING.

Definition is_running (state : XrSessionState) : bool :=
  match state with
  | XR_SESSION_STATE_SYNCHRONIZED => true
  | XR_SESSION_STATE_VISIBLE => true
  | XR_SESSION_STATE_FOCUSED => true
  | XR_SESSION_STATE_STOPPING => true
  | _ => false
  end.

Definition should_render (state : XrSessionState) : bool :=
  match state with
  | XR_SESSION_STATE_VISIBLE => true
  | XR_SESSION_STATE_FOCUSED => true
  | XR_SESSION_STATE_STOPPING => true
  | _ => false
  end.

Definition XrSessionState_eqb (a b : XrSessionState) : bool :=
  match a, b with
  | XR_SESSION_STATE_UNKNOWN, XR_SESSION_STATE_UNKNOWN
  | XR_SESSION_STATE_IDLE, XR_SESSION_STATE_IDLE
  | XR_SESSION_STATE_READY, XR_SESSION_STATE_READY
  | XR_SESSION_STATE_SYNCHRONIZED, XR_SESSION_STATE_SYNCHRONIZED
  | XR_SESSION_STATE_VISIBLE, XR_SESSION_STATE_VISIBLE
  | XR_SESSION_STATE_FOCUSED, XR_SESSION_STATE_FOCUSED
  | XR_SESSION_STATE_STOPPING, XR_SESSION_STATE_STOPPING
  | XR_SESSION_STATE_LOSS_PENDING, XR_SESSION_STATE_LOSS_PENDING
  | XR_SESSION_STATE_EXITING, XR_SESSION_STATE_EXITING => true
  | _, _ => false
  end.

(** ** Blend modes *)

(** [XrEnvironmentBlendMode] is a C enum, so any integer can arrive; the
    three named values are those of openxr.h. *)
Definition XR_ENVIRONMENT_BLEND_MODE_OPAQUE : Z := 1.
Definition XR_ENVIRONMENT_BLEND_MODE_ADDITIVE : Z := 2.
Definition XR_ENVIRONMENT_BLEND_MODE_ALPHA_BLEND : Z := 3.

(** Modelled from the spec: [enum xrt_blend_mode] is declared in
    xrt_defines.h, which is not among the sources.  The spec calls the
    device's value an "advertised mask" and the source tests membership
    with a bitwise and, so each mode is one bit of the mask. *)
Definition XRT_BLEND_MODE_OPAQUE : Z := Z.shiftl 1 0.
Definition XRT_BLEND_MODE_ADDITIVE : Z := Z.shiftl 1 1.
Definition XRT_BLEND_MODE_ALPHA_BLEND : Z := Z.shiftl 1 2.

Definition oxr_blend_mode_to_xrt (blend_mode : Z) : Z :=
  if blend_mode =? XR_ENVIRONMENT_BLEND_MODE_OPAQUE then XRT_BLEND_MODE_OPAQUE
  else if blend_mode =? XR_ENVIRONMENT_BLEND_MODE_ADDITIVE
  then XRT_BLEND_MODE_ADDITIVE
  else if blend_mode =? XR_ENVIRONMENT_BLEND_MODE_ALPHA_BLEND
  then XRT_BLEND_MODE_ALPHA_BLEND
  else 0.

(** ** Integer conversions *)

(** Two's-complement reading of the low 64 bits: the value an [int64_t]
    takes when it is assigned a [uint64_t] difference. *)
Definition to_int64 (z : Z) : Z := (z + 2 ^ 63) mod 2 ^ 64 - 2 ^ 63.

(** The cast [(int)] applied to a [uint32_t]. *)
Definition to_int32 (z : Z) : Z := (z + 2 ^ 31) mod 2 ^ 32 - 2 ^ 31.

(** ** Handles *)

Definition XrSpace : Type := Z.
Definition XR_NULL_HANDLE : XrSpace := 0.

Definition verify_space (space : XrSpace) : XrResult :=
  if space =? XR_NULL_HANDLE
  then oxr_error XR_ERROR_VALIDATION_FAILURE
  else XR_SUCCESS.

Set Implicit Arguments.

Section Oxr.

(** The carrier of C [float] values. *)
Variable float : Type.

(** ** Math and device data (xrt_defines.h) *)

Record xrt_quat : Type := mk_quat {
  quat_x : float; quat_y : float; quat_z : float; quat_w : float
}.

Record xrt_vec3 : Type := mk_vec3 {
  vec3_x : float; vec3_y : float; vec3_z : float
}.

Record xrt_vec2 : Type := mk_vec2 { vec2_x : float; vec2_y : float }.

Record xrt_pose : Type := mk_pose {
  orientation : xrt_quat;
  position : xrt_vec3
}.

Record xrt_fov : Type := mk_fov {
  angle_left : float; angle_right : float;
  angle_up : float; angle_down : float
}.

(** [XrRect2Di]: integer offset and extent. *)
Record xrt_rect : Type := mk_rect {
  offset_x : Z; offset_y : Z;
  extent_width : Z; extent_height : Z
}.

Record xrt_space_relation : Type := mk_relation {
  relation_flags : Z;
  pose : xrt_pose;
  angular_velocity : xrt_vec3
}.

(** The head device: the blend modes its HMD part advertises
    ([hmd->blend_mode]) and the offset of its tracking origin
    ([tracking_origin->offset]). *)
Record xrt_device : Type := mk_device {
  hmd_blend_mode : Z;
  tracking_origin_offset : xrt_pose
}.

Record xrt_swapchain : Type := mk_xrt_swapchain {
  num_images : Z;
  array_size : Z
}.

Record oxr_swapchain : Type := mk_oxr_swapchain {
  swapchain : xrt_swapchain;
  released_index : Z
}.

(** ** The compositor *)

(** The operations of [struct xrt_compositor] that the session invokes,
    with their arguments (the constant input name
    [XRT_INPUT_GENERIC_HEAD_POSE] is left out). *)
Inductive xrt_comp_call : Type :=
| xrt_comp_begin_session (view_type : Z)
| xrt_comp_end_session
| xrt_comp_begin_frame
| xrt_comp_discard_frame
| xrt_comp_layer_begin (blend_mode : Z)
| xrt_comp_layer_quad
    (timestamp : Z) (xdev : xrt_device) (layer_flags : Z) (visibility : Z)
    (sc : xrt_swapchain) (image_index : Z) (rect : xrt_rect)
    (array_index : Z) (pose : xrt_pose) (size : xrt_vec2) (flip_y : bool)
| xrt_comp_layer_stereo_projection
    (timestamp : Z) (xdev : xrt_device) (layer_flags : Z)
    (l_sc : xrt_swapchain) (l_image_index : Z) (l_rect : xrt_rect)
    (l_array_index : Z) (l_fov : xrt_fov) (l_pose : xrt_pose)
    (r_sc : xrt_swapchain) (r_image_index : Z) (r_rect : xrt_rect)
    (r_array_index : Z) (r_fov : xrt_fov) (r_pose : xrt_pose)
    (flip_y : bool)
| xrt_comp_layer_commit.

Record xrt_compositor : Type := mk_compositor {
  calls : list xrt_comp_call
}.

(** Invoking an operation on the compositor. *)
Definition comp_call (xc : xrt_compositor) (c : xrt_comp_call)
  : xrt_compositor :=
  mk_compositor (calls xc ++ [c]).

(** A call that hands a layer to the compositor. *)
Definition is_layer_submit (c : xrt_comp_call) : bool :=
  match c with
  | xrt_comp_layer_quad _ _ _ _ _ _ _ _ _ _ _ => true
  | xrt_comp_layer_stereo_projection _ _ _ _ _ _ _ _ _ _ _ _ _ _ _ _ => true
  | _ => false
  end.

(** ** System and session (oxr_objects.h) *)

Record oxr_system : Type := mk_system {
  view_config_type : Z;
  head : xrt_device
}.

(** [compositor] is [None] for a headless session.  [events] is the queue
    of [XrEventDataSessionStateChanged] notifications pushed for this
    session, oldest first. *)
Record oxr_session : Type := mk_session {
  sys : oxr_system;
  compositor : option xrt_compositor;
  state : XrSessionState;
  frame_started : bool;
  exiting : bool;
  ipd_meters : float;
  static_prediction_s : float;
  events : list XrSessionState
}.

Definition set_state (sess : oxr_session) (st : XrSessionState) : oxr_session :=
  mk_session (sys sess) (compositor sess) st (frame_started sess)
             (exiting sess) (ipd_meters sess) (static_prediction_s sess)
             (events sess).

Definition set_frame_started (sess : oxr_session) (b : bool) : oxr_session :=
  mk_session (sys sess) (compositor sess) (state sess) b
             (exiting sess) (ipd_meters sess) (static_prediction_s sess)
             (events sess).

Definition set_exiting (sess : oxr_session) (b : bool) : oxr_session :=
  mk_session (sys sess) (compositor sess) (state sess) (frame_started sess)
             b (ipd_meters sess) (static_prediction_s sess) (events sess).

Definition set_compositor (sess : oxr_session) (xc : xrt_compositor)
  : oxr_session :=
  mk_session (sys sess) (Some xc) (state sess) (frame_started sess)
             (exiting sess) (ipd_meters sess) (static_prediction_s sess)
             (events sess).

Definition oxr_event_push_XrEventDataSessionStateChanged
  (sess : oxr_session) (st : XrSessionState) : oxr_session :=
  mk_session (sys sess) (compositor sess) (state sess) (frame_started sess)
             (exiting sess) (ipd_meters sess) (static_prediction_s sess)
             (events sess ++ [st]).

(** The calls the session's compositor has received; none when headless. *)
Definition comp_calls (sess : oxr_session) : list xrt_comp_call :=
  match compositor sess with
  | Some xc => calls xc
  | None => []
  end.

(** [if (xc != NULL) { xrt_comp_...(xc); }] *)
Definition call_if_present (sess : oxr_session) (c : xrt_comp_call)
  : oxr_session :=
  match compositor sess with
  | Some xc => set_compositor sess (comp_call xc c)
  | None => sess
  end.

(** ** Collaborators that are declared outside this file *)

(** [oxr_session_success_result] (oxr_objects.h): the result code a
    successful session call returns. *)
Variable oxr_session_success_result : oxr_session -> XrResult.

(** It is one of the success codes, never an error. *)
Hypothesis success_result_succeeded :
  forall sess, XR_SUCCEEDED (oxr_session_success_result sess) = true.

(** The math library (math/m_api.h). *)
Variable math_quat_validate : xrt_quat -> bool.
Variable math_vec3_validate : xrt_vec3 -> bool.
Variable math_pose_invert : xrt_pose -> xrt_pose.
Variable math_pose_transform : xrt_pose -> xrt_pose -> xrt_pose.
Variable math_quat_integrate_velocity :
  xrt_quat -> xrt_vec3 -> float -> xrt_quat.

(** [time_ns_to_s] (util/u_time.h) and the [float] addition of C. *)
Variable time_ns_to_s : Z -> float.
Variable float_add : float -> float -> float.

(** [oxr_xdev_get_relation_at] on the head device: the sample's timestamp
    (a [uint64_t]) and relation for the requested time. *)
Variable oxr_xdev_get_relation_at :
  oxr_system -> Z -> Z * xrt_space_relation.

(** The debug option [OXR_DYNAMIC_PREDICTION]. *)
Variable debug_get_bool_option_dynamic_prediction : bool.

(** [XRT_SPACE_RELATION_ANGULAR_VELOCITY_VALID_BIT] (xrt_defines.h). *)
Variable XRT_SPACE_RELATION_ANGULAR_VELOCITY_VALID_BIT : Z.

(** ** Session state machine *)

Definition oxr_session_change_state
  (sess : oxr_session) (st : XrSessionState) : oxr_session :=
  set_state (oxr_event_push_XrEventDataSessionStateChanged sess st) st.

Record XrSessionBeginInfo : Type := mk_begin_info {
  primaryViewConfigurationType : Z
}.

(** The three state changes at the end of [oxr_session_begin]. *)
Definition begin_transitions (sess : oxr_session) : oxr_session :=
  let sess := oxr_session_change_state sess XR_SESSION_STATE_SYNCHRONIZED in
  let sess := oxr_session_change_state sess XR_SESSION_STATE_VISIBLE in
  oxr_session_change_state sess XR_SESSION_STATE_FOCUSED.

Definition oxr_session_begin
  (sess : oxr_session) (beginInfo : XrSessionBeginInfo)
  : XrResult * oxr_session :=
  if is_running (state sess)
  then (oxr_error XR_ERROR_SESSION_RUNNING, sess)
  else
    match compositor sess with
    | Some xc =>
        let view_type := primaryViewConfigurationType beginInfo in
        if negb (view_type =? view_config_type (sys sess))
        then (oxr_error XR_ERROR_VIEW_CONFIGURATION_TYPE_UNSUPPORTED, sess)
        else
          let sess :=
            set_compositor sess
              (comp_call xc (xrt_comp_begin_session view_type)) in
          let sess := begin_transitions sess in
          (oxr_session_success_result sess, sess)
    | None =>
        let sess := begin_transitions sess in
        (oxr_session_success_result sess, sess)
    end.

Definition oxr_session_end (sess : oxr_session) : XrResult * oxr_session :=
  if negb (is_running (state sess))
  then (oxr_error XR_ERROR_SESSION_NOT_RUNNING, sess)
  else if negb (XrSessionState_eqb (state sess) XR_SESSION_STATE_STOPPING)
  then (oxr_error XR_ERROR_SESSION_NOT_STOPPING, sess)
  else
    let sess :=
      match compositor sess with
      | Some xc =>
          let sess :=
            if frame_started sess
            then set_frame_started
                   (set_compositor sess (comp_call xc xrt_comp_discard_frame))
                   false
            else sess in
          call_if_present sess xrt_comp_end_session
      | None => sess
      end in
    let sess := oxr_session_change_state sess XR_SESSION_STATE_IDLE in
    let sess :=
      if exiting sess
      then oxr_session_change_state sess XR_SESSION_STATE_EXITING
      else oxr_session_change_state sess XR_SESSION_STATE_READY in
    (oxr_session_success_result sess, sess).

Definition oxr_session_request_exit (sess : oxr_session)
  : XrResult * oxr_session :=
  if negb (is_running (state sess))
  then (oxr_error XR_ERROR_SESSION_NOT_RUNNING, sess)
  else
    let sess :=
      if XrSessionState_eqb (state sess) XR_SESSION_STATE_FOCUSED
      then oxr_session_change_state sess XR_SESSION_STATE_VISIBLE
      else sess in
    let sess :=
      if XrSessionState_eqb (state sess) XR_SESSION_STATE_VISIBLE
      then oxr_session_change_state sess XR_SESSION_STATE_SYNCHRONIZED
      else sess in
    let sess := oxr_session_change_state sess XR_SESSION_STATE_STOPPING in
    let sess := set_exiting sess true in
    (oxr_session_success_result sess, sess).

(** ** Frame begin *)

Definition oxr_session_frame_begin (sess : oxr_session)
  : XrResult * oxr_session :=
  if negb (is_running (state sess))
  then (oxr_error XR_ERROR_SESSION_NOT_RUNNING, sess)
  else
    let '(ret, sess) :=
      if frame_started sess
      then (XR_FRAME_DISCARDED, call_if_present sess xrt_comp_discard_frame)
      else (oxr_session_success_result sess, set_frame_started sess true) in
    (ret, call_if_present sess xrt_comp_begin_frame).

(** ** Frame submission request (openxr.h) *)

Record XrSwapchainSubImage : Type := mk_sub_image {
  sub_swapchain : option oxr_swapchain;
  imageRect : xrt_rect;
  imageArrayIndex : Z
}.

Record XrCompositionLayerQuad : Type := mk_quad {
  quad_layerFlags : Z;
  quad_space : XrSpace;
  eyeVisibility : Z;
  quad_subImage : XrSwapchainSubImage;
  quad_pose : xrt_pose;
  quad_size : xrt_vec2
}.

Record XrCompositionLayerProjectionView : Type := mk_view {
  view_pose : xrt_pose;
  view_fov : xrt_fov;
  view_subImage : XrSwapchainSubImage
}.

(** [views] is the array [viewCount] is meant to give the length of;
    the two are separate fields of the C struct. *)
Record XrCompositionLayerProjection : Type := mk_proj {
  proj_layerFlags : Z;
  proj_space : XrSpace;
  viewCount : nat;
  views : list XrCompositionLayerProjectionView
}.

(** A layer behind its [XrCompositionLayerBaseHeader]: the [type] tag
    selects the struct the header is cast to. *)
Inductive XrCompositionLayer : Type :=
| LayerProjection (proj : XrCompositionLayerProjection)
| LayerQuad (quad : XrCompositionLayerQuad)
| LayerOther (type : Z).

(** [layers] is [None] for a null array pointer; an entry is [None] for a
    null layer pointer. *)
Record XrFrameEndInfo : Type := mk_frame_end_info {
  displayTime : Z;
  environmentBlendMode : Z;
  layerCount : nat;
  layers : option (list (option XrCompositionLayer))
}.

(** ** Layer verification *)

Definition verify_quad_layer (quad : XrCompositionLayerQuad) : outcome :=
  match sub_swapchain (quad_subImage quad) with
  | None => Ret (oxr_error XR_ERROR_LAYER_INVALID)
  | Some sc =>
      match verify_space (quad_space quad) with
      | XR_SUCCESS =>
          if negb (math_quat_validate (orientation (quad_pose quad)))
          then Ret (oxr_error XR_ERROR_POSE_INVALID)
          else if negb (math_vec3_validate (position (quad_pose quad)))
          then Ret (oxr_error XR_ERROR_POSE_INVALID)
          else if released_index sc =? -1
          then Ret (oxr_error XR_ERROR_LAYER_INVALID)
          else if released_index sc >=? to_int32 (num_images (swapchain sc))
          then Ret (oxr_error XR_ERROR_RUNTIME_FAILURE)
          else
            let rect := imageRect (quad_subImage quad) in
            if (offset_x rect <? 0) || (offset_y rect <? 0)
            then Ret (oxr_error XR_ERROR_SWAPCHAIN_RECT_INVALID)
            else if (offset_x rect >=? 1) || (offset_y rect >=? 1)
            then Ret (oxr_error XR_ERROR_SWAPCHAIN_RECT_INVALID)
            else Ret XR_SUCCESS
      | ret => Ret ret
      end
  end.

(** The body of the loop over the views: [None] when the loop goes on to
    the next view.  The swapchain pointer is dereferenced without a null
    test. *)
Definition verify_projection_view (view : XrCompositionLayerProjectionView)
  : option outcome :=
  if negb (math_quat_validate (orientation (view_pose view)))
  then Some (Ret (oxr_error XR_ERROR_POSE_INVALID))
  else if negb (math_vec3_validate (position (view_pose view)))
  then Some (Ret (oxr_error XR_ERROR_POSE_INVALID))
  else
    match sub_swapchain (view_subImage view) with
    | None => Some Undefined
    | Some sc =>
        if released_index sc =? -1
        then Some (Ret (oxr_error XR_ERROR_LAYER_INVALID))
        else if released_index sc >=? to_int32 (num_images (swapchain sc))
        then Some (Ret (oxr_error XR_ERROR_RUNTIME_FAILURE))
        else None
    end.

(** [for (i = ...; i < viewCount; i++)], with [n] iterations left. *)
Fixpoint verify_projection_views
  (vs : list XrCompositionLayerProjectionView) (i n : nat) : outcome :=
  match n with
  | O => Ret XR_SUCCESS
  | S n' =>
      match nth_error vs i with
      | None => Undefined
      | Some view =>
          match verify_projection_view view with
          | Some o => o
          | None => verify_projection_views vs (S i) n'
          end
      end
  end.

Definition verify_projection_layer (proj : XrCompositionLayerProjection)
  : outcome :=
  match verify_space (proj_space proj) with
  | XR_SUCCESS =>
      if negb (Nat.eqb (viewCount proj) 2)
      then Ret (oxr_error XR_ERROR_VALIDATION_FAILURE)
      else verify_projection_views (views proj) 0 (viewCount proj)
  | ret => Ret ret
  end.

(** The body of the verification loop of [oxr_session_frame_end] for the
    entry [layers[i]]. *)
Definition verify_layer (entry : option XrCompositionLayer) : outcome :=
  match entry with
  | None => Ret (oxr_error XR_ERROR_LAYER_INVALID)
  | Some (LayerProjection proj) => verify_projection_layer proj
  | Some (LayerQuad quad) => verify_quad_layer quad
  | Some (LayerOther _) => Ret (oxr_error XR_ERROR_LAYER_INVALID)
  end.

(** The verification loop, with [n] iterations left. *)
Fixpoint verify_layers
  (ls : list (option XrCompositionLayer)) (i n : nat) : outcome :=
  match n with
  | O => Ret XR_SUCCESS
  | S n' =>
      match nth_error ls i with
      | None => Undefined
      | Some entry =>
          match verify_layer entry with
          | Ret XR_SUCCESS => verify_layers ls (S i) n'
          | o => o
          end
      end
  end.

(** ** Layer submission *)

(** The submit functions dereference the swapchain pointers that the
    verification pass has looked at; the result is [None] when a pointer
    they dereference is null or an array entry they read is missing. *)
Definition submit_quad_layer
  (xc : xrt_compositor) (quad : XrCompositionLayerQuad)
  (head : xrt_device) (inv_offset : xrt_pose) (timestamp : Z)
  : option xrt_compositor :=
  match sub_swapchain (quad_subImage quad) with
  | None => None
  | Some sc =>
      let pose := math_pose_transform inv_offset (quad_pose quad) in
      Some (comp_call xc
              (xrt_comp_layer_quad
                 timestamp head (quad_layerFlags quad) (eyeVisibility quad)
                 (swapchain sc) (released_index sc)
                 (imageRect (quad_subImage quad))
                 (imageArrayIndex (quad_subImage quad))
                 pose (quad_size quad) false))
  end.

Definition submit_projection_layer
  (xc : xrt_compositor) (proj : XrCompositionLayerProjection)
  (head : xrt_device) (inv_offset : xrt_pose) (timestamp : Z)
  : option xrt_compositor :=
  let flags := 0 in
  match nth_error (views proj) 0, nth_error (views proj) 1 with
  | Some v0, Some v1 =>
      match sub_swapchain (view_subImage v0),
            sub_swapchain (view_subImage v1) with
      | Some sc0, Some sc1 =>
          let pose0 := math_pose_transform inv_offset (view_pose v0) in
          let pose1 := math_pose_transform inv_offset (view_pose v1) in
          Some (comp_call xc
                  (xrt_comp_layer_stereo_projection
                     timestamp head flags
                     (swapchain sc0) (released_index sc0)
                     (imageRect (view_subImage v0))
                     (imageArrayIndex (view_subImage v0))
                     (view_fov v0) pose0
                     (swapchain sc1) (released_index sc1)
                     (imageRect (view_subImage v1))
                     (imageArrayIndex (view_subImage v1))
                     (view_fov v1) pose1
                     false))
      | _, _ => None
      end
  | _, _ => None
  end.

(** The body of the submission loop: a null or unknown layer trips the
    [assert]. *)
Definition submit_layer
  (xc : xrt_compositor) (entry : option XrCompositionLayer)
  (head : xrt_device) (inv_offset : xrt_pose) (timestamp : Z)
  : option xrt_compositor :=
  match entry with
  | Some (LayerProjection proj) =>
      submit_projection_layer xc proj head inv_offset timestamp
  | Some (LayerQuad quad) =>
      submit_quad_layer xc quad head inv_offset timestamp
  | Some (LayerOther _) => None
  | None => None
  end.

(** The submission loop, with [n] iterations left. *)
Fixpoint submit_layers
  (xc : xrt_compositor) (ls : list (option XrCompositionLayer))
  (head : xrt_device) (inv_offset : xrt_pose) (timestamp : Z)
  (i n : nat) : option xrt_compositor :=
  match n with
  | O => Some xc
  | S n' =>
      match nth_error ls i with
      | None => None
      | Some entry =>
          match submit_layer xc entry head inv_offset timestamp with
          | None => None
          | Some xc' =>
              submit_layers xc' ls head inv_offset timestamp (S i) n'
          end
      end
  end.

(** ** Frame end *)

Definition oxr_session_frame_end
  (sess : oxr_session) (frameEndInfo : XrFrameEndInfo)
  : outcome * oxr_session :=
  if negb (is_running (state sess))
  then (Ret (oxr_error XR_ERROR_SESSION_NOT_RUNNING), sess)
  else if negb (frame_started sess)
  then (Ret (oxr_error XR_ERROR_CALL_ORDER_INVALID), sess)
  else if displayTime frameEndInfo <=? 0
  then (Ret (oxr_error XR_ERROR_TIME_INVALID), sess)
  else
    match compositor sess with
    | None =>
        let sess := set_frame_started sess false in
        (Ret (oxr_session_success_result sess), sess)
    | Some xc =>
        let blend_mode :=
          oxr_blend_mode_to_xrt (environmentBlendMode frameEndInfo) in
        if blend_mode =? 0
        then (Ret (oxr_error XR_ERROR_VALIDATION_FAILURE), sess)
        else if Z.land blend_mode (hmd_blend_mode (head (sys sess))) =? 0
        then (Ret (oxr_error XR_ERROR_ENVIRONMENT_BLEND_MODE_UNSUPPORTED),
              sess)
        else if Nat.eqb (layerCount frameEndInfo) 0
        then
          let sess :=
            set_frame_started
              (set_compositor sess (comp_call xc xrt_comp_discard_frame))
              false in
          (Ret (oxr_session_success_result sess), sess)
        else
          match layers frameEndInfo with
          | None => (Ret (oxr_error XR_ERROR_LAYER_INVALID), sess)
          | Some ls =>
              match verify_layers ls 0 (layerCount frameEndInfo) with
              | Ret XR_SUCCESS =>
                  let inv_offset :=
                    math_pose_invert
                      (tracking_origin_offset (head (sys sess))) in
                  let xc := comp_call xc (xrt_comp_layer_begin blend_mode) in
                  match submit_layers xc ls (head (sys sess)) inv_offset
                          (displayTime frameEndInfo)
                          0 (layerCount frameEndInfo) with
                  | None => (Undefined, sess)
                  | Some xc =>
                      let xc := comp_call xc xrt_comp_layer_commit in
                      let sess :=
                        set_frame_started (set_compositor sess xc) false in
                      (Ret (oxr_session_success_result sess), sess)
                  end
              | o => (o, sess)
              end
          end
    end.

(** ** Pose prediction *)

(** The diagnostic printed under [debug_views] is not modelled. *)
Definition oxr_session_get_view_pose_at
  (sess : oxr_session) (at_time : Z) : XrResult * xrt_pose :=
  let '(timestamp, relation) :=
    oxr_xdev_get_relation_at (sys sess) at_time in
  let pose := pose relation in
  let valid_vel :=
    negb (Z.land (relation_flags relation)
                 XRT_SPACE_RELATION_ANGULAR_VELOCITY_VALID_BIT =? 0) in
  let pose :=
    if valid_vel
    then
      let ns_diff := to_int64 (at_time - timestamp) in
      let interval :=
        if debug_get_bool_option_dynamic_prediction
        then float_add (time_ns_to_s ns_diff) (static_prediction_s sess)
        else static_prediction_s sess in
      let predicted :=
        math_quat_integrate_velocity
          (orientation pose) (angular_velocity relation) interval in
      mk_pose predicted (position pose)
    else pose in
  (oxr_session_success_result sess, pose).


(** ** Vocabulary of the statements *)

(** The environment blend mode passes both checks of
    [oxr_session_frame_end]: it is one of the three known modes and the
    head device advertises it. *)
Definition blend_mode_accepted
  (sess : oxr_session) (frameEndInfo : XrFrameEndInfo) : Prop :=
  oxr_blend_mode_to_xrt (environmentBlendMode frameEndInfo) <> 0 /\
  Z.land (oxr_blend_mode_to_xrt (environmentBlendMode frameEndInfo))
         (hmd_blend_mode (head (sys sess))) <> 0.

(** The entry [layers[j]] exists and passes verification. *)
Definition layer_passes
  (ls : list (option XrCompositionLayer)) (j : nat) : Prop :=
  exists entry,
    nth_error ls j = Some entry /\ verify_layer entry = Ret XR_SUCCESS.

(** Every one of the [layerCount] layers of the request passes. *)
Definition all_layers_pass (frameEndInfo : XrFrameEndInfo) : Prop :=
  exists ls,
    layers frameEndInfo = Some ls /\
    forall j, (j < layerCount frameEndInfo)%nat -> layer_passes ls j.

(** [layers[i]] is the first entry that does not pass, and [o] is what its
    verification evaluates to. *)
Definition first_failing_layer
  (ls : list (option XrCompositionLayer)) (i : nat) (o : outcome) : Prop :=
  (forall j, (j < i)%nat -> layer_passes ls j) /\
  (exists entry, nth_error ls i = Some entry /\ verify_layer entry = o) /\
  o <> Ret XR_SUCCESS.

(** Both pose components of a projection view pass the math checks. *)
Definition view_pose_valid (view : XrCompositionLayerProjectionView) : Prop :=
  math_quat_validate (orientation (view_pose view)) = true /\
  math_vec3_validate (position (view_pose view)) = true.

Unset Implicit Arguments.

(** * Properties *)

(** ** Session state machine *)

Lemma is_running_stopping :
  forall st, st = XR_SESSION_STATE_STOPPING -> is_running st = true.
Proof. intros st ->. reflexivity. Qed.

Lemma XrSessionState_eqb_eq :
  forall a b, XrSessionState_eqb a b = true <-> a = b.
Proof.
  intros a b; split.
  - destruct a, b; simpl; intro H; try reflexivity; discriminate H.
  - intros ->. destruct b; reflexivity.
Qed.

Lemma XrSessionState_eqb_neq :
  forall a b, a <> b -> XrSessionState_eqb a b = false.
Proof.
  intros a b H. destruct (XrSessionState_eqb a b) eqn:E; [|reflexivity].
  apply XrSessionState_eqb_eq in E. contradiction.
Qed.

(** The three state changes of a successful begin: the state they end in
    and the notifications they emit; nothing else of the session moves. *)
Lemma begin_transitions_effect :
  forall sess,
    state (begin_transitions sess) = XR_SESSION_STATE_FOCUSED /\
    events (begin_transitions sess) =
      events sess ++ [XR_SESSION_STATE_SYNCHRONIZED;
                      XR_SESSION_STATE_VISIBLE;
                      XR_SESSION_STATE_FOCUSED] /\
    compositor (begin_transitions sess) = compositor sess /\
    frame_started (begin_transitions sess) = frame_started sess /\
    exiting (begin_transitions sess) = exiting sess.
Proof.
  intro sess. unfold begin_transitions, oxr_session_change_state. simpl.
  repeat split. rewrite <- !app_assoc. reflexivity.
Qed.

(** A begin that is refused leaves the session as it was. *)
Lemma oxr_session_begin_error_keeps_session :
  forall sess beginInfo,
    XR_SUCCEEDED (fst (oxr_session_begin sess beginInfo)) = false ->
    snd (oxr_session_begin sess beginInfo) = sess.
Proof.
  intros sess bi. unfold oxr_session_begin.
  destruct (is_running (state sess)); [reflexivity|].
  destruct (compositor sess) as [xc|].
  - destruct (primaryViewConfigurationType bi =? view_config_type (sys sess));
      simpl; [|reflexivity].
    rewrite success_result_succeeded. discriminate.
  - simpl. rewrite success_result_succeeded. discriminate.
Qed.

(** C2 (as amended): begin fails with [XR_ERROR_SESSION_RUNNING] exactly
    when the session is already running.  A session that is not running
    and has a compositor is refused with
    [XR_ERROR_VIEW_CONFIGURATION_TYPE_UNSUPPORTED], state unchanged, when
    the requested view configuration type differs from the system's.  In
    every other case (headless, or matching type) the call succeeds, the
    compositor if any is told of the session begin, and the state ends at
    FOCUSED after exactly the notifications SYNCHRONIZED, VISIBLE, FOCUSED
    in this order. *)
Theorem oxr_session_begin_outcomes :
  forall sess beginInfo,
    (fst (oxr_session_begin sess beginInfo) = XR_ERROR_SESSION_RUNNING <->
     is_running (state sess) = true) /\
    (is_running (state sess) = true ->
     snd (oxr_session_begin sess beginInfo) = sess) /\
    (is_running (state sess) = false ->
     compositor sess <> None ->
     primaryViewConfigurationType beginInfo <> view_config_type (sys sess) ->
     oxr_session_begin sess beginInfo =
       (XR_ERROR_VIEW_CONFIGURATION_TYPE_UNSUPPORTED, sess)) /\
    (is_running (state sess) = false ->
     compositor sess = None \/
     primaryViewConfigurationType beginInfo = view_config_type (sys sess) ->
     let sess' := snd (oxr_session_begin sess beginInfo) in
     fst (oxr_session_begin sess beginInfo) =
       oxr_session_success_result sess' /\
     XR_SUCCEEDED (fst (oxr_session_begin sess beginInfo)) = true /\
     state sess' = XR_SESSION_STATE_FOCUSED /\
     events sess' =
       events sess ++ [XR_SESSION_STATE_SYNCHRONIZED;
                       XR_SESSION_STATE_VISIBLE;
                       XR_SESSION_STATE_FOCUSED] /\
     comp_calls sess' =
       match compositor sess with
       | Some xc =>
           calls xc ++
           [xrt_comp_begin_session (primaryViewConfigurationType beginInfo)]
       | None => []
       end).
Proof.
  intros sess bi. split; [|split; [|split]].
  - unfold oxr_session_begin.
    destruct (is_running (state sess)) eqn:Hrun; simpl.
    + split; reflexivity.
    + split; [|discriminate]. intro H. exfalso.
      destruct (compositor sess) as [xc|].
      * destruct (primaryViewConfigurationType bi
                  =? view_config_type (sys sess)); simpl in H.
        -- pose proof (success_result_succeeded
                         (begin_transitions
                            (set_compositor sess
                               (comp_call xc
                                  (xrt_comp_begin_session
                                     (primaryViewConfigurationType bi))))))
             as Hs.
           rewrite H in Hs. discriminate Hs.
        -- discriminate H.
      * simpl in H.
        pose proof (success_result_succeeded (begin_transitions sess)) as Hs.
        rewrite H in Hs. discriminate Hs.
  - intro Hrun. unfold oxr_session_begin. rewrite Hrun. reflexivity.
  - intros Hrun Hxc Hty. unfold oxr_session_begin. rewrite Hrun.
    destruct (compositor sess) as [xc|]; [|contradiction].
    apply Z.eqb_neq in Hty. rewrite Hty. reflexivity.
  - intros Hrun Hok. unfold oxr_session_begin. rewrite Hrun.
    destruct (compositor sess) as [xc|] eqn:Hxc.
    + destruct Hok as [Hnone|Hty]; [discriminate Hnone|].
      apply Z.eqb_eq in Hty. rewrite Hty. simpl.
      split; [reflexivity|]. split; [apply success_result_succeeded|].
      split; [reflexivity|]. split; [|reflexivity].
      rewrite <- !app_assoc. reflexivity.
    + simpl. split; [reflexivity|]. split; [apply success_result_succeeded|].
      split; [reflexivity|]. split; [|unfold comp_calls; simpl; now rewrite Hxc].
      rewrite <- !app_assoc. reflexivity.
Qed.

(** C3: end fails with [XR_ERROR_SESSION_NOT_RUNNING] when the session is
    not running, with [XR_ERROR_SESSION_NOT_STOPPING] when it is running in
    a state other than STOPPING, both leaving the session untouched.  From
    STOPPING it succeeds; the state ends at EXITING if and only if the
    exiting flag is set, else at READY, after exactly two notifications:
    IDLE, then the final state. *)
Theorem oxr_session_end_outcomes :
  forall sess,
    (is_running (state sess) = false ->
     oxr_session_end sess = (XR_ERROR_SESSION_NOT_RUNNING, sess)) /\
    (is_running (state sess) = true ->
     state sess <> XR_SESSION_STATE_STOPPING ->
     oxr_session_end sess = (XR_ERROR_SESSION_NOT_STOPPING, sess)) /\
    (state sess = XR_SESSION_STATE_STOPPING ->
     let sess' := snd (oxr_session_end sess) in
     let final :=
       if exiting sess then XR_SESSION_STATE_EXITING
       else XR_SESSION_STATE_READY in
     fst (oxr_session_end sess) = oxr_session_success_result sess' /\
     XR_SUCCEEDED (fst (oxr_session_end sess)) = true /\
     state sess' = final /\
     (state sess' = XR_SESSION_STATE_EXITING <-> exiting sess = true) /\
     events sess' = events sess ++ [XR_SESSION_STATE_IDLE; final]).
Proof.
  intro sess. split; [|split].
  - intro Hrun. unfold oxr_session_end. rewrite Hrun. reflexivity.
  - intros Hrun Hst. unfold oxr_session_end. rewrite Hrun.
    rewrite (XrSessionState_eqb_neq _ _ Hst). reflexivity.
  - intro Hst. unfold oxr_session_end. rewrite Hst. simpl.
    split; [reflexivity|]. split; [apply success_result_succeeded|].
    unfold call_if_present.
    destruct (compositor sess) as [xc|] eqn:Hxc;
      destruct (frame_started sess);
      simpl; rewrite ?Hxc; simpl; destruct (exiting sess); simpl;
      rewrite <- ?app_assoc; repeat split;
      try reflexivity; try discriminate.
Qed.

(** ** Frame begin *)

(** C7: on a running session, beginFrame with a frame already open returns
    the non-error [XR_FRAME_DISCARDED], has the compositor (if any) discard
    the previous frame and begin a new one, and leaves [frame_started]
    true; with no frame open it returns the session's plain success result,
    has the compositor begin a frame, and sets [frame_started]. *)
Theorem oxr_session_frame_begin_outcomes :
  forall sess,
    is_running (state sess) = true ->
    let sess' := snd (oxr_session_frame_begin sess) in
    frame_started sess' = true /\
    state sess' = state sess /\
    (frame_started sess = true ->
     fst (oxr_session_frame_begin sess) = XR_FRAME_DISCARDED /\
     XR_SUCCEEDED (fst (oxr_session_frame_begin sess)) = true /\
     comp_calls sess' =
       match compositor sess with
       | Some xc => calls xc ++ [xrt_comp_discard_frame; xrt_comp_begin_frame]
       | None => []
       end) /\
    (frame_started sess = false ->
     fst (oxr_session_frame_begin sess) = oxr_session_success_result sess /\
     XR_SUCCEEDED (fst (oxr_session_frame_begin sess)) = true /\
     comp_calls sess' =
       match compositor sess with
       | Some xc => calls xc ++ [xrt_comp_begin_frame]
       | None => []
       end).
Proof.
  intros sess Hrun. unfold oxr_session_frame_begin. rewrite Hrun. simpl.
  unfold call_if_present, comp_calls.
  destruct (frame_started sess) eqn:Hfs;
    destruct (compositor sess) as [xc|] eqn:Hxc; simpl; rewrite ?Hxc; simpl;
    rewrite ?Hxc; simpl;
    (split; [assumption || reflexivity|]);
    (split; [reflexivity|]);
    (split; intro H; try discriminate H);
    rewrite <- ?app_assoc; repeat split;
    try reflexivity; try apply success_result_succeeded.
Qed.

(** ** Frame end: the checks before the layers *)

(** The only blend modes that are recognised. *)
Lemma oxr_blend_mode_to_xrt_known :
  forall blend_mode,
    oxr_blend_mode_to_xrt blend_mode <> 0 <->
    blend_mode = XR_ENVIRONMENT_BLEND_MODE_OPAQUE \/
    blend_mode = XR_ENVIRONMENT_BLEND_MODE_ADDITIVE \/
    blend_mode = XR_ENVIRONMENT_BLEND_MODE_ALPHA_BLEND.
Proof.
  intro b. unfold oxr_blend_mode_to_xrt.
  destruct (b =? XR_ENVIRONMENT_BLEND_MODE_OPAQUE) eqn:E1.
  { apply Z.eqb_eq in E1. split; [auto|]. intros _. discriminate. }
  destruct (b =? XR_ENVIRONMENT_BLEND_MODE_ADDITIVE) eqn:E2.
  { apply Z.eqb_eq in E2. split; [auto|]. intros _. discriminate. }
  destruct (b =? XR_ENVIRONMENT_BLEND_MODE_ALPHA_BLEND) eqn:E3.
  { apply Z.eqb_eq in E3. split; [auto|]. intros _. discriminate. }
  apply Z.eqb_neq in E1, E2, E3.
  split; [intro H; now elim H|]. intros [H|[H|H]]; contradiction.
Qed.

(** Once the call-order, time and blend-mode checks have passed on a
    session with a compositor, a non-empty request is decided by the
    layer array alone. *)
Lemma oxr_session_frame_end_layers :
  forall sess frameEndInfo xc,
    is_running (state sess) = true ->
    frame_started sess = true ->
    0 < displayTime frameEndInfo ->
    compositor sess = Some xc ->
    blend_mode_accepted sess frameEndInfo ->
    layerCount frameEndInfo <> 0%nat ->
    oxr_session_frame_end sess frameEndInfo =
      match layers frameEndInfo with
      | None => (Ret XR_ERROR_LAYER_INVALID, sess)
      | Some ls =>
          match verify_layers ls 0 (layerCount frameEndInfo) with
          | Ret XR_SUCCESS =>
              match submit_layers
                      (comp_call xc
                         (xrt_comp_layer_begin
                            (oxr_blend_mode_to_xrt
                               (environmentBlendMode frameEndInfo))))
                      ls (head (sys sess))
                      (math_pose_invert
                         (tracking_origin_offset (head (sys sess))))
                      (displayTime frameEndInfo)
                      0 (layerCount frameEndInfo) with
              | None => (Undefined, sess)
              | Some xc' =>
                  let sess' :=
                    set_frame_started
                      (set_compositor sess
                         (comp_call xc' xrt_comp_layer_commit))
                      false in
                  (Ret (oxr_session_success_result sess'), sess')
              end
          | o => (o, sess)
          end
      end.
Proof.
  intros sess info xc Hrun Hfs Htime Hxc [Hb1 Hb2] Hcount.
  unfold oxr_session_frame_end.
  rewrite Hrun, Hfs, Hxc. simpl.
  apply Z.leb_gt in Htime. rewrite Htime.
  apply Z.eqb_neq in Hb1, Hb2. rewrite Hb1, Hb2.
  apply Nat.eqb_neq in Hcount. rewrite Hcount.
  reflexivity.
Qed.

(** C5 (as amended): on a running session with a frame open, endFrame
    with [displayTime <= 0] fails with [XR_ERROR_TIME_INVALID] and changes
    nothing, whether or not the session is headless and whatever the blend
    mode and the layers are.  (The running and frame-begun checks come
    first.) *)
Theorem oxr_session_frame_end_time_invalid :
  forall sess frameEndInfo,
    is_running (state sess) = true ->
    frame_started sess = true ->
    displayTime frameEndInfo <= 0 ->
    oxr_session_frame_end sess frameEndInfo =
      (Ret XR_ERROR_TIME_INVALID, sess).
Proof.
  intros sess info Hrun Hfs Htime. unfold oxr_session_frame_end.
  rewrite Hrun, Hfs. simpl.
  apply Z.leb_le in Htime. rewrite Htime. reflexivity.
Qed.

(** The two checks that precede the time check. *)
Lemma oxr_session_frame_end_call_order :
  forall sess frameEndInfo,
    (is_running (state sess) = false ->
     oxr_session_frame_end sess frameEndInfo =
       (Ret XR_ERROR_SESSION_NOT_RUNNING, sess)) /\
    (is_running (state sess) = true ->
     frame_started sess = false ->
     oxr_session_frame_end sess frameEndInfo =
       (Ret XR_ERROR_CALL_ORDER_INVALID, sess)).
Proof.
  intros sess info. unfold oxr_session_frame_end. split.
  - intros ->. reflexivity.
  - intros -> ->. reflexivity.
Qed.

(** C6: on a running session with a compositor, a frame open and a
    positive display time, endFrame with an unrecognised blend mode fails
    with [XR_ERROR_VALIDATION_FAILURE], and with a recognised mode that the
    head device does not advertise it fails with
    [XR_ERROR_ENVIRONMENT_BLEND_MODE_UNSUPPORTED], in both cases whatever
    the layer count and the layers are, and without touching the session.
    With no layers, the call discards the frame and succeeds exactly when
    the blend mode passes both checks. *)
Theorem oxr_session_frame_end_blend_mode :
  forall sess frameEndInfo xc,
    is_running (state sess) = true ->
    frame_started sess = true ->
    0 < displayTime frameEndInfo ->
    compositor sess = Some xc ->
    let blend_mode :=
      oxr_blend_mode_to_xrt (environmentBlendMode frameEndInfo) in
    (blend_mode = 0 ->
     oxr_session_frame_end sess frameEndInfo =
       (Ret XR_ERROR_VALIDATION_FAILURE, sess)) /\
    (blend_mode <> 0 ->
     Z.land blend_mode (hmd_blend_mode (head (sys sess))) = 0 ->
     oxr_session_frame_end sess frameEndInfo =
       (Ret XR_ERROR_ENVIRONMENT_BLEND_MODE_UNSUPPORTED, sess)) /\
    (layerCount frameEndInfo = 0%nat ->
     blend_mode_accepted sess frameEndInfo ->
     let sess' := snd (oxr_session_frame_end sess frameEndInfo) in
     fst (oxr_session_frame_end sess frameEndInfo) =
       Ret (oxr_session_success_result sess') /\
     XR_SUCCEEDED (oxr_session_success_result sess') = true /\
     frame_started sess' = false /\
     comp_calls sess' = calls xc ++ [xrt_comp_discard_frame]) /\
    (layerCount frameEndInfo = 0%nat ->
     (exists r, fst (oxr_session_frame_end sess frameEndInfo) = Ret r /\
                XR_SUCCEEDED r = true) ->
     blend_mode_accepted sess frameEndInfo).
Proof.
  intros sess info xc Hrun Hfs Htime Hxc blend_mode.
  apply Z.leb_gt in Htime.
  unfold oxr_session_frame_end. rewrite Hrun, Hfs, Hxc. simpl.
  rewrite Htime. fold blend_mode.
  split; [|split; [|split]].
  - intros ->. reflexivity.
  - intros Hb1 Hb2. apply Z.eqb_neq in Hb1. rewrite Hb1, Hb2. reflexivity.
  - intros Hcount [Hb1 Hb2]. fold blend_mode in Hb1, Hb2.
    apply Z.eqb_neq in Hb1, Hb2. rewrite Hb1, Hb2, Hcount. simpl.
    repeat split. apply success_result_succeeded.
  - intros Hcount (r & Hr & Hsucc). unfold blend_mode_accepted.
    fold blend_mode.
    destruct (blend_mode =? 0) eqn:Hb1.
    { simpl in Hr. injection Hr as <-. discriminate Hsucc. }
    destruct (Z.land blend_mode (hmd_blend_mode (head (sys sess))) =? 0)
      eqn:Hb2.
    { simpl in Hr. injection Hr as <-. discriminate Hsucc. }
    apply Z.eqb_neq in Hb1, Hb2. split; assumption.
Qed.

(** ** Layer verification *)

(** The quad checks in source order, read off as a decision list. *)
Lemma verify_quad_layer_null_swapchain :
  forall quad,
    sub_swapchain (quad_subImage quad) = None ->
    verify_quad_layer quad = Ret XR_ERROR_LAYER_INVALID.
Proof. intros quad H. unfold verify_quad_layer. rewrite H. reflexivity. Qed.

Lemma verify_quad_layer_null_space :
  forall quad sc,
    sub_swapchain (quad_subImage quad) = Some sc ->
    quad_space quad = XR_NULL_HANDLE ->
    verify_quad_layer quad = Ret XR_ERROR_VALIDATION_FAILURE.
Proof.
  intros quad sc Hsc Hsp. unfold verify_quad_layer.
  rewrite Hsc, Hsp. reflexivity.
Qed.

Lemma verify_projection_layer_null_space :
  forall proj,
    proj_space proj = XR_NULL_HANDLE ->
    verify_projection_layer proj = Ret XR_ERROR_VALIDATION_FAILURE.
Proof.
  intros proj Hsp. unfold verify_projection_layer. rewrite Hsp. reflexivity.
Qed.

(** C8 (as amended): a stereo-projection layer whose space handle is null
    is rejected with [XR_ERROR_VALIDATION_FAILURE] whatever its other
    fields are; so is a quad layer whose space handle is null, provided
    its swapchain reference is not null.  A quad layer with a null
    swapchain reference is rejected with [XR_ERROR_LAYER_INVALID] before
    its space is looked at. *)
Theorem verify_layer_null_space :
  (forall proj,
     proj_space proj = XR_NULL_HANDLE ->
     verify_layer (Some (LayerProjection proj)) =
       Ret XR_ERROR_VALIDATION_FAILURE) /\
  (forall quad,
     quad_space quad = XR_NULL_HANDLE ->
     sub_swapchain (quad_subImage quad) <> None ->
     verify_layer (Some (LayerQuad quad)) =
       Ret XR_ERROR_VALIDATION_FAILURE) /\
  (forall quad,
     sub_swapchain (quad_subImage quad) = None ->
     verify_layer (Some (LayerQuad quad)) = Ret XR_ERROR_LAYER_INVALID).
Proof.
  split; [|split].
  - intros proj H. simpl. now apply verify_projection_layer_null_space.
  - intros quad Hsp Hsc. simpl.
    destruct (sub_swapchain (quad_subImage quad)) as [sc|] eqn:E;
      [|contradiction].
    now apply verify_quad_layer_null_space with sc.
  - intros quad H. simpl. now apply verify_quad_layer_null_swapchain.
Qed.

(** What the loop body does with one view, case by case. *)
Lemma verify_projection_view_cases :
  forall view,
    (view_pose_valid view ->
     sub_swapchain (view_subImage view) = None ->
     verify_projection_view view = Some Undefined) /\
    (~ view_pose_valid view ->
     verify_projection_view view = Some (Ret XR_ERROR_POSE_INVALID)) /\
    (forall sc,
       sub_swapchain (view_subImage view) = Some sc ->
       verify_projection_view view <> Some Undefined) /\
    (verify_projection_view view = None ->
     view_pose_valid view /\
     exists sc,
       sub_swapchain (view_subImage view) = Some sc /\
       released_index sc <> -1 /\
       released_index sc < to_int32 (num_images (swapchain sc))).
Proof.
  intro view. unfold verify_projection_view, view_pose_valid.
  destruct (math_quat_validate (orientation (view_pose view)));
    destruct (math_vec3_validate (position (view_pose view))); simpl.
  2-4: repeat split; try discriminate; try reflexivity;
       intros [H1 H2]; discriminate.
  split; [|split; [|split]].
  - intros _ ->. reflexivity.
  - intro H. exfalso. apply H. split; reflexivity.
  - intros sc ->.
    destruct (released_index sc =? -1); [discriminate|].
    destruct (released_index sc >=? to_int32 (num_images (swapchain sc)));
      discriminate.
  - destruct (sub_swapchain (view_subImage view)) as [sc|]; [|discriminate].
    destruct (released_index sc =? -1) eqn:E1; [discriminate|].
    destruct (released_index sc >=? to_int32 (num_images (swapchain sc)))
      eqn:E2; [discriminate|].
    intros _. split; [split; reflexivity|]. exists sc.
    apply Z.eqb_neq in E1. rewrite Z.geb_leb in E2. apply Z.leb_gt in E2.
    repeat split; assumption.
Qed.

(** The view loop is defined whenever the array holds the views it reads
    and none of their swapchain references is null. *)
Lemma verify_projection_views_defined :
  forall vs n i,
    (i + n <= length vs)%nat ->
    (forall view, In view vs -> sub_swapchain (view_subImage view) <> None) ->
    verify_projection_views vs i n <> Undefined.
Proof.
  intros vs n. induction n as [|n IH]; intros i Hlen Hsc; simpl.
  - discriminate.
  - destruct (nth_error vs i) as [view|] eqn:Hnth.
    + destruct (verify_projection_view view) as [o|] eqn:Hv.
      * intros ->.
        destruct (sub_swapchain (view_subImage view)) as [sc|] eqn:E.
        -- now apply (proj1 (proj2 (proj2 (verify_projection_view_cases view)))
                        sc E).
        -- apply (Hsc view); [|exact E]. now apply nth_error_In with i.
      * apply IH; [lia|assumption].
    + apply nth_error_None in Hnth. lia.
Qed.

(** The view loop stops at the first view it cannot bring to the next
    iteration, with what the loop body gave for it. *)
Lemma verify_projection_views_stops :
  forall vs n i k view o,
    (i <= k < i + n)%nat ->
    (forall j, (i <= j < k)%nat ->
       exists vj, nth_error vs j = Some vj /\
                  verify_projection_view vj = None) ->
    nth_error vs k = Some view ->
    verify_projection_view view = Some o ->
    verify_projection_views vs i n = o.
Proof.
  intros vs n. induction n as [|n IH]; intros i k view o Hk Hbefore Hnth Hv.
  - lia.
  - simpl. destruct (Nat.eq_dec i k) as [->|Hne].
    + rewrite Hnth, Hv. reflexivity.
    + destruct (Hbefore i) as (vi & Hi & Hvi); [lia|].
      rewrite Hi, Hvi. apply IH with k view; try assumption; [lia|].
      intros j Hj. apply Hbefore. lia.
Qed.

(** A view loop that runs to completion has brought every view through. *)
Lemma verify_projection_views_success :
  forall vs n i,
    verify_projection_views vs i n = Ret XR_SUCCESS ->
    forall j, (i <= j < i + n)%nat ->
      exists vj, nth_error vs j = Some vj /\
                 verify_projection_view vj = None.
Proof.
  intros vs n. induction n as [|n IH]; intros i H j Hj; [lia|].
  simpl in H.
  destruct (nth_error vs i) as [view|] eqn:Hnth; [|discriminate].
  destruct (verify_projection_view view) as [o|] eqn:Hv.
  - subst o. exfalso.
    unfold verify_projection_view in Hv.
    destruct (math_quat_validate (orientation (view_pose view)));
      [|discriminate].
    destruct (math_vec3_validate (position (view_pose view)));
      [|discriminate].
    simpl in Hv.
    destruct (sub_swapchain (view_subImage view)) as [sc|]; [|discriminate].
    destruct (released_index sc =? -1); [discriminate|].
    destruct (released_index sc >=? to_int32 (num_images (swapchain sc)));
      discriminate.
  - destruct (Nat.eq_dec i j) as [->|Hne].
    + exists view. split; assumption.
    + apply IH with (S i); [assumption|lia].
Qed.

Lemma verify_space_not_null :
  forall space, space <> XR_NULL_HANDLE -> verify_space space = XR_SUCCESS.
Proof.
  intros space H. unfold verify_space. apply Z.eqb_neq in H. now rewrite H.
Qed.

(** A projection layer that passes has two views, each read from the array
    and each with a swapchain that was there to be dereferenced. *)
Lemma verify_projection_layer_success :
  forall proj,
    verify_projection_layer proj = Ret XR_SUCCESS ->
    viewCount proj = 2%nat /\
    forall j, (j < 2)%nat ->
      exists vj sc,
        nth_error (views proj) j = Some vj /\
        sub_swapchain (view_subImage vj) = Some sc.
Proof.
  intros proj H. unfold verify_projection_layer in H.
  destruct (verify_space (proj_space proj)); try discriminate H.
  destruct (Nat.eqb (viewCount proj) 2) eqn:Hc; simpl in H;
    [|discriminate H].
  apply Nat.eqb_eq in Hc. split; [exact Hc|]. intros j Hj.
  destruct (verify_projection_views_success _ _ _ H j) as (vj & Hnth & Hv);
    [lia|].
  destruct (proj2 (proj2 (proj2 (verify_projection_view_cases vj))) Hv)
    as (_ & sc & Hsc & _).
  exists vj, sc. split; assumption.
Qed.

(** ** Frame end: verify everything, then submit everything *)

(** Verification never produces a success code other than [XR_SUCCESS]. *)
Lemma verify_projection_views_result :
  forall vs n i r,
    verify_projection_views vs i n = Ret r ->
    r = XR_SUCCESS \/ XR_SUCCEEDED r = false.
Proof.
  intros vs n. induction n as [|n IH]; intros i r H; simpl in H.
  - injection H as <-. now left.
  - destruct (nth_error vs i) as [view|]; [|discriminate].
    destruct (verify_projection_view view) as [o|] eqn:Hv.
    + subst o. right. unfold verify_projection_view in Hv.
      destruct (math_quat_validate (orientation (view_pose view)));
        simpl in Hv; [|injection Hv as <-; reflexivity].
      destruct (math_vec3_validate (position (view_pose view)));
        simpl in Hv; [|injection Hv as <-; reflexivity].
      destruct (sub_swapchain (view_subImage view)) as [sc|];
        [|discriminate].
      destruct (released_index sc =? -1);
        [injection Hv as <-; reflexivity|].
      destruct (released_index sc >=? to_int32 (num_images (swapchain sc)));
        [injection Hv as <-; reflexivity|discriminate].
    + now apply IH with (S i).
Qed.

Lemma verify_layer_result :
  forall entry r,
    verify_layer entry = Ret r ->
    r = XR_SUCCESS \/ XR_SUCCEEDED r = false.
Proof.
  intros [[proj|quad|ty]|] r H; simpl in H.
  - unfold verify_projection_layer in H.
    destruct (verify_space (proj_space proj)) eqn:Hsp;
      try (unfold verify_space in Hsp;
           destruct (proj_space proj =? XR_NULL_HANDLE); discriminate Hsp);
      try (injection H as <-; now right).
    destruct (Nat.eqb (viewCount proj) 2); simpl in H.
    + now apply verify_projection_views_result in H.
    + injection H as <-. now right.
  - unfold verify_quad_layer in H.
    destruct (sub_swapchain (quad_subImage quad)) as [sc|];
      [|injection H as <-; now right].
    destruct (verify_space (quad_space quad)) eqn:Hsp;
      try (unfold verify_space in Hsp;
           destruct (quad_space quad =? XR_NULL_HANDLE); discriminate Hsp);
      try (injection H as <-; now right).
    repeat match type of H with
           | (if ?c then _ else _) = _ =>
               destruct c; simpl in H;
               [injection H as <-; now right|]
           | (let _ := _ in _) = _ => cbv zeta in H
           end.
    injection H as <-. now left.
  - injection H as <-. now right.
  - injection H as <-. now right.
Qed.

Lemma verify_layers_result :
  forall ls n i r,
    verify_layers ls i n = Ret r ->
    r = XR_SUCCESS \/ XR_SUCCEEDED r = false.
Proof.
  intros ls n. induction n as [|n IH]; intros i r H; simpl in H.
  - injection H as <-. now left.
  - destruct (nth_error ls i) as [entry|]; [|discriminate].
    destruct (verify_layer entry) as [r'|] eqn:Hv; [|discriminate].
    destruct (verify_layer_result _ _ Hv) as [->|Hr'].
    + now apply IH with (S i).
    + destruct r'; try discriminate Hr'; injection H as <-; now right.
Qed.

(** The verification loop returns [XR_SUCCESS] exactly when every entry it
    covers passes. *)
Lemma verify_layers_success :
  forall ls n i,
    verify_layers ls i n = Ret XR_SUCCESS <->
    forall j, (i <= j < i + n)%nat -> layer_passes ls j.
Proof.
  intros ls n. induction n as [|n IH]; intro i; simpl.
  - split; [intros _ j Hj; lia|reflexivity].
  - split.
    + intros H j Hj.
      destruct (nth_error ls i) as [entry|] eqn:Hnth; [|discriminate].
      destruct (verify_layer entry) as [r|] eqn:Hv; [|discriminate].
      destruct (verify_layer_result _ _ Hv) as [->|Hr].
      * destruct (Nat.eq_dec i j) as [<-|Hne].
        -- exists entry. split; assumption.
        -- apply (proj1 (IH (S i)) H). lia.
      * destruct r; try discriminate Hr; discriminate H.
    + intro H. destruct (H i) as (entry & Hnth & Hv); [lia|].
      rewrite Hnth, Hv. apply IH. intros j Hj. apply H. lia.
Qed.

(** The verification loop stops at the first entry that does not pass and
    evaluates to what that entry's verification evaluates to. *)
Lemma verify_layers_first_failure :
  forall ls n i k o,
    (i <= k < i + n)%nat ->
    (forall j, (i <= j < k)%nat -> layer_passes ls j) ->
    (exists entry, nth_error ls k = Some entry /\ verify_layer entry = o) ->
    o <> Ret XR_SUCCESS ->
    verify_layers ls i n = o.
Proof.
  intros ls n. induction n as [|n IH]; intros i k o Hk Hbefore Hat Ho;
    [lia|].
  simpl. destruct (Nat.eq_dec i k) as [->|Hne].
  - destruct Hat as (entry & -> & ->).
    destruct o as [[]|]; try reflexivity. now elim Ho.
  - destruct (Hbefore i) as (entry & -> & ->); [lia|].
    apply IH with k; try assumption; [lia|].
    intros j Hj. apply Hbefore. lia.
Qed.

(** A layer that is submitted is one more call on the compositor, and that
    call is a layer submission. *)
Lemma submit_layer_call :
  forall xc entry hd inv_offset timestamp xc',
    submit_layer xc entry hd inv_offset timestamp = Some xc' ->
    exists c, calls xc' = calls xc ++ [c] /\ is_layer_submit c = true.
Proof.
  intros xc [[proj|quad|ty]|] hd inv ts xc' H; simpl in H;
    try discriminate H.
  - unfold submit_projection_layer in H.
    destruct (nth_error (views proj) 0) as [v0|]; [|discriminate H].
    destruct (nth_error (views proj) 1) as [v1|]; [|discriminate H].
    destruct (sub_swapchain (view_subImage v0)) as [sc0|]; [|discriminate H].
    destruct (sub_swapchain (view_subImage v1)) as [sc1|]; [|discriminate H].
    injection H as <-. eexists. split; reflexivity.
  - unfold submit_quad_layer in H.
    destruct (sub_swapchain (quad_subImage quad)) as [sc|]; [|discriminate H].
    injection H as <-. eexists. split; reflexivity.
Qed.

Lemma submit_layers_calls :
  forall ls hd inv_offset timestamp n i xc xc',
    submit_layers xc ls hd inv_offset timestamp i n = Some xc' ->
    exists subs,
      calls xc' = calls xc ++ subs /\
      length subs = n /\
      forallb is_layer_submit subs = true.
Proof.
  intros ls hd inv ts n. induction n as [|n IH]; intros i xc xc' H;
    simpl in H.
  - injection H as <-. exists []. rewrite app_nil_r. repeat split.
  - destruct (nth_error ls i) as [entry|]; [|discriminate H].
    destruct (submit_layer xc entry hd inv ts) as [xc1|] eqn:H1;
      [|discriminate H].
    destruct (submit_layer_call _ _ _ _ _ _ H1) as (c & Hc & Hsub).
    destruct (IH _ _ _ H) as (subs & Hs & Hlen & Hall).
    exists (c :: subs). rewrite Hs, Hc, <- app_assoc. simpl.
    rewrite Hsub, Hall, Hlen. repeat split.
Qed.

(** A layer that has passed verification can be submitted: every pointer
    the submit functions dereference was seen by the verification. *)
Lemma submit_layer_after_verify :
  forall xc entry hd inv_offset timestamp,
    verify_layer entry = Ret XR_SUCCESS ->
    exists xc', submit_layer xc entry hd inv_offset timestamp = Some xc'.
Proof.
  intros xc [[proj|quad|ty]|] hd inv ts H; simpl in H; try discriminate H.
  - destruct (verify_projection_layer_success _ H) as (_ & Hviews).
    destruct (Hviews 0%nat) as (v0 & sc0 & Hn0 & Hs0); [lia|].
    destruct (Hviews 1%nat) as (v1 & sc1 & Hn1 & Hs1); [lia|].
    simpl. unfold submit_projection_layer.
    rewrite Hn0, Hn1, Hs0, Hs1. eexists. reflexivity.
  - simpl. unfold submit_quad_layer. unfold verify_quad_layer in H.
    destruct (sub_swapchain (quad_subImage quad)) as [sc|];
      [|discriminate H].
    eexists. reflexivity.
Qed.

Lemma submit_layers_after_verify :
  forall ls hd inv_offset timestamp n i xc,
    (forall j, (i <= j < i + n)%nat -> layer_passes ls j) ->
    exists xc', submit_layers xc ls hd inv_offset timestamp i n = Some xc'.
Proof.
  intros ls hd inv ts n. induction n as [|n IH]; intros i xc Hpass; simpl.
  - eexists. reflexivity.
  - destruct (Hpass i) as (entry & Hnth & Hv); [lia|]. rewrite Hnth.
    destruct (submit_layer_after_verify xc entry hd inv ts Hv) as (xc1 & ->).
    apply IH. intros j Hj. apply Hpass. lia.
Qed.

(** Whatever the session and the request: a frame-end call with layers
    either leaves the compositor's call log as it was, or its verification
    loop ran over the whole array and returned [XR_SUCCESS]. *)
Lemma oxr_session_frame_end_calls :
  forall sess frameEndInfo,
    layerCount frameEndInfo <> 0%nat ->
    comp_calls (snd (oxr_session_frame_end sess frameEndInfo)) =
      comp_calls sess \/
    exists ls,
      layers frameEndInfo = Some ls /\
      verify_layers ls 0 (layerCount frameEndInfo) = Ret XR_SUCCESS.
Proof.
  intros sess info Hcount. unfold oxr_session_frame_end.
  destruct (is_running (state sess)); simpl; [|now left].
  destruct (frame_started sess); simpl; [|now left].
  destruct (displayTime info <=? 0); [now left|].
  destruct (compositor sess) as [xc|] eqn:Hxc.
  2: { left. unfold comp_calls. simpl. now rewrite Hxc. }
  destruct (oxr_blend_mode_to_xrt (environmentBlendMode info) =? 0);
    [now left|].
  destruct (Z.land _ _ =? 0); [now left|].
  apply Nat.eqb_neq in Hcount. rewrite Hcount.
  destruct (layers info) as [ls|]; [|now left].
  destruct (verify_layers ls 0 (layerCount info)) as [[]|] eqn:Hv;
    try (now left).
  right. exists ls. split; [reflexivity|assumption].
Qed.

Lemma all_layers_pass_verify :
  forall frameEndInfo ls,
    layers frameEndInfo = Some ls ->
    (verify_layers ls 0 (layerCount frameEndInfo) = Ret XR_SUCCESS <->
     all_layers_pass frameEndInfo).
Proof.
  intros info ls Hls. rewrite verify_layers_success. unfold all_layers_pass.
  split.
  - intro H. exists ls. split; [assumption|]. intros j Hj. apply H. lia.
  - intros (ls' & Hls' & H) j Hj. rewrite Hls in Hls'.
    injection Hls' as <-. apply H. lia.
Qed.

(** Fail-fast: once the call has got to the layer array, the first entry
    that does not pass decides the call, and the session is not touched. *)
Lemma oxr_session_frame_end_first_failure :
  forall sess frameEndInfo xc ls i o,
    is_running (state sess) = true ->
    frame_started sess = true ->
    0 < displayTime frameEndInfo ->
    compositor sess = Some xc ->
    blend_mode_accepted sess frameEndInfo ->
    layers frameEndInfo = Some ls ->
    (i < layerCount frameEndInfo)%nat ->
    first_failing_layer ls i o ->
    oxr_session_frame_end sess frameEndInfo = (o, sess).
Proof.
  intros sess info xc ls i o Hrun Hfs Htime Hxc Hblend Hls Hi
         (Hbefore & Hat & Ho).
  assert (Hcount : layerCount info <> 0%nat) by lia.
  rewrite (oxr_session_frame_end_layers
             sess info xc Hrun Hfs Htime Hxc Hblend Hcount), Hls.
  assert (Hv : verify_layers ls 0 (layerCount info) = o).
  { apply verify_layers_first_failure with i; try assumption; [lia|].
    intros j Hj. apply Hbefore. lia. }
  rewrite Hv. destruct o as [[]|]; try reflexivity. now elim Ho.
Qed.

(** C1: for every endFrame call with a non-empty layer list.
    (1) If the call hands any layer to the compositor, then every layer of
    the list has passed verification.  (2) If some layer of the list fails
    verification, the call issues no compositor call at all.  (3) When the
    call gets as far as the layer list (running session with a compositor,
    frame open, positive display time, accepted blend mode): the first
    failing layer's own verification outcome is the result of the call and
    the session is left untouched; and if all layers pass, the call
    succeeds, closes the frame, and the compositor receives layer-begin,
    then one submission per layer, then layer-commit. *)
Theorem oxr_session_frame_end_validate_then_submit :
  forall sess frameEndInfo,
    layerCount frameEndInfo <> 0%nat ->
    let r := fst (oxr_session_frame_end sess frameEndInfo) in
    let sess' := snd (oxr_session_frame_end sess frameEndInfo) in
    (forall new,
       comp_calls sess' = comp_calls sess ++ new ->
       existsb is_layer_submit new = true ->
       all_layers_pass frameEndInfo) /\
    (forall ls i o,
       layers frameEndInfo = Some ls ->
       (i < layerCount frameEndInfo)%nat ->
       first_failing_layer ls i o ->
       comp_calls sess' = comp_calls sess) /\
    (forall xc,
       is_running (state sess) = true ->
       frame_started sess = true ->
       0 < displayTime frameEndInfo ->
       compositor sess = Some xc ->
       blend_mode_accepted sess frameEndInfo ->
       (forall ls i o,
          layers frameEndInfo = Some ls ->
          (i < layerCount frameEndInfo)%nat ->
          first_failing_layer ls i o ->
          r = o /\ sess' = sess) /\
       (all_layers_pass frameEndInfo ->
        exists subs,
          r = Ret (oxr_session_success_result sess') /\
          frame_started sess' = false /\
          comp_calls sess' =
            calls xc ++
            [xrt_comp_layer_begin
               (oxr_blend_mode_to_xrt (environmentBlendMode frameEndInfo))]
            ++ subs ++ [xrt_comp_layer_commit] /\
          length subs = layerCount frameEndInfo /\
          forallb is_layer_submit subs = true)).
Proof.
  intros sess info Hcount r sess'.
  assert (Hfail : forall ls i o,
             layers info = Some ls ->
             (i < layerCount info)%nat ->
             first_failing_layer ls i o ->
             verify_layers ls 0 (layerCount info) = o /\ o <> Ret XR_SUCCESS).
  { intros ls i o Hls Hi (Hbefore & Hat & Ho). split; [|exact Ho].
    apply verify_layers_first_failure with i; try assumption; [lia|].
    intros j Hj. apply Hbefore. lia. }
  split; [|split].
  - intros new Hnew Hsub.
    destruct (oxr_session_frame_end_calls sess info Hcount)
      as [Hsame|(ls & Hls & Hv)].
    + fold sess' in Hsame. rewrite Hsame in Hnew.
      rewrite <- (app_nil_r (comp_calls sess)) in Hnew at 1.
      apply app_inv_head in Hnew. subst new. discriminate Hsub.
    + now apply (all_layers_pass_verify info ls Hls).
  - intros ls i o Hls Hi Hff.
    destruct (oxr_session_frame_end_calls sess info Hcount)
      as [Hsame|(ls' & Hls' & Hv)]; [exact Hsame|].
    rewrite Hls in Hls'. injection Hls' as <-.
    destruct (Hfail ls i o Hls Hi Hff) as [Ho Hne].
    rewrite Hv in Ho. now elim Hne.
  - intros xc Hrun Hfs Htime Hxc Hblend.
    pose proof (oxr_session_frame_end_layers
                  sess info xc Hrun Hfs Htime Hxc Hblend Hcount) as Hend.
    split.
    + intros ls i o Hls Hi Hff. unfold r, sess'.
      rewrite (oxr_session_frame_end_first_failure
                 sess info xc ls i o Hrun Hfs Htime Hxc Hblend Hls Hi Hff).
      split; reflexivity.
    + intros Hall. destruct Hall as (ls & Hls & Hpass).
      assert (Hv : verify_layers ls 0 (layerCount info) = Ret XR_SUCCESS).
      { apply verify_layers_success. intros j Hj. apply Hpass. lia. }
      destruct (submit_layers_after_verify ls (head (sys sess))
                  (math_pose_invert (tracking_origin_offset (head (sys sess))))
                  (displayTime info) (layerCount info) 0
                  (comp_call xc
                     (xrt_comp_layer_begin
                        (oxr_blend_mode_to_xrt (environmentBlendMode info)))))
        as (xc' & Hsub).
      { intros j Hj. apply Hpass. lia. }
      destruct (submit_layers_calls _ _ _ _ _ _ _ _ Hsub)
        as (subs & Hcalls & Hlen & Hsubs).
      exists subs. unfold r, sess'. rewrite Hend, Hls, Hv, Hsub. simpl.
      split; [reflexivity|]. split; [reflexivity|].
      split; [|split; assumption].
      unfold comp_calls. simpl. rewrite Hcalls. simpl.
      rewrite <- !app_assoc. reflexivity.
Qed.

(** ** The unguarded swapchain of a projection view *)

(** C10: the view loop of [verify_projection_layer] dereferences each
    view's swapchain without a null test.  (1) The verification is defined
    (returns a result code) when the array holds the views that are read
    and no view's swapchain reference is null.  (2) When the loop reaches
    a view whose swapchain reference is null (non-null space, view count
    2, the views before it brought through, its own pose valid), no error
    is returned: the behaviour is undefined.  (3) A projection layer that
    passes had both swapchain references non-null.  (4) The quad path, by
    contrast, rejects a null swapchain with [XR_ERROR_LAYER_INVALID].
    (5) The undefined behaviour is that of the whole frame-end call when
    such a layer is the first one that does not pass. *)
Theorem verify_projection_layer_swapchain_unguarded :
  (forall proj,
     (viewCount proj <= length (views proj))%nat ->
     (forall view, In view (views proj) ->
        sub_swapchain (view_subImage view) <> None) ->
     verify_projection_layer proj <> Undefined) /\
  (forall proj k view,
     proj_space proj <> XR_NULL_HANDLE ->
     viewCount proj = 2%nat ->
     (k < 2)%nat ->
     nth_error (views proj) k = Some view ->
     (forall j, (j < k)%nat ->
        exists vj, nth_error (views proj) j = Some vj /\
                   verify_projection_view vj = None) ->
     view_pose_valid view ->
     sub_swapchain (view_subImage view) = None ->
     verify_projection_layer proj = Undefined) /\
  (forall proj,
     verify_projection_layer proj = Ret XR_SUCCESS ->
     forall j, (j < 2)%nat ->
       exists vj sc,
         nth_error (views proj) j = Some vj /\
         sub_swapchain (view_subImage vj) = Some sc) /\
  (forall quad,
     sub_swapchain (quad_subImage quad) = None ->
     verify_quad_layer quad = Ret XR_ERROR_LAYER_INVALID) /\
  (forall sess frameEndInfo xc ls i proj,
     is_running (state sess) = true ->
     frame_started sess = true ->
     0 < displayTime frameEndInfo ->
     compositor sess = Some xc ->
     blend_mode_accepted sess frameEndInfo ->
     layers frameEndInfo = Some ls ->
     (i < layerCount frameEndInfo)%nat ->
     (forall j, (j < i)%nat -> layer_passes ls j) ->
     nth_error ls i = Some (Some (LayerProjection proj)) ->
     verify_projection_layer proj = Undefined ->
     oxr_session_frame_end sess frameEndInfo = (Undefined, sess)).
Proof.
  split; [|split; [|split; [|split]]].
  - intros proj Hlen Hsc. unfold verify_projection_layer.
    destruct (verify_space (proj_space proj)); try discriminate.
    destruct (Nat.eqb (viewCount proj) 2); simpl; [|discriminate].
    apply verify_projection_views_defined; [lia|assumption].
  - intros proj k view Hsp Hcount Hk Hnth Hbefore Hpose Hsc.
    unfold verify_projection_layer.
    rewrite (verify_space_not_null _ Hsp), Hcount. simpl Nat.eqb. cbv iota.
    simpl negb. cbv iota.
    apply verify_projection_views_stops with k view.
    + lia.
    + intros j Hj. apply Hbefore. lia.
    + exact Hnth.
    + now apply (proj1 (verify_projection_view_cases view)).
  - intros proj H. now apply verify_projection_layer_success.
  - exact verify_quad_layer_null_swapchain.
  - intros sess info xc ls i proj Hrun Hfs Htime Hxc Hblend Hls Hi
           Hbefore Hnth Hundef.
    apply oxr_session_frame_end_first_failure with xc ls i;
      try assumption.
    split; [exact Hbefore|]. split; [|discriminate].
    exists (Some (LayerProjection proj)). split; [exact Hnth|exact Hundef].
Qed.

(** ** The frame-open flag *)

(** Every successful endFrame call closes the frame, headless or not. *)
Lemma oxr_session_frame_end_success_closes_frame :
  forall sess frameEndInfo r,
    fst (oxr_session_frame_end sess frameEndInfo) = Ret r ->
    XR_SUCCEEDED r = true ->
    frame_started (snd (oxr_session_frame_end sess frameEndInfo)) = false.
Proof.
  intros sess info r. unfold oxr_session_frame_end.
  destruct (is_running (state sess)); simpl;
    [|intros [= <-]; discriminate].
  destruct (frame_started sess) eqn:Hfs; simpl;
    [|intros [= <-]; discriminate].
  destruct (displayTime info <=? 0); [intros [= <-]; discriminate|].
  destruct (compositor sess) as [xc|]; [|reflexivity].
  destruct (oxr_blend_mode_to_xrt (environmentBlendMode info) =? 0);
    [intros [= <-]; discriminate|].
  destruct (Z.land _ _ =? 0); [intros [= <-]; discriminate|].
  destruct (Nat.eqb (layerCount info) 0); [reflexivity|].
  destruct (layers info) as [ls|]; [|intros [= <-]; discriminate].
  destruct (verify_layers ls 0 (layerCount info)) as [r'|] eqn:Hv.
  - destruct (verify_layers_result _ _ _ _ Hv) as [->|Hr'].
    + destruct (submit_layers _ _ _ _ _ _ _); [reflexivity|discriminate].
    + destruct r'; try discriminate Hr'; intros [= <-] Hs;
        discriminate Hs.
  - discriminate.
Qed.

(** With a compositor, end discards an open frame and clears the flag. *)
Lemma oxr_session_end_closes_frame :
  forall sess xc,
    compositor sess = Some xc ->
    state sess = XR_SESSION_STATE_STOPPING ->
    frame_started (snd (oxr_session_end sess)) = false /\
    comp_calls (snd (oxr_session_end sess)) =
      calls xc
      ++ (if frame_started sess then [xrt_comp_discard_frame] else [])
      ++ [xrt_comp_end_session].
Proof.
  intros sess xc Hxc Hst. unfold oxr_session_end.
  rewrite Hst, Hxc. simpl. unfold call_if_present, comp_calls.
  destruct (frame_started sess) eqn:Hfs; simpl; rewrite ?Hxc; simpl;
    destruct (exiting sess); simpl; rewrite <- ?app_assoc;
    split; try reflexivity; assumption.
Qed.

(** C4, where the code departs from it: on a headless session in state
    STOPPING with a frame open, end succeeds and [frame_started] is still
    true afterwards; the open frame is not discarded. *)
Theorem oxr_session_end_headless_keeps_frame_started :
  forall sess,
    compositor sess = None ->
    state sess = XR_SESSION_STATE_STOPPING ->
    frame_started sess = true ->
    XR_SUCCEEDED (fst (oxr_session_end sess)) = true /\
    frame_started (snd (oxr_session_end sess)) = true.
Proof.
  intros sess Hxc Hst Hfs. unfold oxr_session_end.
  rewrite Hst, Hxc. simpl. split; [apply success_result_succeeded|].
  destruct (exiting sess); simpl; exact Hfs.
Qed.

(** What the stale flag does next: once such a session is begun again, its
    very first beginFrame reports a discarded frame. *)
Lemma headless_restart_first_frame_discarded :
  forall sess beginInfo,
    compositor sess = None ->
    state sess = XR_SESSION_STATE_STOPPING ->
    frame_started sess = true ->
    let ended := snd (oxr_session_end sess) in
    let begun := snd (oxr_session_begin ended beginInfo) in
    state begun = XR_SESSION_STATE_FOCUSED /\
    fst (oxr_session_frame_begin begun) = XR_FRAME_DISCARDED.
Proof.
  intros sess bi Hxc Hst Hfs. unfold oxr_session_end.
  rewrite Hst, Hxc. simpl.
  unfold oxr_session_begin.
  destruct (exiting sess); simpl; rewrite Hxc; simpl;
    unfold oxr_session_frame_begin; simpl; rewrite Hfs; split; reflexivity.
Qed.

(** ** Pose prediction *)

(** An in-range difference is what [ns_diff] holds. *)
Lemma to_int64_in_range :
  forall z, - 2 ^ 63 <= z < 2 ^ 63 -> to_int64 z = z.
Proof.
  intros z Hz. unfold to_int64. rewrite Z.mod_small; lia.
Qed.

(** C9: the pose returned by [oxr_session_get_view_pose_at] always has
    the sample's position.  When the sample's flags carry the
    angular-velocity-valid bit, its orientation is the sample's
    orientation integrated by the sample's angular velocity over
    [time_ns_to_s (at_time - timestamp) + static_prediction_s] if dynamic
    prediction is enabled and over [static_prediction_s] otherwise; the
    difference is the [int64_t] one of the source, which is the
    mathematical difference whenever that fits.  When the bit is absent,
    the sample's pose is returned as it is. *)
Theorem oxr_session_get_view_pose_at_prediction :
  forall sess at_time,
    let timestamp := fst (oxr_xdev_get_relation_at (sys sess) at_time) in
    let relation := snd (oxr_xdev_get_relation_at (sys sess) at_time) in
    let result := oxr_session_get_view_pose_at sess at_time in
    let ns_diff := to_int64 (at_time - timestamp) in
    let interval :=
      if debug_get_bool_option_dynamic_prediction
      then float_add (time_ns_to_s ns_diff) (static_prediction_s sess)
      else static_prediction_s sess in
    fst result = oxr_session_success_result sess /\
    position (snd result) = position (pose relation) /\
    (Z.land (relation_flags relation)
            XRT_SPACE_RELATION_ANGULAR_VELOCITY_VALID_BIT <> 0 ->
     orientation (snd result) =
       math_quat_integrate_velocity
         (orientation (pose relation)) (angular_velocity relation)
         interval) /\
    (Z.land (relation_flags relation)
            XRT_SPACE_RELATION_ANGULAR_VELOCITY_VALID_BIT = 0 ->
     snd result = pose relation) /\
    (- 2 ^ 63 <= at_time - timestamp < 2 ^ 63 ->
     ns_diff = at_time - timestamp).
Proof.
  intros sess at_time. unfold oxr_session_get_view_pose_at.
  destruct (oxr_xdev_get_relation_at (sys sess) at_time)
    as [timestamp relation].
  cbv zeta. simpl fst. simpl snd.
  split; [reflexivity|].
  destruct (Z.land (relation_flags relation)
                   XRT_SPACE_RELATION_ANGULAR_VELOCITY_VALID_BIT =? 0)
    eqn:Hflag; simpl.
  - apply Z.eqb_eq in Hflag.
    split; [reflexivity|]. split; [intro H; now elim H|].
    split; [reflexivity|]. apply to_int64_in_range.
  - apply Z.eqb_neq in Hflag.
    split; [reflexivity|]. split; [reflexivity|].
    split; [intro H; now elim Hflag|]. apply to_int64_in_range.
Qed.

(** * Beyond the entry points taken one at a time *)

(** ** Exit requests *)

(** The notifications an exit request emits when it walks the state down
    from [st]; a session already in STOPPING is notified of STOPPING once
    more. *)
Definition exit_notifications (st : XrSessionState) : list XrSessionState :=
  match st with
  | XR_SESSION_STATE_FOCUSED =>
      [XR_SESSION_STATE_VISIBLE; XR_SESSION_STATE_SYNCHRONIZED;
       XR_SESSION_STATE_STOPPING]
  | XR_SESSION_STATE_VISIBLE =>
      [XR_SESSION_STATE_SYNCHRONIZED; XR_SESSION_STATE_STOPPING]
  | _ => [XR_SESSION_STATE_STOPPING]
  end.

(** [oxr_session_request_exit]: refused with
    [XR_ERROR_SESSION_NOT_RUNNING], session untouched, when the session is
    not running.  Otherwise it succeeds from every running state, STOPPING
    included: the state ends at STOPPING, the exiting flag is set, one
    notification is emitted per step of the walk down, and neither the
    open frame nor the compositor is touched. *)
Theorem oxr_session_request_exit_outcomes :
  forall sess,
    (is_running (state sess) = false ->
     oxr_session_request_exit sess = (XR_ERROR_SESSION_NOT_RUNNING, sess)) /\
    (is_running (state sess) = true ->
     let sess' := snd (oxr_session_request_exit sess) in
     fst (oxr_session_request_exit sess) = oxr_session_success_result sess' /\
     state sess' = XR_SESSION_STATE_STOPPING /\
     exiting sess' = true /\
     events sess' = events sess ++ exit_notifications (state sess) /\
     frame_started sess' = frame_started sess /\
     compositor sess' = compositor sess).
Proof.
  intro sess. unfold oxr_session_request_exit. split.
  - intros ->. reflexivity.
  - intros Hrun. rewrite Hrun. simpl.
    destruct (state sess) eqn:Hst; try discriminate Hrun; simpl;
      rewrite ?Hst; simpl; rewrite <- ?app_assoc; repeat split.
Qed.

(** ** Sequences of calls *)

Set Implicit Arguments.

(** The entry points that act on the session. *)
Inductive oxr_call : Type :=
| call_begin (beginInfo : XrSessionBeginInfo)
| call_end
| call_request_exit
| call_frame_begin
| call_frame_end (frameEndInfo : XrFrameEndInfo).

Definition oxr_apply (sess : oxr_session) (c : oxr_call)
  : outcome * oxr_session :=
  match c with
  | call_begin beginInfo =>
      (Ret (fst (oxr_session_begin sess beginInfo)),
       snd (oxr_session_begin sess beginInfo))
  | call_end => (Ret (fst (oxr_session_end sess)), snd (oxr_session_end sess))
  | call_request_exit =>
      (Ret (fst (oxr_session_request_exit sess)),
       snd (oxr_session_request_exit sess))
  | call_frame_begin =>
      (Ret (fst (oxr_session_frame_begin sess)),
       snd (oxr_session_frame_begin sess))
  | call_frame_end frameEndInfo => oxr_session_frame_end sess frameEndInfo
  end.

(** The session after the calls [cs], made one after the other; [None]
    when one of them has undefined behaviour. *)
Fixpoint oxr_run (sess : oxr_session) (cs : list oxr_call)
  : option oxr_session :=
  match cs with
  | [] => Some sess
  | c :: cs' =>
      match fst (oxr_apply sess c) with
      | Ret _ => oxr_run (snd (oxr_apply sess c)) cs'
      | Undefined => None
      end
  end.

Definition is_request_exit (c : oxr_call) : bool :=
  match c with
  | call_request_exit => true
  | _ => false
  end.

(** What the compositor has been told so far: whether its session is
    begun, whether a frame is begun, whether a layer list is open. *)
Record comp_phase : Type := mk_phase {
  session_begun : bool;
  frame_begun : bool;
  layers_begun : bool
}.

(** The call order a compositor expects: a session is begun and ended
    around frames; a frame is begun, then discarded or committed; layers
    are submitted between layer-begin and layer-commit only.  [None] for a
    call out of order. *)
Definition comp_protocol_step (p : comp_phase) (c : xrt_comp_call)
  : option comp_phase :=
  match c with
  | xrt_comp_begin_session _ =>
      if session_begun p then None else Some (mk_phase true false false)
  | xrt_comp_end_session =>
      if session_begun p && negb (frame_begun p)
      then Some (mk_phase false false false) else None
  | xrt_comp_begin_frame =>
      if session_begun p && negb (frame_begun p)
      then Some (mk_phase true true false) else None
  | xrt_comp_discard_frame =>
      if frame_begun p && negb (layers_begun p)
      then Some (mk_phase (session_begun p) false false) else None
  | xrt_comp_layer_begin _ =>
      if frame_begun p && negb (layers_begun p)
      then Some (mk_phase (session_begun p) true true) else None
  | xrt_comp_layer_quad _ _ _ _ _ _ _ _ _ _ _ =>
      if layers_begun p then Some p else None
  | xrt_comp_layer_stereo_projection _ _ _ _ _ _ _ _ _ _ _ _ _ _ _ _ =>
      if layers_begun p then Some p else None
  | xrt_comp_layer_commit =>
      if layers_begun p
      then Some (mk_phase (session_begun p) false false) else None
  end.

Fixpoint comp_protocol (p : comp_phase) (cs : list xrt_comp_call)
  : option comp_phase :=
  match cs with
  | [] => Some p
  | c :: cs' =>
      match comp_protocol_step p c with
      | Some p' => comp_protocol p' cs'
      | None => None
      end
  end.

(** The compositor's call log is in protocol order and has left the
    compositor where the session believes it to be: session begun exactly
    when the session is running, frame begun exactly when
    [frame_started], no layer list open. *)
Definition log_in_step (sess : oxr_session) : Prop :=
  exists xc,
    compositor sess = Some xc /\
    comp_protocol (mk_phase false false false) (calls xc) =
      Some (mk_phase (is_running (state sess)) (frame_started sess) false).

Unset Implicit Arguments.

(** *** What one call can do to the session *)

Lemma comp_protocol_app :
  forall cs1 cs2 p,
    comp_protocol p (cs1 ++ cs2) =
      match comp_protocol p cs1 with
      | Some p' => comp_protocol p' cs2
      | None => None
      end.
Proof.
  induction cs1 as [|c cs1 IH]; intros cs2 p; simpl; [reflexivity|].
  destruct (comp_protocol_step p c); [apply IH|reflexivity].
Qed.

(** A frame is only ever begun inside a session, a layer list inside a
    frame. *)
Definition phase_nested (p : comp_phase) : Prop :=
  (frame_begun p = true -> session_begun p = true) /\
  (layers_begun p = true -> frame_begun p = true).

Lemma comp_protocol_nested :
  forall cs p p',
    phase_nested p -> comp_protocol p cs = Some p' -> phase_nested p'.
Proof.
  induction cs as [|c cs IH]; intros p p' Hp H; simpl in H.
  - injection H as <-. exact Hp.
  - destruct (comp_protocol_step p c) as [p1|] eqn:Hstep; [|discriminate].
    apply (IH p1 p'); [|exact H].
    destruct Hp as [Hp1 Hp2]. unfold phase_nested.
    destruct p as [s f l]; simpl in *.
    destruct c; simpl in Hstep;
      destruct s, f, l; simpl in Hstep; try discriminate Hstep;
      injection Hstep as <-; simpl; split; auto.
Qed.

(** Layer submissions are in order anywhere inside an open layer list. *)
Lemma comp_protocol_submissions :
  forall subs p,
    layers_begun p = true ->
    forallb is_layer_submit subs = true ->
    comp_protocol p subs = Some p.
Proof.
  induction subs as [|c subs IH]; intros p Hp Hall; simpl; [reflexivity|].
  simpl in Hall. apply andb_prop in Hall. destruct Hall as [Hc Hall].
  destruct c; simpl in Hc; try discriminate Hc; simpl; rewrite Hp;
    now apply IH.
Qed.

(** A frame-end call either leaves the session exactly as it was and
    reports no success, or it succeeds and closes the frame; in the latter
    case the compositor, if there is one, has been sent either a single
    discard or layer-begin, one submission per layer and layer-commit. *)
Lemma oxr_session_frame_end_effect :
  forall sess frameEndInfo,
    let r := fst (oxr_session_frame_end sess frameEndInfo) in
    let sess' := snd (oxr_session_frame_end sess frameEndInfo) in
    (sess' = sess /\
     (r = Undefined \/ exists e, r = Ret e /\ XR_SUCCEEDED e = false)) \/
    (is_running (state sess) = true /\
     frame_started sess = true /\
     0 < displayTime frameEndInfo /\
     r = Ret (oxr_session_success_result sess') /\
     state sess' = state sess /\
     exiting sess' = exiting sess /\
     events sess' = events sess /\
     frame_started sess' = false /\
     ((compositor sess = None /\ compositor sess' = None) \/
      exists xc new,
        compositor sess = Some xc /\
        compositor sess' = Some (mk_compositor (calls xc ++ new)) /\
        (new = [xrt_comp_discard_frame] /\
         layerCount frameEndInfo = 0%nat \/
         exists subs,
           new =
             xrt_comp_layer_begin
               (oxr_blend_mode_to_xrt (environmentBlendMode frameEndInfo))
             :: subs ++ [xrt_comp_layer_commit] /\
           forallb is_layer_submit subs = true /\
           length subs = layerCount frameEndInfo /\
           layerCount frameEndInfo <> 0%nat))).
Proof.
  intros sess info r sess'. subst r sess'. unfold oxr_session_frame_end.
  destruct (is_running (state sess)) eqn:Hrun; simpl.
  2: { left. split; [reflexivity|]. right. eexists. split; reflexivity. }
  destruct (frame_started sess) eqn:Hfs; simpl.
  2: { left. split; [reflexivity|]. right. eexists. split; reflexivity. }
  destruct (displayTime info <=? 0) eqn:Htime.
  { left. split; [reflexivity|]. right. eexists. split; reflexivity. }
  apply Z.leb_gt in Htime.
  destruct (compositor sess) as [xc|] eqn:Hxc.
  2: { right. simpl. rewrite Hxc. repeat split; auto. }
  destruct (oxr_blend_mode_to_xrt (environmentBlendMode info) =? 0).
  { left. split; [reflexivity|]. right. eexists. split; reflexivity. }
  destruct (Z.land _ _ =? 0).
  { left. split; [reflexivity|]. right. eexists. split; reflexivity. }
  destruct (Nat.eqb (layerCount info) 0) eqn:Hcount.
  { apply Nat.eqb_eq in Hcount. right. simpl. repeat split; auto.
    right. exists xc, [xrt_comp_discard_frame]. repeat split; auto. }
  apply Nat.eqb_neq in Hcount.
  destruct (layers info) as [ls|].
  2: { left. split; [reflexivity|]. right. eexists. split; reflexivity. }
  destruct (verify_layers ls 0 (layerCount info)) as [e|] eqn:Hv.
  2: { left. split; [reflexivity|]. now left. }
  destruct (verify_layers_result _ _ _ _ Hv) as [->|He].
  2: { left. destruct e; try discriminate He;
         (split; [reflexivity|]); right; eexists; split; reflexivity. }
  destruct (submit_layers _ _ _ _ _ _ _) as [xc'|] eqn:Hsub.
  2: { left. split; [reflexivity|]. now left. }
  destruct (submit_layers_calls _ _ _ _ _ _ _ _ Hsub)
    as (subs & Hcalls & Hlen & Hall).
  right. simpl. repeat split; auto.
  right. eexists xc, _. split; [reflexivity|]. split.
  - unfold comp_call. rewrite Hcalls. simpl. rewrite <- !app_assoc.
    simpl. reflexivity.
  - right. exists subs. repeat split; auto.
Qed.

(** A begin either is refused and changes nothing, or takes a session
    that was not running to FOCUSED and tells the compositor, if any. *)
Lemma oxr_session_begin_effect :
  forall sess beginInfo,
    let r := fst (oxr_session_begin sess beginInfo) in
    let sess' := snd (oxr_session_begin sess beginInfo) in
    (sess' = sess /\ XR_SUCCEEDED r = false) \/
    (is_running (state sess) = false /\
     XR_SUCCEEDED r = true /\
     state sess' = XR_SESSION_STATE_FOCUSED /\
     exiting sess' = exiting sess /\
     frame_started sess' = frame_started sess /\
     events sess' =
       events sess ++ [XR_SESSION_STATE_SYNCHRONIZED;
                       XR_SESSION_STATE_VISIBLE;
                       XR_SESSION_STATE_FOCUSED] /\
     ((compositor sess = None /\ compositor sess' = None) \/
      exists xc,
        compositor sess = Some xc /\
        compositor sess' =
          Some (mk_compositor
                  (calls xc ++
                   [xrt_comp_begin_session
                      (primaryViewConfigurationType beginInfo)])))).
Proof.
  intros sess bi r sess'. subst r sess'. unfold oxr_session_begin.
  destruct (is_running (state sess)) eqn:Hrun; [left; split; reflexivity|].
  destruct (compositor sess) as [xc|] eqn:Hxc.
  - destruct (primaryViewConfigurationType bi =? view_config_type (sys sess));
      simpl; [|left; split; reflexivity].
    right. rewrite success_result_succeeded, <- !app_assoc.
    repeat split. right. exists xc. split; reflexivity.
  - right. simpl. rewrite success_result_succeeded, <- !app_assoc, Hxc.
    repeat split. left. split; reflexivity.
Qed.

(** An end either is refused and changes nothing, or takes a STOPPING
    session to EXITING or READY; with a compositor it discards an open
    frame first, without one it leaves [frame_started] alone. *)
Lemma oxr_session_end_effect :
  forall sess,
    let r := fst (oxr_session_end sess) in
    let sess' := snd (oxr_session_end sess) in
    (sess' = sess /\ XR_SUCCEEDED r = false) \/
    (state sess = XR_SESSION_STATE_STOPPING /\
     XR_SUCCEEDED r = true /\
     state sess' =
       (if exiting sess then XR_SESSION_STATE_EXITING
        else XR_SESSION_STATE_READY) /\
     exiting sess' = exiting sess /\
     events sess' =
       events sess ++
       [XR_SESSION_STATE_IDLE;
        if exiting sess then XR_SESSION_STATE_EXITING
        else XR_SESSION_STATE_READY] /\
     ((compositor sess = None /\ compositor sess' = None /\
       frame_started sess' = frame_started sess) \/
      exists xc,
        compositor sess = Some xc /\
        compositor sess' =
          Some (mk_compositor
                  (calls xc ++
                   (if frame_started sess then [xrt_comp_discard_frame]
                    else []) ++
                   [xrt_comp_end_session])) /\
        frame_started sess' = false)).
Proof.
  intros sess r sess'. subst r sess'. unfold oxr_session_end.
  destruct (is_running (state sess)) eqn:Hrun; simpl;
    [|left; split; reflexivity].
  destruct (XrSessionState_eqb (state sess) XR_SESSION_STATE_STOPPING)
    eqn:Hst; simpl; [|left; split; reflexivity].
  apply XrSessionState_eqb_eq in Hst.
  right. rewrite success_result_succeeded. unfold call_if_present.
  destruct (compositor sess) as [xc|] eqn:Hxc;
    destruct (frame_started sess) eqn:Hfs; simpl; rewrite ?Hxc; simpl;
    destruct (exiting sess) eqn:Hex; simpl; rewrite ?Hxc, <- ?app_assoc;
    simpl; repeat split; auto;
    try (left; repeat split; assumption);
    right; exists xc; unfold comp_call; simpl; rewrite <- ?app_assoc;
    repeat split; auto.
Qed.

Lemma oxr_session_request_exit_effect :
  forall sess,
    let r := fst (oxr_session_request_exit sess) in
    let sess' := snd (oxr_session_request_exit sess) in
    (sess' = sess /\ XR_SUCCEEDED r = false) \/
    (is_running (state sess) = true /\
     XR_SUCCEEDED r = true /\
     state sess' = XR_SESSION_STATE_STOPPING /\
     exiting sess' = true /\
     frame_started sess' = frame_started sess /\
     compositor sess' = compositor sess /\
     events sess' = events sess ++ exit_notifications (state sess)).
Proof.
  intros sess r sess'. subst r sess'. unfold oxr_session_request_exit.
  destruct (is_running (state sess)) eqn:Hrun; simpl;
    [|left; split; reflexivity].
  right. rewrite success_result_succeeded.
  destruct (state sess) eqn:Hst; try discriminate Hrun; simpl;
    rewrite ?Hst; simpl; rewrite <- ?app_assoc; repeat split.
Qed.

Lemma oxr_session_frame_begin_effect :
  forall sess,
    let r := fst (oxr_session_frame_begin sess) in
    let sess' := snd (oxr_session_frame_begin sess) in
    (sess' = sess /\ XR_SUCCEEDED r = false) \/
    (is_running (state sess) = true /\
     XR_SUCCEEDED r = true /\
     state sess' = state sess /\
     exiting sess' = exiting sess /\
     events sess' = events sess /\
     frame_started sess' = true /\
     ((compositor sess = None /\ compositor sess' = None) \/
      exists xc,
        compositor sess = Some xc /\
        compositor sess' =
          Some (mk_compositor
                  (calls xc ++
                   (if frame_started sess then [xrt_comp_discard_frame]
                    else []) ++
                   [xrt_comp_begin_frame])))).
Proof.
  intros sess r sess'. subst r sess'. unfold oxr_session_frame_begin.
  destruct (is_running (state sess)) eqn:Hrun; simpl;
    [|left; split; reflexivity].
  right. unfold call_if_present.
  destruct (frame_started sess) eqn:Hfs;
    destruct (compositor sess) as [xc|] eqn:Hxc; simpl; rewrite ?Hxc; simpl;
    rewrite ?Hxc, ?success_result_succeeded, <- ?app_assoc; simpl;
    repeat split; auto;
    try (left; split; reflexivity);
    right; exists xc; unfold comp_call; simpl; rewrite <- ?app_assoc;
    split; reflexivity.
Qed.

(** An invariant that every single call keeps is kept by every run. *)
Lemma oxr_run_invariant :
  forall (Inv : oxr_session -> Prop),
    (forall sess c, Inv sess -> Inv (snd (oxr_apply sess c))) ->
    forall cs sess sess',
      Inv sess -> oxr_run sess cs = Some sess' -> Inv sess'.
Proof.
  intros Inv Hstep. induction cs as [|c cs IH]; intros sess sess' Hinv H;
    simpl in H.
  - injection H as <-. exact Hinv.
  - destruct (fst (oxr_apply sess c)); [|discriminate H].
    apply (IH (snd (oxr_apply sess c))); [|exact H].
    now apply Hstep.
Qed.

(** *** What every run keeps *)

(** The states a session can be found in between two calls. *)
Definition between_calls (sess : oxr_session) : Prop :=
  (exiting sess = false /\
   (state sess = XR_SESSION_STATE_READY \/
    state sess = XR_SESSION_STATE_FOCUSED)) \/
  (exiting sess = true /\
   (state sess = XR_SESSION_STATE_FOCUSED \/
    state sess = XR_SESSION_STATE_STOPPING \/
    state sess = XR_SESSION_STATE_EXITING)).

Lemma between_calls_step :
  forall sess c, between_calls sess -> between_calls (snd (oxr_apply sess c)).
Proof.
  intros sess c Hinv. unfold between_calls in *. destruct c; simpl.
  - destruct (oxr_session_begin_effect sess beginInfo)
      as [[-> _]|(_ & _ & Hst & Hex & _)]; [exact Hinv|].
    rewrite Hst, Hex. destruct (exiting sess); [right|left]; auto.
  - destruct (oxr_session_end_effect sess)
      as [[-> _]|(Hstop & _ & Hst & Hex & _)]; [exact Hinv|].
    rewrite Hst, Hex.
    destruct Hinv as [[He [H|H]]|[He _]];
      try (rewrite Hstop in H; discriminate H).
    rewrite He. right. auto.
  - destruct (oxr_session_request_exit_effect sess)
      as [[-> _]|(_ & _ & Hst & Hex & _)]; [exact Hinv|].
    rewrite Hst, Hex. right. auto.
  - destruct (oxr_session_frame_begin_effect sess)
      as [[-> _]|(_ & _ & Hst & Hex & _)]; [exact Hinv|].
    rewrite Hst, Hex. exact Hinv.
  - destruct (oxr_session_frame_end_effect sess frameEndInfo)
      as [[-> _]|(_ & _ & _ & _ & Hst & Hex & _)]; [exact Hinv|].
    rewrite Hst, Hex. exact Hinv.
Qed.

(** Between calls, a session that was created READY with no exit requested
    is only ever found READY, FOCUSED, STOPPING or EXITING: READY or
    FOCUSED as long as no exit has been requested, and FOCUSED, STOPPING or
    EXITING, never READY again, once one has.  SYNCHRONIZED, VISIBLE and
    IDLE are passed through inside a call and never rested in. *)
Theorem oxr_run_states_between_calls :
  forall sess cs sess',
    state sess = XR_SESSION_STATE_READY ->
    exiting sess = false ->
    oxr_run sess cs = Some sess' ->
    (exiting sess' = false /\
     (state sess' = XR_SESSION_STATE_READY \/
      state sess' = XR_SESSION_STATE_FOCUSED)) \/
    (exiting sess' = true /\
     (state sess' = XR_SESSION_STATE_FOCUSED \/
      state sess' = XR_SESSION_STATE_STOPPING \/
      state sess' = XR_SESSION_STATE_EXITING)).
Proof.
  intros sess cs sess' Hst Hex Hrun.
  apply (oxr_run_invariant between_calls between_calls_step cs sess sess');
    [|exact Hrun].
  left. auto.
Qed.

(** The last notification names the current state. *)
Definition notified_of_state (sess : oxr_session) : Prop :=
  exists es, events sess = es ++ [state sess].

Lemma notified_of_state_step :
  forall sess c,
    notified_of_state sess -> notified_of_state (snd (oxr_apply sess c)).
Proof.
  intros sess c [es Hes]. unfold notified_of_state. destruct c; simpl.
  - destruct (oxr_session_begin_effect sess beginInfo)
      as [[-> _]|(_ & _ & Hst & _ & _ & Hev & _)]; [now exists es|].
    rewrite Hst, Hev.
    exists (events sess ++ [XR_SESSION_STATE_SYNCHRONIZED;
                            XR_SESSION_STATE_VISIBLE]).
    rewrite <- app_assoc. reflexivity.
  - destruct (oxr_session_end_effect sess)
      as [[-> _]|(_ & _ & Hst & _ & Hev & _)]; [now exists es|].
    rewrite Hst, Hev. exists (events sess ++ [XR_SESSION_STATE_IDLE]).
    rewrite <- app_assoc. reflexivity.
  - destruct (oxr_session_request_exit_effect sess)
      as [[-> _]|(_ & _ & Hst & _ & _ & _ & Hev)]; [now exists es|].
    rewrite Hst, Hev.
    destruct (state sess); simpl;
      try (exists (events sess); reflexivity).
    + exists (events sess ++ [XR_SESSION_STATE_SYNCHRONIZED]).
      rewrite <- app_assoc. reflexivity.
    + exists (events sess ++ [XR_SESSION_STATE_VISIBLE;
                              XR_SESSION_STATE_SYNCHRONIZED]).
      rewrite <- app_assoc. reflexivity.
  - destruct (oxr_session_frame_begin_effect sess)
      as [[-> _]|(_ & _ & Hst & _ & Hev & _)]; [now exists es|].
    rewrite Hst, Hev. now exists es.
  - destruct (oxr_session_frame_end_effect sess frameEndInfo)
      as [[-> _]|(_ & _ & _ & _ & Hst & _ & Hev & _)]; [now exists es|].
    rewrite Hst, Hev. now exists es.
Qed.

(** The notification queue never lags behind: if the last notification
    pushed for the session names its state (as after creation), it still
    does after any run of calls, failed ones included. *)
Theorem oxr_run_last_event_is_state :
  forall sess cs sess',
    (exists es, events sess = es ++ [state sess]) ->
    oxr_run sess cs = Some sess' ->
    exists es', events sess' = es' ++ [state sess'].
Proof.
  intros sess cs sess' Hes Hrun.
  exact (oxr_run_invariant notified_of_state notified_of_state_step
           cs sess sess' Hes Hrun).
Qed.

Lemma log_in_step_step :
  forall sess c, log_in_step sess -> log_in_step (snd (oxr_apply sess c)).
Proof.
  intros sess c (xc & Hxc & Hlog). unfold log_in_step.
  assert (Hnest : phase_nested
                    (mk_phase (is_running (state sess))
                              (frame_started sess) false)).
  { apply (comp_protocol_nested (calls xc) (mk_phase false false false));
      [|exact Hlog]. split; simpl; intro H; discriminate H. }
  destruct Hnest as [Hnest _]. simpl in Hnest.
  destruct c; simpl.
  - destruct (oxr_session_begin_effect sess beginInfo)
      as [[-> _]|(Hrun & _ & Hst & _ & Hfs & _ & Hcomp)];
      [exists xc; split; assumption|].
    destruct Hcomp as [[Hnone _]|(xc0 & Hxc0 & Hxc')];
      [rewrite Hxc in Hnone; discriminate Hnone|].
    rewrite Hxc in Hxc0. injection Hxc0 as <-.
    eexists. split; [exact Hxc'|]. simpl.
    rewrite comp_protocol_app, Hlog, Hrun, Hst, Hfs. simpl.
    destruct (frame_started sess); [|reflexivity].
    rewrite Hrun in Hnest. discriminate (Hnest eq_refl).
  - destruct (oxr_session_end_effect sess)
      as [[-> _]|(Hstop & _ & Hst & _ & _ & Hcomp)];
      [exists xc; split; assumption|].
    destruct Hcomp as [(Hnone & _)|(xc0 & Hxc0 & Hxc' & Hfs')];
      [rewrite Hxc in Hnone; discriminate Hnone|].
    rewrite Hxc in Hxc0. injection Hxc0 as <-.
    eexists. split; [exact Hxc'|]. simpl.
    rewrite comp_protocol_app, Hlog, Hstop, Hst, Hfs'. simpl.
    destruct (frame_started sess); destruct (exiting sess); reflexivity.
  - destruct (oxr_session_request_exit_effect sess)
      as [[-> _]|(Hrun & _ & Hst & _ & Hfs & Hcomp & _)];
      [exists xc; split; assumption|].
    exists xc. rewrite Hcomp, Hst, Hfs. split; [exact Hxc|].
    rewrite Hlog, Hrun. reflexivity.
  - destruct (oxr_session_frame_begin_effect sess)
      as [[-> _]|(Hrun & _ & Hst & _ & _ & Hfs' & Hcomp)];
      [exists xc; split; assumption|].
    destruct Hcomp as [[Hnone _]|(xc0 & Hxc0 & Hxc')];
      [rewrite Hxc in Hnone; discriminate Hnone|].
    rewrite Hxc in Hxc0. injection Hxc0 as <-.
    eexists. split; [exact Hxc'|]. simpl.
    rewrite comp_protocol_app, Hlog, Hst, Hfs', Hrun. simpl.
    destruct (frame_started sess); reflexivity.
  - destruct (oxr_session_frame_end_effect sess frameEndInfo)
      as [[-> _]|(Hrun & Hfs & _ & _ & Hst & _ & _ & Hfs' & Hcomp)];
      [exists xc; split; assumption|].
    destruct Hcomp as [[Hnone _]|(xc0 & new & Hxc0 & Hxc' & Hnew)];
      [rewrite Hxc in Hnone; discriminate Hnone|].
    rewrite Hxc in Hxc0. injection Hxc0 as <-.
    eexists. split; [exact Hxc'|]. simpl.
    rewrite comp_protocol_app, Hlog, Hst, Hfs', Hrun, Hfs.
    destruct Hnew as [[-> _]|(subs & -> & Hall & _)]; [reflexivity|].
    simpl. rewrite comp_protocol_app.
    rewrite (comp_protocol_submissions subs (mk_phase true true true)
               eq_refl Hall).
    reflexivity.
Qed.

(** The compositor never sees a call out of order.  If the log so far is
    in protocol order and agrees with the session (session begun iff
    running, frame begun iff [frame_started]), then so it is after any run
    of calls: sessions are begun and ended alternately, every frame begun
    is discarded or committed before the next one is begun or the session
    is ended, and layers are submitted between layer-begin and
    layer-commit only. *)
Theorem oxr_run_compositor_protocol :
  forall sess cs sess',
    log_in_step sess ->
    oxr_run sess cs = Some sess' ->
    log_in_step sess'.
Proof.
  intros sess cs sess' Hlog Hrun.
  exact (oxr_run_invariant log_in_step log_in_step_step
           cs sess sess' Hlog Hrun).
Qed.

(** No exit has been requested and the session is READY or FOCUSED. *)
Definition no_exit_requested (sess : oxr_session) : Prop :=
  exiting sess = false /\
  (state sess = XR_SESSION_STATE_READY \/
   state sess = XR_SESSION_STATE_FOCUSED).

Lemma no_exit_requested_step :
  forall sess c,
    is_request_exit c = false ->
    no_exit_requested sess ->
    no_exit_requested (snd (oxr_apply sess c)).
Proof.
  intros sess c Hc [Hex Hst]. unfold no_exit_requested.
  destruct c; simpl; try discriminate Hc.
  - destruct (oxr_session_begin_effect sess beginInfo)
      as [[-> _]|(_ & _ & Hst' & Hex' & _)]; [split; assumption|].
    rewrite Hst', Hex'. auto.
  - destruct (oxr_session_end_effect sess)
      as [[-> _]|(Hstop & _)]; [split; assumption|].
    destruct Hst as [H|H]; rewrite Hstop in H; discriminate H.
  - destruct (oxr_session_frame_begin_effect sess)
      as [[-> _]|(_ & _ & Hst' & Hex' & _)]; [split; assumption|].
    rewrite Hst', Hex'. auto.
  - destruct (oxr_session_frame_end_effect sess frameEndInfo)
      as [[-> _]|(_ & _ & _ & _ & Hst' & Hex' & _)]; [split; assumption|].
    rewrite Hst', Hex'. auto.
Qed.

(** A session cannot be ended before an exit has been requested: after
    any run of calls none of which is requestExit, on a session created
    READY, end is refused (SessionNotRunning or SessionNotStopping) and
    changes nothing.  Exit requests are the only way into STOPPING. *)
Theorem oxr_run_end_needs_request_exit :
  forall sess cs sess',
    state sess = XR_SESSION_STATE_READY ->
    exiting sess = false ->
    forallb (fun c => negb (is_request_exit c)) cs = true ->
    oxr_run sess cs = Some sess' ->
    XR_SUCCEEDED (fst (oxr_session_end sess')) = false /\
    snd (oxr_session_end sess') = sess'.
Proof.
  intros sess cs sess' Hst Hex Hcs Hrun.
  assert (Hinv : no_exit_requested sess') .
  { assert (H0 : no_exit_requested sess) by (split; auto).
    clear Hst Hex. revert sess sess' Hcs Hrun H0.
    induction cs as [|c cs IH]; intros sess sess' Hcs Hrun H0;
      simpl in Hrun.
    - injection Hrun as <-. exact H0.
    - simpl in Hcs. apply andb_prop in Hcs. destruct Hcs as [Hc Hcs].
      apply negb_true_iff in Hc.
      destruct (fst (oxr_apply sess c)); [|discriminate Hrun].
      apply (IH (snd (oxr_apply sess c))); try assumption.
      now apply no_exit_requested_step. }
  destruct Hinv as [_ Hst'].
  destruct (oxr_session_end_effect sess')
    as [[H1 H2]|(Hstop & _)]; [split; assumption|].
  destruct Hst' as [H|H]; rewrite Hstop in H; discriminate H.
Qed.

Lemma exiting_step :
  forall sess c,
    exiting sess = true -> exiting (snd (oxr_apply sess c)) = true.
Proof.
  intros sess c Hex. destruct c; simpl.
  - destruct (oxr_session_begin_effect sess beginInfo)
      as [[-> _]|(_ & _ & _ & Hex' & _)]; [exact Hex|]. now rewrite Hex'.
  - destruct (oxr_session_end_effect sess)
      as [[-> _]|(_ & _ & _ & Hex' & _)]; [exact Hex|]. now rewrite Hex'.
  - destruct (oxr_session_request_exit_effect sess)
      as [[-> _]|(_ & _ & _ & Hex' & _)]; [exact Hex|]. exact Hex'.
  - destruct (oxr_session_frame_begin_effect sess)
      as [[-> _]|(_ & _ & _ & Hex' & _)]; [exact Hex|]. now rewrite Hex'.
  - destruct (oxr_session_frame_end_effect sess frameEndInfo)
      as [[-> _]|(_ & _ & _ & _ & _ & Hex' & _)]; [exact Hex|].
    now rewrite Hex'.
Qed.

(** An exit request is never taken back: no entry point clears the
    exiting flag, so once it is set every later end that succeeds leaves
    the session in EXITING, also after the session has been begun again
    in between. *)
Theorem oxr_run_exiting_is_kept :
  forall sess cs sess',
    exiting sess = true ->
    oxr_run sess cs = Some sess' ->
    exiting sess' = true /\
    (XR_SUCCEEDED (fst (oxr_session_end sess')) = true ->
     state (snd (oxr_session_end sess')) = XR_SESSION_STATE_EXITING).
Proof.
  intros sess cs sess' Hex Hrun.
  assert (Hex' : exiting sess' = true).
  { exact (oxr_run_invariant (fun s => exiting s = true) exiting_step
             cs sess sess' Hex Hrun). }
  split; [exact Hex'|]. intro Hok.
  destruct (oxr_session_end_effect sess')
    as [[_ Hfail]|(_ & _ & Hst & _)].
  - rewrite Hfail in Hok. discriminate Hok.
  - rewrite Hst, Hex'. reflexivity.
Qed.

(** A call that reports an error has done nothing: whichever entry point
    it is, the session, its compositor's call log and its notification
    queue are exactly as before. *)
Theorem oxr_apply_error_changes_nothing :
  forall sess c e,
    fst (oxr_apply sess c) = Ret e ->
    XR_SUCCEEDED e = false ->
    snd (oxr_apply sess c) = sess.
Proof.
  intros sess c e Hr He. destruct c; simpl in *.
  - injection Hr as Hr.
    destruct (oxr_session_begin_effect sess beginInfo)
      as [[H _]|(_ & Hok & _)]; [exact H|].
    rewrite Hr, He in Hok. discriminate Hok.
  - injection Hr as Hr.
    destruct (oxr_session_end_effect sess) as [[H _]|(_ & Hok & _)];
      [exact H|].
    rewrite Hr, He in Hok. discriminate Hok.
  - injection Hr as Hr.
    destruct (oxr_session_request_exit_effect sess)
      as [[H _]|(_ & Hok & _)]; [exact H|].
    rewrite Hr, He in Hok. discriminate Hok.
  - injection Hr as Hr.
    destruct (oxr_session_frame_begin_effect sess)
      as [[H _]|(_ & Hok & _)]; [exact H|].
    rewrite Hr, He in Hok. discriminate Hok.
  - destruct (oxr_session_frame_end_effect sess frameEndInfo)
      as [[H _]|(_ & _ & _ & Hok & _)]; [exact H|].
    rewrite Hr in Hok. injection Hok as ->.
    rewrite success_result_succeeded in He. discriminate He.
Qed.

(** Frames are ended one at a time: right after an endFrame that
    succeeded, another endFrame, whatever its request, is refused with
    [XR_ERROR_CALL_ORDER_INVALID] and changes nothing. *)
Theorem oxr_session_frame_end_twice :
  forall sess frameEndInfo again r,
    fst (oxr_session_frame_end sess frameEndInfo) = Ret r ->
    XR_SUCCEEDED r = true ->
    let sess' := snd (oxr_session_frame_end sess frameEndInfo) in
    oxr_session_frame_end sess' again =
      (Ret XR_ERROR_CALL_ORDER_INVALID, sess').
Proof.
  intros sess info again r Hr Hok sess'. subst sess'.
  destruct (oxr_session_frame_end_effect sess info)
    as [[_ [Hu|(e & He & Hfail)]]|
        (Hrun & _ & _ & _ & Hst & _ & _ & Hfs' & _)].
  - rewrite Hr in Hu. discriminate Hu.
  - rewrite Hr in He. injection He as ->.
    rewrite Hok in Hfail. discriminate Hfail.
  - unfold oxr_session_frame_end at 1. rewrite Hst, Hrun, Hfs'. reflexivity.
Qed.

(** When each entry point of the state machine accepts the call. *)
Lemma oxr_session_begin_accepted :
  forall sess beginInfo,
    is_running (state sess) = false ->
    compositor sess = None \/
    primaryViewConfigurationType beginInfo = view_config_type (sys sess) ->
    XR_SUCCEEDED (fst (oxr_session_begin sess beginInfo)) = true.
Proof.
  intros sess bi Hrun Hok. unfold oxr_session_begin. rewrite Hrun.
  destruct (compositor sess) as [xc|].
  - destruct Hok as [Hnone|Hty]; [discriminate Hnone|].
    apply Z.eqb_eq in Hty. rewrite Hty. apply success_result_succeeded.
  - apply success_result_succeeded.
Qed.

Lemma oxr_session_request_exit_accepted :
  forall sess,
    is_running (state sess) = true ->
    XR_SUCCEEDED (fst (oxr_session_request_exit sess)) = true.
Proof.
  intros sess Hrun. unfold oxr_session_request_exit. rewrite Hrun.
  apply success_result_succeeded.
Qed.

Lemma oxr_session_end_accepted :
  forall sess,
    state sess = XR_SESSION_STATE_STOPPING ->
    XR_SUCCEEDED (fst (oxr_session_end sess)) = true.
Proof.
  intros sess Hst. unfold oxr_session_end. rewrite Hst.
  apply success_result_succeeded.
Qed.

(** A whole life of a session.  On a session that is not running, begin
    (headless, or with the system's view configuration type), requestExit
    and end all succeed in this order; the session ends in EXITING after
    exactly the notifications SYNCHRONIZED, VISIBLE, FOCUSED, VISIBLE,
    SYNCHRONIZED, STOPPING, IDLE, EXITING, and the compositor, if there is
    one, has been told to begin and to end its session, with a discard in
    between when a frame was open. *)
Theorem oxr_session_begin_exit_end :
  forall sess beginInfo,
    is_running (state sess) = false ->
    compositor sess = None \/
    primaryViewConfigurationType beginInfo = view_config_type (sys sess) ->
    let begun := oxr_session_begin sess beginInfo in
    let stopped := oxr_session_request_exit (snd begun) in
    let ended := oxr_session_end (snd stopped) in
    XR_SUCCEEDED (fst begun) = true /\
    XR_SUCCEEDED (fst stopped) = true /\
    XR_SUCCEEDED (fst ended) = true /\
    state (snd ended) = XR_SESSION_STATE_EXITING /\
    events (snd ended) =
      events sess ++
      [XR_SESSION_STATE_SYNCHRONIZED; XR_SESSION_STATE_VISIBLE;
       XR_SESSION_STATE_FOCUSED; XR_SESSION_STATE_VISIBLE;
       XR_SESSION_STATE_SYNCHRONIZED; XR_SESSION_STATE_STOPPING;
       XR_SESSION_STATE_IDLE; XR_SESSION_STATE_EXITING] /\
    comp_calls (snd ended) =
      match compositor sess with
      | Some xc =>
          calls xc ++
          [xrt_comp_begin_session (primaryViewConfigurationType beginInfo)]
          ++ (if frame_started sess then [xrt_comp_discard_frame] else [])
          ++ [xrt_comp_end_session]
      | None => []
      end.
Proof.
  intros sess bi Hrun Hok begun stopped ended.
  pose proof (oxr_session_begin_accepted sess bi Hrun Hok) as Hb.
  destruct (oxr_session_begin_effect sess bi)
    as [[_ Hf]|(_ & _ & Hst1 & Hex1 & Hfs1 & Hev1 & Hc1)];
    [rewrite Hb in Hf; discriminate Hf|].
  fold begun in Hb, Hst1, Hex1, Hfs1, Hev1, Hc1.
  assert (Hrun1 : is_running (state (snd begun)) = true)
    by (rewrite Hst1; reflexivity).
  pose proof (oxr_session_request_exit_accepted (snd begun) Hrun1) as Hx.
  destruct (oxr_session_request_exit_effect (snd begun))
    as [[_ Hf]|(_ & _ & Hst2 & Hex2 & Hfs2 & Hc2 & Hev2)];
    [rewrite Hx in Hf; discriminate Hf|].
  fold stopped in Hx, Hst2, Hex2, Hfs2, Hc2, Hev2.
  pose proof (oxr_session_end_accepted (snd stopped) Hst2) as He.
  destruct (oxr_session_end_effect (snd stopped))
    as [[_ Hf]|(_ & _ & Hst3 & _ & Hev3 & Hc3)];
    [rewrite He in Hf; discriminate Hf|].
  fold ended in He, Hst3, Hev3, Hc3.
  split; [exact Hb|]. split; [exact Hx|]. split; [exact He|].
  rewrite Hex2 in Hst3, Hev3. split; [exact Hst3|]. split.
  - rewrite Hev3, Hev2, Hev1, Hst1. simpl. rewrite <- !app_assoc.
    reflexivity.
  - unfold comp_calls.
    destruct Hc3 as [(Hn2 & Hn3 & _)|(xc2 & Hxc2 & Hxc3 & _)].
    + rewrite Hn3. rewrite Hc2 in Hn2.
      destruct Hc1 as [[Hn0 _]|(xc0 & _ & Hxc1)].
      * now rewrite Hn0.
      * rewrite Hxc1 in Hn2. discriminate Hn2.
    + rewrite Hxc3. rewrite Hc2 in Hxc2. rewrite Hfs2, Hfs1.
      destruct Hc1 as [[_ Hn1]|(xc0 & Hxc0 & Hxc1)].
      * rewrite Hn1 in Hxc2. discriminate Hxc2.
      * rewrite Hxc0. rewrite Hxc1 in Hxc2. injection Hxc2 as <-.
        simpl. rewrite <- !app_assoc. reflexivity.
Qed.

(** A headless session never looks at the request beyond its display
    time: with the session running, a frame open and a positive display
    time, endFrame succeeds and closes the frame whatever the blend mode,
    the layer count, the layer array (null included) and the layers
    are. *)
Theorem oxr_session_frame_end_headless :
  forall sess frameEndInfo,
    compositor sess = None ->
    is_running (state sess) = true ->
    frame_started sess = true ->
    0 < displayTime frameEndInfo ->
    oxr_session_frame_end sess frameEndInfo =
      (Ret (oxr_session_success_result (set_frame_started sess false)),
       set_frame_started sess false) /\
    XR_SUCCEEDED (oxr_session_success_result (set_frame_started sess false))
      = true.
Proof.
  intros sess info Hxc Hrun Hfs Htime. unfold oxr_session_frame_end.
  rewrite Hrun, Hfs, Hxc. simpl. apply Z.leb_gt in Htime. rewrite Htime.
  split; [reflexivity|apply success_result_succeeded].
Qed.

(** ** Which layers pass, and what is submitted for them *)

(** The released image of a swapchain is one the verification accepts:
    not the "none released" mark, and below the image count as the source
    compares it. *)
Definition released_image_ok (sc : oxr_swapchain) : Prop :=
  released_index sc <> -1 /\
  released_index sc < to_int32 (num_images (swapchain sc)).

(** The compositor call that stands for a layer: the layer's own fields,
    the released image of its swapchains, its poses re-expressed through
    the inverse tracking-origin offset, and the frame's display time. *)
Inductive submitted
  (hd : xrt_device) (inv_offset : xrt_pose) (timestamp : Z)
  : option XrCompositionLayer -> xrt_comp_call -> Prop :=
| submitted_quad :
    forall quad sc,
      sub_swapchain (quad_subImage quad) = Some sc ->
      released_image_ok sc ->
      offset_x (imageRect (quad_subImage quad)) = 0 ->
      offset_y (imageRect (quad_subImage quad)) = 0 ->
      submitted hd inv_offset timestamp
        (Some (LayerQuad quad))
        (xrt_comp_layer_quad
           timestamp hd (quad_layerFlags quad) (eyeVisibility quad)
           (swapchain sc) (released_index sc)
           (imageRect (quad_subImage quad))
           (imageArrayIndex (quad_subImage quad))
           (math_pose_transform inv_offset (quad_pose quad))
           (quad_size quad) false)
| submitted_projection :
    forall proj v0 v1 sc0 sc1,
      nth_error (views proj) 0 = Some v0 ->
      nth_error (views proj) 1 = Some v1 ->
      sub_swapchain (view_subImage v0) = Some sc0 ->
      sub_swapchain (view_subImage v1) = Some sc1 ->
      released_image_ok sc0 ->
      released_image_ok sc1 ->
      submitted hd inv_offset timestamp
        (Some (LayerProjection proj))
        (xrt_comp_layer_stereo_projection
           timestamp hd 0
           (swapchain sc0) (released_index sc0)
           (imageRect (view_subImage v0))
           (imageArrayIndex (view_subImage v0))
           (view_fov v0) (math_pose_transform inv_offset (view_pose v0))
           (swapchain sc1) (released_index sc1)
           (imageRect (view_subImage v1))
           (imageArrayIndex (view_subImage v1))
           (view_fov v1) (math_pose_transform inv_offset (view_pose v1))
           false).

(** What a quad layer that passes is known to satisfy. *)
Lemma verify_quad_layer_success :
  forall quad,
    verify_quad_layer quad = Ret XR_SUCCESS ->
    exists sc,
      sub_swapchain (quad_subImage quad) = Some sc /\
      quad_space quad <> XR_NULL_HANDLE /\
      math_quat_validate (orientation (quad_pose quad)) = true /\
      math_vec3_validate (position (quad_pose quad)) = true /\
      released_image_ok sc /\
      offset_x (imageRect (quad_subImage quad)) = 0 /\
      offset_y (imageRect (quad_subImage quad)) = 0.
Proof.
  intro quad. unfold verify_quad_layer, verify_space, released_image_ok.
  destruct (sub_swapchain (quad_subImage quad)) as [sc|]; [|discriminate].
  destruct (quad_space quad =? XR_NULL_HANDLE) eqn:Hsp; simpl;
    [discriminate|].
  apply Z.eqb_neq in Hsp.
  destruct (math_quat_validate (orientation (quad_pose quad))); simpl;
    [|discriminate].
  destruct (math_vec3_validate (position (quad_pose quad))); simpl;
    [|discriminate].
  destruct (released_index sc =? -1) eqn:E1; [discriminate|].
  apply Z.eqb_neq in E1.
  destruct (released_index sc >=? to_int32 (num_images (swapchain sc)))
    eqn:E2; rewrite Z.geb_leb in E2; [discriminate|].
  apply Z.leb_gt in E2.
  set (rect := imageRect (quad_subImage quad)).
  destruct (offset_x rect <? 0) eqn:Ex0; simpl; [discriminate|].
  destruct (offset_y rect <? 0) eqn:Ey0; simpl; [discriminate|].
  apply Z.ltb_ge in Ex0, Ey0.
  destruct (offset_x rect >=? 1) eqn:Ex1; rewrite Z.geb_leb in Ex1; simpl;
    [discriminate|].
  destruct (offset_y rect >=? 1) eqn:Ey1; rewrite Z.geb_leb in Ey1; simpl;
    [discriminate|].
  apply Z.leb_gt in Ex1, Ey1.
  intros _. exists sc. repeat split; try assumption; lia.
Qed.

(** A quad layer passes exactly when its swapchain and its space are not
    null, its pose passes the math checks, its swapchain has a released
    image in range, and its sub-image rectangle starts at the origin: the
    offsets are integers that must be neither negative nor one or more. *)
Theorem verify_quad_layer_passes_iff :
  forall quad,
    verify_quad_layer quad = Ret XR_SUCCESS <->
    exists sc,
      sub_swapchain (quad_subImage quad) = Some sc /\
      quad_space quad <> XR_NULL_HANDLE /\
      math_quat_validate (orientation (quad_pose quad)) = true /\
      math_vec3_validate (position (quad_pose quad)) = true /\
      released_image_ok sc /\
      offset_x (imageRect (quad_subImage quad)) = 0 /\
      offset_y (imageRect (quad_subImage quad)) = 0.
Proof.
  intro quad. split; [apply verify_quad_layer_success|].
  intros (sc & Hsc & Hsp & Hq & Hv & [H1 H2] & Hx & Hy).
  unfold verify_quad_layer.
  rewrite Hsc, (verify_space_not_null _ Hsp), Hq, Hv, Hx, Hy. simpl.
  apply Z.eqb_neq in H1. rewrite H1.
  assert (E : (released_index sc >=? to_int32 (num_images (swapchain sc)))
              = false)
    by (rewrite Z.geb_leb; apply Z.leb_gt; exact H2).
  rewrite E. reflexivity.
Qed.

(** One view is brought through exactly when its pose passes and its
    swapchain is there with a released image in range. *)
Lemma verify_projection_view_passes_iff :
  forall view,
    verify_projection_view view = None <->
    view_pose_valid view /\
    exists sc,
      sub_swapchain (view_subImage view) = Some sc /\ released_image_ok sc.
Proof.
  intro view. split.
  - intro H.
    destruct (proj2 (proj2 (proj2 (verify_projection_view_cases view))) H)
      as (Hpose & sc & Hsc & H1 & H2).
    split; [exact Hpose|]. exists sc. repeat split; assumption.
  - intros ([Hq Hv] & sc & Hsc & H1 & H2).
    unfold verify_projection_view. rewrite Hq, Hv, Hsc. simpl.
    apply Z.eqb_neq in H1. rewrite H1.
    assert (E : (released_index sc >=? to_int32 (num_images (swapchain sc)))
                = false)
      by (rewrite Z.geb_leb; apply Z.leb_gt; exact H2).
    rewrite E. reflexivity.
Qed.

Lemma verify_projection_views_pass :
  forall vs n i,
    (forall j, (i <= j < i + n)%nat ->
       exists vj, nth_error vs j = Some vj /\
                  verify_projection_view vj = None) ->
    verify_projection_views vs i n = Ret XR_SUCCESS.
Proof.
  intros vs n. induction n as [|n IH]; intros i H; simpl; [reflexivity|].
  destruct (H i) as (vi & -> & ->); [lia|].
  apply IH. intros j Hj. apply H. lia.
Qed.

(** What a projection layer that passes is known to satisfy. *)
Lemma verify_projection_layer_success_views :
  forall proj,
    verify_projection_layer proj = Ret XR_SUCCESS ->
    proj_space proj <> XR_NULL_HANDLE /\
    viewCount proj = 2%nat /\
    forall j, (j < 2)%nat ->
      exists vj sc,
        nth_error (views proj) j = Some vj /\
        view_pose_valid vj /\
        sub_swapchain (view_subImage vj) = Some sc /\
        released_image_ok sc.
Proof.
  intros proj H. unfold verify_projection_layer in H.
  unfold verify_space in H.
  destruct (proj_space proj =? XR_NULL_HANDLE) eqn:Hsp;
    [discriminate H|].
  apply Z.eqb_neq in Hsp.
  destruct (Nat.eqb (viewCount proj) 2) eqn:Hc; simpl in H;
    [|discriminate H].
  apply Nat.eqb_eq in Hc. split; [exact Hsp|]. split; [exact Hc|].
  intros j Hj.
  destruct (verify_projection_views_success _ _ _ H j) as (vj & Hnth & Hv);
    [lia|].
  apply verify_projection_view_passes_iff in Hv.
  destruct Hv as (Hpose & sc & Hsc & Hrel).
  exists vj, sc. split; [exact Hnth|]. split; [exact Hpose|].
  split; assumption.
Qed.

(** A stereo-projection layer passes exactly when its space is not null,
    it declares two views, and each of the two views read from the array
    has a pose that passes the math checks and a swapchain with a
    released image in range.  Nothing else is looked at: not the views'
    sub-image rectangles or array indices, not their fields of view. *)
Theorem verify_projection_layer_passes_iff :
  forall proj,
    verify_projection_layer proj = Ret XR_SUCCESS <->
    proj_space proj <> XR_NULL_HANDLE /\
    viewCount proj = 2%nat /\
    forall j, (j < 2)%nat ->
      exists vj sc,
        nth_error (views proj) j = Some vj /\
        view_pose_valid vj /\
        sub_swapchain (view_subImage vj) = Some sc /\
        released_image_ok sc.
Proof.
  intro proj. split; [apply verify_projection_layer_success_views|].
  intros (Hsp & Hc & Hviews). unfold verify_projection_layer.
  rewrite (verify_space_not_null _ Hsp), Hc.
  change (Nat.eqb 2 2) with true. simpl negb. cbv iota.
  apply verify_projection_views_pass. intros j Hj.
  destruct (Hviews j) as (vj & sc & Hnth & Hpose & Hsc & Hrel); [lia|].
  exists vj. split; [exact Hnth|].
  apply verify_projection_view_passes_iff.
  split; [exact Hpose|]. exists sc. split; assumption.
Qed.

(** The call made for a layer that has passed is the one that stands for
    it. *)
Lemma submit_layer_submitted :
  forall xc entry hd inv_offset timestamp xc',
    verify_layer entry = Ret XR_SUCCESS ->
    submit_layer xc entry hd inv_offset timestamp = Some xc' ->
    exists c,
      calls xc' = calls xc ++ [c] /\
      submitted hd inv_offset timestamp entry c.
Proof.
  intros xc [[proj|quad|ty]|] hd inv ts xc' Hv Hs; simpl in Hv, Hs;
    try discriminate Hs.
  - destruct (verify_projection_layer_success_views _ Hv) as (_ & _ & Hviews).
    destruct (Hviews 0%nat) as (v0 & sc0 & Hn0 & _ & Hs0 & Hr0); [lia|].
    destruct (Hviews 1%nat) as (v1 & sc1 & Hn1 & _ & Hs1 & Hr1); [lia|].
    unfold submit_projection_layer in Hs.
    rewrite Hn0, Hn1, Hs0, Hs1 in Hs. injection Hs as <-.
    eexists. split; [reflexivity|].
    now apply submitted_projection.
  - destruct (verify_quad_layer_success _ Hv)
      as (sc & Hsc & _ & _ & _ & Hrel & Hx & Hy).
    unfold submit_quad_layer in Hs. rewrite Hsc in Hs. injection Hs as <-.
    eexists. split; [reflexivity|].
    now apply submitted_quad.
Qed.

Lemma submit_layers_submitted :
  forall ls hd inv_offset timestamp n i xc xc',
    (forall j, (i <= j < i + n)%nat -> layer_passes ls j) ->
    submit_layers xc ls hd inv_offset timestamp i n = Some xc' ->
    exists subs,
      calls xc' = calls xc ++ subs /\
      length subs = n /\
      forall k, (k < n)%nat ->
        exists entry c,
          nth_error ls (i + k) = Some entry /\
          nth_error subs k = Some c /\
          submitted hd inv_offset timestamp entry c.
Proof.
  intros ls hd inv ts n. induction n as [|n IH]; intros i xc xc' Hpass Hs;
    simpl in Hs.
  - injection Hs as <-. exists []. rewrite app_nil_r.
    repeat split. intros k Hk. lia.
  - destruct (Hpass i) as (entry & Hnth & Hv); [lia|].
    rewrite Hnth in Hs.
    destruct (submit_layer xc entry hd inv ts) as [xc1|] eqn:H1;
      [|discriminate Hs].
    destruct (submit_layer_submitted _ _ _ _ _ _ Hv H1) as (c & Hc & Hsub).
    destruct (IH (S i) xc1 xc') as (subs & Hcalls & Hlen & Hall);
      [intros j Hj; apply Hpass; lia|exact Hs|].
    exists (c :: subs). rewrite Hcalls, Hc, <- app_assoc. simpl.
    split; [reflexivity|]. split; [now rewrite Hlen|].
    intros [|k] Hk.
    + exists entry, c. rewrite Nat.add_0_r. repeat split; assumption.
    + destruct (Hall k) as (e' & c' & Hn' & Hs' & Hsub'); [lia|].
      exists e', c'. rewrite Nat.add_succ_r. simpl. repeat split; assumption.
Qed.

(** How an endFrame with layers can have succeeded on a session with a
    compositor. *)
Lemma oxr_session_frame_end_success_inv :
  forall sess frameEndInfo xc r,
    compositor sess = Some xc ->
    layerCount frameEndInfo <> 0%nat ->
    fst (oxr_session_frame_end sess frameEndInfo) = Ret r ->
    XR_SUCCEEDED r = true ->
    exists ls xc',
      layers frameEndInfo = Some ls /\
      verify_layers ls 0 (layerCount frameEndInfo) = Ret XR_SUCCESS /\
      submit_layers
        (comp_call xc
           (xrt_comp_layer_begin
              (oxr_blend_mode_to_xrt (environmentBlendMode frameEndInfo))))
        ls (head (sys sess))
        (math_pose_invert (tracking_origin_offset (head (sys sess))))
        (displayTime frameEndInfo) 0 (layerCount frameEndInfo) = Some xc' /\
      snd (oxr_session_frame_end sess frameEndInfo) =
        set_frame_started
          (set_compositor sess (comp_call xc' xrt_comp_layer_commit)) false.
Proof.
  intros sess info xc r Hxc Hcount. unfold oxr_session_frame_end.
  destruct (is_running (state sess)); simpl;
    [|intros [= <-]; discriminate].
  destruct (frame_started sess); simpl; [|intros [= <-]; discriminate].
  destruct (displayTime info <=? 0); [intros [= <-]; discriminate|].
  rewrite Hxc.
  destruct (oxr_blend_mode_to_xrt (environmentBlendMode info) =? 0);
    [intros [= <-]; discriminate|].
  destruct (Z.land _ _ =? 0); [intros [= <-]; discriminate|].
  apply Nat.eqb_neq in Hcount. rewrite Hcount.
  destruct (layers info) as [ls|]; [|intros [= <-]; discriminate].
  destruct (verify_layers ls 0 (layerCount info)) as [e|] eqn:Hv;
    [|discriminate].
  destruct (verify_layers_result _ _ _ _ Hv) as [->|He].
  2: { destruct e; try discriminate He; intros [= <-] H; discriminate H. }
  destruct (submit_layers _ _ _ _ _ _ _) as [xc'|] eqn:Hsub;
    [|discriminate].
  intros _ _. exists ls, xc'.
  split; [reflexivity|]. split; [exact Hv|]. split; [exact Hsub|reflexivity].
Qed.

(** What the compositor is sent by an endFrame with layers that succeeds:
    layer-begin with the translated blend mode, then exactly one call per
    layer in the order of the request, then layer-commit.  The call for a
    layer carries the frame's display time, the layer's pose (each view's
    pose) re-expressed through the inverse of the head's tracking-origin
    offset, and for each swapchain its released image, which is not the
    "none released" mark and is below the image count; a quad's sub-image
    rectangle starts at the origin. *)
Theorem oxr_session_frame_end_submissions :
  forall sess frameEndInfo xc r,
    compositor sess = Some xc ->
    layerCount frameEndInfo <> 0%nat ->
    fst (oxr_session_frame_end sess frameEndInfo) = Ret r ->
    XR_SUCCEEDED r = true ->
    exists ls subs,
      layers frameEndInfo = Some ls /\
      comp_calls (snd (oxr_session_frame_end sess frameEndInfo)) =
        calls xc ++
        xrt_comp_layer_begin
          (oxr_blend_mode_to_xrt (environmentBlendMode frameEndInfo))
        :: subs ++ [xrt_comp_layer_commit] /\
      length subs = layerCount frameEndInfo /\
      forall k, (k < layerCount frameEndInfo)%nat ->
        exists entry c,
          nth_error ls k = Some entry /\
          nth_error subs k = Some c /\
          submitted (head (sys sess))
            (math_pose_invert (tracking_origin_offset (head (sys sess))))
            (displayTime frameEndInfo) entry c.
Proof.
  intros sess info xc r Hxc Hcount Hr Hok.
  destruct (oxr_session_frame_end_success_inv sess info xc r Hxc Hcount Hr Hok)
    as (ls & xc' & Hls & Hv & Hsub & Hsess).
  destruct (submit_layers_submitted _ _ _ _ _ _ _ _
              (proj1 (verify_layers_success ls (layerCount info) 0) Hv) Hsub)
    as (subs & Hcalls & Hlen & Hall).
  exists ls, subs. split; [exact Hls|]. rewrite Hsess.
  split; [|split; [exact Hlen|exact Hall]].
  unfold comp_calls. simpl. rewrite Hcalls. simpl.
  rewrite <- !app_assoc. reflexivity.
Qed.

(** ** Which error means what *)

(** The result codes the layer verification can produce. *)
Definition layer_code (r : XrResult) : Prop :=
  r = XR_SUCCESS \/ r = XR_ERROR_LAYER_INVALID \/
  r = XR_ERROR_VALIDATION_FAILURE \/ r = XR_ERROR_POSE_INVALID \/
  r = XR_ERROR_RUNTIME_FAILURE \/ r = XR_ERROR_SWAPCHAIN_RECT_INVALID.

Ltac pick_layer_code :=
  unfold layer_code;
  repeat (first [reflexivity | left; reflexivity | right]).

Lemma verify_projection_views_codes :
  forall vs n i r,
    verify_projection_views vs i n = Ret r -> layer_code r.
Proof.
  intros vs n. induction n as [|n IH]; intros i r H; simpl in H.
  - injection H as <-. left. reflexivity.
  - destruct (nth_error vs i) as [view|]; [|discriminate].
    destruct (verify_projection_view view) as [o|] eqn:Hv.
    + subst o. unfold verify_projection_view in Hv. unfold layer_code.
      destruct (math_quat_validate (orientation (view_pose view)));
        simpl in Hv; [|injection Hv as <-; pick_layer_code].
      destruct (math_vec3_validate (position (view_pose view)));
        simpl in Hv; [|injection Hv as <-; pick_layer_code].
      destruct (sub_swapchain (view_subImage view)) as [sc|];
        [|discriminate].
      destruct (released_index sc =? -1);
        [injection Hv as <-; pick_layer_code|].
      destruct (released_index sc >=? to_int32 (num_images (swapchain sc)));
        [injection Hv as <-; pick_layer_code|discriminate].
    + now apply IH with (S i).
Qed.

Lemma verify_layer_codes :
  forall entry r, verify_layer entry = Ret r -> layer_code r.
Proof.
  intros [[proj|quad|ty]|] r H; simpl in H; unfold layer_code.
  - unfold verify_projection_layer, verify_space in H.
    destruct (proj_space proj =? XR_NULL_HANDLE);
      [injection H as <-; pick_layer_code|].
    destruct (Nat.eqb (viewCount proj) 2); simpl in H.
    + now apply verify_projection_views_codes in H.
    + injection H as <-. pick_layer_code.
  - unfold verify_quad_layer, verify_space in H.
    destruct (sub_swapchain (quad_subImage quad)) as [sc|];
      [|injection H as <-; pick_layer_code].
    destruct (quad_space quad =? XR_NULL_HANDLE);
      [injection H as <-; pick_layer_code|].
    repeat match type of H with
           | (if ?c then _ else _) = _ =>
               destruct c; simpl in H; [injection H as <-; pick_layer_code|]
           | (let _ := _ in _) = _ => cbv zeta in H
           end.
    injection H as <-. pick_layer_code.
  - injection H as <-. pick_layer_code.
  - injection H as <-. pick_layer_code.
Qed.

Lemma verify_layers_codes :
  forall ls n i r, verify_layers ls i n = Ret r -> layer_code r.
Proof.
  intros ls n. induction n as [|n IH]; intros i r H; simpl in H.
  - injection H as <-. left. reflexivity.
  - destruct (nth_error ls i) as [entry|]; [|discriminate].
    destruct (verify_layer entry) as [r'|] eqn:Hv; [|discriminate].
    pose proof (verify_layer_codes _ _ Hv) as Hc.
    destruct r'; try (injection H as <-; exact Hc).
    now apply IH with (S i).
Qed.

(** An endFrame result that comes from the blend-mode checks or later. *)
Definition past_call_order (o : outcome) : Prop :=
  o <> Ret XR_ERROR_SESSION_NOT_RUNNING /\
  o <> Ret XR_ERROR_CALL_ORDER_INVALID /\
  o <> Ret XR_ERROR_TIME_INVALID.

Lemma success_result_past_call_order :
  forall sess, past_call_order (Ret (oxr_session_success_result sess)).
Proof.
  intro sess. pose proof (success_result_succeeded sess) as H.
  repeat split; intros [= E]; rewrite E in H; discriminate H.
Qed.

Lemma layer_code_past_call_order :
  forall r, layer_code r -> past_call_order (Ret r).
Proof.
  intros r [H|[H|[H|[H|[H|H]]]]]; subst r; repeat split; discriminate.
Qed.

(** Each of the three call-order results of endFrame has one cause, and
    no later stage of the call (blend mode, layer verification, the
    success result) can produce it: SessionNotRunning means the session is
    not running; CallOrderInvalid means it is running with no frame open;
    TimeInvalid means it is running with a frame open and the display time
    is zero or negative. *)
Theorem oxr_session_frame_end_call_order_codes :
  forall sess frameEndInfo,
    let r := fst (oxr_session_frame_end sess frameEndInfo) in
    (r = Ret XR_ERROR_SESSION_NOT_RUNNING <->
     is_running (state sess) = false) /\
    (r = Ret XR_ERROR_CALL_ORDER_INVALID <->
     is_running (state sess) = true /\ frame_started sess = false) /\
    (r = Ret XR_ERROR_TIME_INVALID <->
     is_running (state sess) = true /\ frame_started sess = true /\
     displayTime frameEndInfo <= 0).
Proof.
  intros sess info r.
  assert (Hlate :
            is_running (state sess) = true ->
            frame_started sess = true ->
            0 < displayTime info ->
            past_call_order r).
  { intros Hrun Hfs Htime. subst r. unfold oxr_session_frame_end.
    rewrite Hrun, Hfs. simpl. apply Z.leb_gt in Htime. rewrite Htime.
    destruct (compositor sess) as [xc|];
      [|apply success_result_past_call_order].
    destruct (oxr_blend_mode_to_xrt (environmentBlendMode info) =? 0);
      [repeat split; discriminate|].
    destruct (Z.land _ _ =? 0); [repeat split; discriminate|].
    destruct (Nat.eqb (layerCount info) 0);
      [apply success_result_past_call_order|].
    destruct (layers info) as [ls|]; [|repeat split; discriminate].
    destruct (verify_layers ls 0 (layerCount info)) as [e|] eqn:Hv;
      [|repeat split; discriminate].
    pose proof (layer_code_past_call_order _ (verify_layers_codes _ _ _ _ Hv))
      as Hp.
    destruct e; try exact Hp.
    destruct (submit_layers _ _ _ _ _ _ _);
      [apply success_result_past_call_order|repeat split; discriminate]. }
  destruct (is_running (state sess)) eqn:Hrun.
  2: { subst r. unfold oxr_session_frame_end. rewrite Hrun. simpl.
       repeat split; try reflexivity; try discriminate;
         intros (H & _); discriminate H. }
  destruct (frame_started sess) eqn:Hfs.
  2: { subst r. unfold oxr_session_frame_end. rewrite Hrun, Hfs. simpl.
       repeat split; try reflexivity; try discriminate;
         intros (_ & H & _); discriminate H. }
  destruct (Z_le_gt_dec (displayTime info) 0) as [Htime|Htime].
  - subst r. unfold oxr_session_frame_end. rewrite Hrun, Hfs. simpl.
    apply Z.leb_le in Htime. rewrite Htime. apply Z.leb_le in Htime.
    repeat split; try reflexivity; try discriminate; try assumption;
      intros (_ & H); discriminate H.
  - destruct (Hlate eq_refl eq_refl) as (H1 & H2 & H3); [lia|].
    split; [|split]; split.
    + intro H. contradiction.
    + discriminate.
    + intro H. contradiction.
    + intros (_ & H). discriminate H.
    + intro H. contradiction.
    + intros (_ & _ & H). lia.
Qed.

(** ** Waiting for a frame *)

Set Implicit Arguments.

(** The instance's clock ([struct time_state], util/u_time.h) and the
    compositor's frame pacing are declared outside this file. *)
Variable time_state : Type.

(** [time_state_get_now_and_update]: the current time and the clock after
    the update. *)
Variable time_state_get_now_and_update : time_state -> Z * time_state.

(** [time_state_monotonic_to_ts_ns]: a backend time in the runtime's
    timestamp domain. *)
Variable time_state_monotonic_to_ts_ns : time_state -> Z -> Z.

(** [xrt_comp_wait_frame]: the predicted display time and period the
    compositor reports, two [uint64_t] values. *)
Variable xrt_comp_wait_frame : xrt_compositor -> Z * Z.

Record XrFrameState : Type := mk_frame_state {
  shouldRender : bool;
  predictedDisplayTime : Z;
  predictedDisplayPeriod : Z
}.

(** [frameState] is the caller's struct; the function writes the fields
    it assigns and leaves the others as they came.  The clock is the
    instance's, passed in and handed back. *)
Definition oxr_session_frame_wait
  (sess : oxr_session) (timekeeping : time_state) (frameState : XrFrameState)
  : XrResult * time_state * XrFrameState :=
  if negb (is_running (state sess))
  then (oxr_error XR_ERROR_SESSION_NOT_RUNNING, timekeeping, frameState)
  else
    let timekeeping := snd (time_state_get_now_and_update timekeeping) in
    match compositor sess with
    | None =>
        (oxr_session_success_result sess, timekeeping,
         mk_frame_state false (predictedDisplayTime frameState)
                        (predictedDisplayPeriod frameState))
    | Some xc =>
        let predicted_display_time := fst (xrt_comp_wait_frame xc) in
        let predicted_display_period := snd (xrt_comp_wait_frame xc) in
        if to_int64 predicted_display_time <=? 0
        then (oxr_error XR_ERROR_RUNTIME_FAILURE, timekeeping, frameState)
        else
          let frameState :=
            mk_frame_state
              (should_render (state sess))
              (time_state_monotonic_to_ts_ns timekeeping
                 predicted_display_time)
              (to_int64 predicted_display_period) in
          if predictedDisplayTime frameState <=? 0
          then (oxr_error XR_ERROR_RUNTIME_FAILURE, timekeeping, frameState)
          else (oxr_session_success_result sess, timekeeping, frameState)
    end.

Unset Implicit Arguments.

(** waitFrame on a session that is not running is refused with
    [XR_ERROR_SESSION_NOT_RUNNING] before the clock is touched; on a
    running session the clock is updated exactly once, whether the call
    then succeeds or not.  A headless session gets success with
    [shouldRender] false and nothing else written: the predicted display
    time and period stay what the caller had in its struct. *)
Theorem oxr_session_frame_wait_gate :
  forall sess timekeeping frameState,
    (is_running (state sess) = false ->
     oxr_session_frame_wait sess timekeeping frameState =
       (XR_ERROR_SESSION_NOT_RUNNING, timekeeping, frameState)) /\
    (is_running (state sess) = true ->
     snd (fst (oxr_session_frame_wait sess timekeeping frameState)) =
       snd (time_state_get_now_and_update timekeeping)) /\
    (is_running (state sess) = true ->
     compositor sess = None ->
     oxr_session_frame_wait sess timekeeping frameState =
       (oxr_session_success_result sess,
        snd (time_state_get_now_and_update timekeeping),
        mk_frame_state false (predictedDisplayTime frameState)
                       (predictedDisplayPeriod frameState))).
Proof.
  intros sess tk fs. unfold oxr_session_frame_wait. split; [|split].
  - intros ->. reflexivity.
  - intros ->. simpl. destruct (compositor sess) as [xc|]; [|reflexivity].
    destruct (to_int64 (fst (xrt_comp_wait_frame xc)) <=? 0);
      [reflexivity|].
    simpl. destruct (_ <=? 0); reflexivity.
  - intros -> ->. reflexivity.
Qed.

(** With a compositor, waitFrame succeeds exactly when the session is
    running, the compositor's predicted display time read as an [int64_t]
    is positive (so neither zero nor 2^63 or more) and its conversion to
    the runtime's timestamp domain is positive too; it then reports that
    converted time, the compositor's period, and [shouldRender] true
    exactly in the states VISIBLE, FOCUSED and STOPPING.  In particular
    every display time a successful waitFrame hands out is positive. *)
Theorem oxr_session_frame_wait_with_compositor :
  forall sess timekeeping frameState xc,
    compositor sess = Some xc ->
    let result := oxr_session_frame_wait sess timekeeping frameState in
    let clock := snd (time_state_get_now_and_update timekeeping) in
    let backend_time := fst (xrt_comp_wait_frame xc) in
    let converted := time_state_monotonic_to_ts_ns clock backend_time in
    (XR_SUCCEEDED (fst (fst result)) = true <->
     is_running (state sess) = true /\
     0 < to_int64 backend_time /\
     0 < converted) /\
    (XR_SUCCEEDED (fst (fst result)) = true ->
     fst (fst result) = oxr_session_success_result sess /\
     0 < predictedDisplayTime (snd result) /\
     predictedDisplayTime (snd result) = converted /\
     predictedDisplayPeriod (snd result) =
       to_int64 (snd (xrt_comp_wait_frame xc)) /\
     shouldRender (snd result) = should_render (state sess)).
Proof.
  intros sess tk fs xc Hxc result clock backend_time converted.
  subst result. unfold oxr_session_frame_wait. rewrite Hxc.
  fold clock. fold backend_time.
  destruct (is_running (state sess)) eqn:Hrun; simpl.
  2: { split; [split; [discriminate|intros (H & _); discriminate H]|
               discriminate]. }
  destruct (to_int64 backend_time <=? 0) eqn:E1; simpl.
  { apply Z.leb_le in E1.
    split; [split; [discriminate|intros (_ & H & _); lia]|discriminate]. }
  apply Z.leb_gt in E1. fold converted.
  destruct (converted <=? 0) eqn:E2; simpl.
  { apply Z.leb_le in E2.
    split; [split; [discriminate|intros (_ & _ & H); lia]|discriminate]. }
  apply Z.leb_gt in E2. rewrite success_result_succeeded.
  split; [split; auto|]. intros _. repeat split. exact E2.
Qed.

(** What a failed waitFrame leaves in the caller's struct: nothing is
    written when the session is not running or the compositor's time is
    not positive, but when the converted time is what is not positive
    the struct has already been overwritten with it. *)
Theorem oxr_session_frame_wait_failure :
  forall sess timekeeping frameState xc,
    compositor sess = Some xc ->
    let result := oxr_session_frame_wait sess timekeeping frameState in
    let clock := snd (time_state_get_now_and_update timekeeping) in
    let backend_time := fst (xrt_comp_wait_frame xc) in
    let converted := time_state_monotonic_to_ts_ns clock backend_time in
    XR_SUCCEEDED (fst (fst result)) = false ->
    (is_running (state sess) = false /\
     fst (fst result) = XR_ERROR_SESSION_NOT_RUNNING /\
     snd result = frameState) \/
    (is_running (state sess) = true /\
     to_int64 backend_time <= 0 /\
     fst (fst result) = XR_ERROR_RUNTIME_FAILURE /\
     snd result = frameState) \/
    (is_running (state sess) = true /\
     0 < to_int64 backend_time /\
     converted <= 0 /\
     fst (fst result) = XR_ERROR_RUNTIME_FAILURE /\
     predictedDisplayTime (snd result) = converted).
Proof.
  intros sess tk fs xc Hxc result clock backend_time converted.
  subst result. unfold oxr_session_frame_wait. rewrite Hxc.
  fold clock. fold backend_time.
  destruct (is_running (state sess)) eqn:Hrun; simpl.
  2: { intros _. left. repeat split. }
  destruct (to_int64 backend_time <=? 0) eqn:E1; simpl.
  { apply Z.leb_le in E1. intros _. right. left. repeat split. exact E1. }
  apply Z.leb_gt in E1. fold converted.
  destruct (converted <=? 0) eqn:E2; simpl.
  { apply Z.leb_le in E2. intros _. right. right. repeat split; assumption. }
  rewrite success_result_succeeded. discriminate.
Qed.

(** ** Locating the views *)

Set Implicit Arguments.

(** [XrViewStateFlags] bits and the view reference space of openxr.h. *)
Definition XR_VIEW_STATE_ORIENTATION_VALID_BIT : Z := 1.
Definition XR_VIEW_STATE_POSITION_VALID_BIT : Z := 2.
Definition XR_REFERENCE_SPACE_TYPE_VIEW : Z := 1.

(** [struct oxr_space] (oxr_objects.h), as far as it is read here. *)
Record oxr_space : Type := mk_space {
  space_type : Z;
  space_pose : xrt_pose;
  is_reference : bool
}.

Record XrViewLocateInfo : Type := mk_view_locate_info {
  locate_space : oxr_space;
  locate_displayTime : Z
}.

Record XrView : Type := mk_xr_view {
  xr_view_pose : xrt_pose;
  xr_view_fov : xrt_fov
}.

(** Collaborators: the relation between two reference spaces at a time
    ([oxr_space_ref_relation]), the device's per-eye pose
    ([xdev->get_view_pose]) and per-eye field of view
    ([xdev->hmd->views[i].fov]), the pose composition
    ([math_pose_openxr_locate]) and the [float] zero. *)
Variable oxr_space_ref_relation :
  oxr_session -> Z -> Z -> Z -> xrt_space_relation.
Variable get_view_pose : xrt_device -> xrt_vec3 -> nat -> xrt_pose.
Variable hmd_view_fov : xrt_device -> nat -> xrt_fov.
Variable math_pose_openxr_locate :
  xrt_pose -> xrt_pose -> xrt_pose -> xrt_pose.
Variable float_zero : float.

(** The assignment [views[i] = v]; [None] when the caller's array has no
    entry [i]. *)
Fixpoint store_view (views : list XrView) (i : nat) (v : XrView)
  : option (list XrView) :=
  match views, i with
  | [], _ => None
  | _ :: rest, O => Some (v :: rest)
  | w :: rest, S i' =>
      match store_view rest i' v with
      | Some rest' => Some (w :: rest')
      | None => None
      end
  end.

(** The view the loop body computes for eye [i]. *)
Definition locate_view
  (sess : oxr_session) (baseSpc : oxr_space) (pure : xrt_pose) (i : nat)
  : XrView :=
  let eye_relation := mk_vec3 (ipd_meters sess) float_zero float_zero in
  let view_pose := get_view_pose (head (sys sess)) eye_relation i in
  mk_xr_view
    (math_pose_openxr_locate view_pose pure (space_pose baseSpc))
    (hmd_view_fov (head (sys sess)) i).

(** [for (i = ...; i < num_views; i++)], with [n] iterations left. *)
Fixpoint locate_views
  (sess : oxr_session) (baseSpc : oxr_space) (pure : xrt_pose)
  (views : list XrView) (i n : nat) : option (list XrView) :=
  match n with
  | O => Some views
  | S n' =>
      match store_view views i (locate_view sess baseSpc pure i) with
      | Some views' => locate_views sess baseSpc pure views' (S i) n'
      | None => None
      end
  end.

(** What the call leaves behind: its result, and the caller's view state
    flags, view count (if a pointer was given) and view array. *)
Record views_result : Type := mk_views_result {
  views_ret : XrResult;
  viewStateFlags : Z;
  viewCountOutput : option Z;
  views_array : list XrView
}.

(** [viewCountOutput] is [None] for a null pointer, else what the caller's
    variable holds.  The result is [None] when the loop writes past the
    end of the caller's array. *)
Definition oxr_session_views
  (sess : oxr_session) (viewLocateInfo : XrViewLocateInfo)
  (viewState : Z) (viewCapacityInput : Z) (viewCountOutput : option Z)
  (views : list XrView) : option views_result :=
  let baseSpc := locate_space viewLocateInfo in
  let num_views := 2%nat in
  if negb (is_reference baseSpc)
  then Some (mk_views_result (oxr_session_success_result sess)
                             0 viewCountOutput views)
  else
    let viewCountOutput :=
      match viewCountOutput with
      | Some _ => Some (Z.of_nat num_views)
      | None => None
      end in
    if viewCapacityInput =? 0
    then Some (mk_views_result (oxr_session_success_result sess)
                               viewState viewCountOutput views)
    else if viewCapacityInput <? Z.of_nat num_views
    then Some (mk_views_result (oxr_error XR_ERROR_SIZE_INSUFFICIENT)
                               viewState viewCountOutput views)
    else
      let pure_relation :=
        oxr_space_ref_relation sess XR_REFERENCE_SPACE_TYPE_VIEW
          (space_type baseSpc) (locate_displayTime viewLocateInfo) in
      let pure := pose pure_relation in
      match locate_views sess baseSpc pure views 0 num_views with
      | None => None
      | Some views' =>
          let flags := 0 in
          let flags := Z.lor flags XR_VIEW_STATE_POSITION_VALID_BIT in
          let flags := Z.lor flags XR_VIEW_STATE_ORIENTATION_VALID_BIT in
          Some (mk_views_result (oxr_session_success_result sess)
                                flags viewCountOutput views')
      end.

Unset Implicit Arguments.

Lemma store_view_some :
  forall array i v,
    (i < length array)%nat ->
    exists array',
      store_view array i v = Some array' /\
      length array' = length array /\
      nth_error array' i = Some v /\
      forall j, j <> i -> nth_error array' j = nth_error array j.
Proof.
  induction array as [|w rest IH]; intros i v Hi; simpl in Hi; [lia|].
  destruct i as [|i]; simpl.
  - eexists. split; [reflexivity|]. split; [reflexivity|].
    split; [reflexivity|].
    intros [|j] Hj; [contradiction|reflexivity].
  - destruct (IH i v) as (rest' & -> & Hlen & Hnth & Hother); [lia|].
    eexists. split; [reflexivity|]. simpl. split; [now rewrite Hlen|].
    split; [exact Hnth|].
    intros [|j] Hj; [reflexivity|]. simpl. apply Hother. lia.
Qed.

Lemma store_view_none :
  forall array i v,
    (length array <= i)%nat -> store_view array i v = None.
Proof.
  induction array as [|w rest IH]; intros i v Hi; simpl; [reflexivity|].
  simpl in Hi. destruct i as [|i]; [lia|].
  rewrite IH; [reflexivity|lia].
Qed.

(** The two-call idiom of xrLocateViews.  On a reference space the
    required count, two, is reported through a non-null count pointer on
    every path, the failing one included.  With capacity zero the call
    succeeds and writes nothing else.  With a capacity of one it fails
    with [XR_ERROR_SIZE_INSUFFICIENT] and writes nothing else.  With a
    capacity of two or more and an array that holds two entries it
    succeeds, sets the position-valid and orientation-valid bits and
    nothing else in the view state, writes the first two entries of the
    array and leaves its length and every later entry alone.  On a space
    that is not a reference space the call succeeds without locating
    anything: the view state flags are cleared, no view is written, and
    the required count is not reported either. *)
Theorem oxr_session_views_two_call :
  forall sess viewLocateInfo viewState viewCapacityInput count views,
    0 <= viewCapacityInput ->
    let reported :=
      match count with Some _ => Some 2 | None => None end in
    let call :=
      oxr_session_views sess viewLocateInfo viewState viewCapacityInput
                        count views in
    (is_reference (locate_space viewLocateInfo) = true ->
     viewCapacityInput = 0 ->
     call = Some (mk_views_result (oxr_session_success_result sess)
                                  viewState reported views)) /\
    (is_reference (locate_space viewLocateInfo) = true ->
     viewCapacityInput = 1 ->
     call = Some (mk_views_result XR_ERROR_SIZE_INSUFFICIENT
                                  viewState reported views)) /\
    (is_reference (locate_space viewLocateInfo) = true ->
     2 <= viewCapacityInput ->
     (2 <= length views)%nat ->
     exists views',
       call = Some (mk_views_result (oxr_session_success_result sess)
                                    3 reported views') /\
       length views' = length views /\
       forall j, (2 <= j)%nat -> nth_error views' j = nth_error views j) /\
    (is_reference (locate_space viewLocateInfo) = false ->
     call = Some (mk_views_result (oxr_session_success_result sess)
                                  0 count views)).
Proof.
  intros sess info vs cap count views Hcap reported call. subst call.
  unfold oxr_session_views.
  split; [|split; [|split]].
  - intros -> ->. reflexivity.
  - intros -> ->. reflexivity.
  - intros -> Hcap2 Hlen. simpl negb. cbv iota.
    assert (E0 : (cap =? 0) = false) by (apply Z.eqb_neq; lia).
    assert (E1 : (cap <? Z.of_nat 2) = false) by (apply Z.ltb_ge; simpl; lia).
    rewrite E0, E1. cbv zeta. simpl locate_views.
    destruct (store_view_some views 0
                (locate_view sess (locate_space info)
                   (pose (oxr_space_ref_relation sess
                            XR_REFERENCE_SPACE_TYPE_VIEW
                            (space_type (locate_space info))
                            (locate_displayTime info))) 0))
      as (v1 & -> & Hl1 & _ & Ho1); [lia|].
    destruct (store_view_some v1 1
                (locate_view sess (locate_space info)
                   (pose (oxr_space_ref_relation sess
                            XR_REFERENCE_SPACE_TYPE_VIEW
                            (space_type (locate_space info))
                            (locate_displayTime info))) 1))
      as (v2 & -> & Hl2 & _ & Ho2); [lia|].
    exists v2. split; [reflexivity|]. split; [lia|].
    intros j Hj. rewrite Ho2, Ho1; [reflexivity|lia|lia].
  - intros ->. reflexivity.
Qed.

(** What xrLocateViews computes.  On a reference space, with room for two
    views, the two views written are, for each eye, the device's per-eye
    pose for the offset (IPD, 0, 0) composed with one and the same
    space-to-view relation, resolved once at the requested display time,
    and with the pose of the base space; the field of view is the
    device's own for that eye, copied as it is. *)
Theorem oxr_session_views_located :
  forall sess viewLocateInfo viewState viewCapacityInput count views result,
    is_reference (locate_space viewLocateInfo) = true ->
    2 <= viewCapacityInput ->
    oxr_session_views sess viewLocateInfo viewState viewCapacityInput
                      count views = Some result ->
    let baseSpc := locate_space viewLocateInfo in
    let pure :=
      pose (oxr_space_ref_relation sess XR_REFERENCE_SPACE_TYPE_VIEW
              (space_type baseSpc) (locate_displayTime viewLocateInfo)) in
    forall i, (i < 2)%nat ->
      nth_error (views_array result) i =
        Some (mk_xr_view
                (math_pose_openxr_locate
                   (get_view_pose (head (sys sess))
                      (mk_vec3 (ipd_meters sess) float_zero float_zero) i)
                   pure (space_pose baseSpc))
                (hmd_view_fov (head (sys sess)) i)).
Proof.
  intros sess info vs cap count views result Href Hcap H baseSpc pure i Hi.
  unfold oxr_session_views in H. rewrite Href in H.
  simpl negb in H. cbv iota in H.
  assert (E0 : (cap =? 0) = false) by (apply Z.eqb_neq; lia).
  assert (E1 : (cap <? Z.of_nat 2) = false) by (apply Z.ltb_ge; simpl; lia).
  rewrite E0, E1 in H. cbv zeta in H. fold baseSpc in H. fold pure in H.
  simpl locate_views in H.
  destruct (le_lt_dec (length views) 0) as [Hl|Hl].
  { rewrite store_view_none in H; [discriminate H|exact Hl]. }
  destruct (store_view_some views 0 (locate_view sess baseSpc pure 0) Hl)
    as (v1 & Hs1 & Hl1 & Hn1 & Ho1).
  rewrite Hs1 in H.
  destruct (le_lt_dec (length v1) 1) as [Hl'|Hl'].
  { rewrite store_view_none in H; [discriminate H|exact Hl']. }
  destruct (store_view_some v1 1 (locate_view sess baseSpc pure 1) Hl')
    as (v2 & Hs2 & Hl2 & Hn2 & Ho2).
  rewrite Hs2 in H. injection H as <-. simpl views_array.
  destruct i as [|[|i]]; [|exact Hn2|lia].
  rewrite Ho2; [exact Hn1|lia].
Qed.

End Oxr.

(** * A concrete interpretation, to run the functions on examples *)

(** The collaborators are interpreted over the rationals: quaternion
    algebra for the pose functions, a first-order step for the velocity
    integration, and a tracker whose samples are four milliseconds old. *)
Module Sample.

Definition success_result (sess : oxr_session Q) : XrResult :=
  match state sess with
  | XR_SESSION_STATE_LOSS_PENDING => XR_SESSION_LOSS_PENDING
  | _ => XR_SUCCESS
  end.

Definition success_result_succeeded :
  forall sess, XR_SUCCEEDED (success_result sess) = true :=
  fun sess =>
    match state sess as st
      return XR_SUCCEEDED
               match st with
               | XR_SESSION_STATE_LOSS_PENDING => XR_SESSION_LOSS_PENDING
               | _ => XR_SUCCESS
               end = true
    with
    | XR_SESSION_STATE_LOSS_PENDING => eq_refl
    | _ => eq_refl
    end.

Definition quat_validate (q : xrt_quat Q) : bool :=
  Qeq_bool (quat_x q * quat_x q + quat_y q * quat_y q
            + quat_z q * quat_z q + quat_w q * quat_w q)%Q 1%Q.

Definition vec3_validate (v : xrt_vec3 Q) : bool := true.

Definition quat_mul (a b : xrt_quat Q) : xrt_quat Q :=
  mk_quat
    (quat_w a * quat_x b + quat_x a * quat_w b
     + quat_y a * quat_z b - quat_z a * quat_y b)%Q
    (quat_w a * quat_y b - quat_x a * quat_z b
     + quat_y a * quat_w b + quat_z a * quat_x b)%Q
    (quat_w a * quat_z b + quat_x a * quat_y b
     - quat_y a * quat_x b + quat_z a * quat_w b)%Q
    (quat_w a * quat_w b - quat_x a * quat_x b
     - quat_y a * quat_y b - quat_z a * quat_z b)%Q.

Definition quat_conj (q : xrt_quat Q) : xrt_quat Q :=
  mk_quat (- quat_x q)%Q (- quat_y q)%Q (- quat_z q)%Q (quat_w q).

Definition quat_rotate (q : xrt_quat Q) (v : xrt_vec3 Q) : xrt_vec3 Q :=
  let p := mk_quat (vec3_x v) (vec3_y v) (vec3_z v) 0%Q in
  let r := quat_mul (quat_mul q p) (quat_conj q) in
  mk_vec3 (quat_x r) (quat_y r) (quat_z r).

Definition pose_invert (p : xrt_pose Q) : xrt_pose Q :=
  let qi := quat_conj (orientation p) in
  let v := quat_rotate qi (position p) in
  mk_pose qi (mk_vec3 (- vec3_x v)%Q (- vec3_y v)%Q (- vec3_z v)%Q).

Definition pose_transform (t p : xrt_pose Q) : xrt_pose Q :=
  let v := quat_rotate (orientation t) (position p) in
  mk_pose (quat_mul (orientation t) (orientation p))
          (mk_vec3 (vec3_x v + vec3_x (position t))%Q
                   (vec3_y v + vec3_y (position t))%Q
                   (vec3_z v + vec3_z (position t))%Q).

Definition quat_integrate_velocity
  (q : xrt_quat Q) (w : xrt_vec3 Q) (dt : Q) : xrt_quat Q :=
  let h := (dt / 2)%Q in
  let d := quat_mul (mk_quat (vec3_x w) (vec3_y w) (vec3_z w) 0%Q) q in
  mk_quat (quat_x q + h * quat_x d)%Q (quat_y q + h * quat_y d)%Q
          (quat_z q + h * quat_z d)%Q (quat_w q + h * quat_w d)%Q.

Definition ns_to_s (ns : Z) : Q := (ns # 1000000000)%Q.

Definition angular_velocity_valid_bit : Z := Z.shiftl 1 3.

Definition identity_pose : xrt_pose Q :=
  mk_pose (mk_quat 0 0 0 1)%Q (mk_vec3 0 0 0)%Q.

(** A head sample taken four milliseconds before the requested time,
    turning about the vertical axis at one radian per second. *)
Definition get_relation_at (sys : oxr_system Q) (at_time : Z)
  : Z * xrt_space_relation Q :=
  (at_time - 4000000,
   mk_relation (Z.lor 3 angular_velocity_valid_bit)
               (mk_pose (mk_quat 0 0 0 1)%Q (mk_vec3 0 (8 # 5) 0)%Q)
               (mk_vec3 0 1 0)%Q).

(** The same tracker on a device that reports no velocities. *)
Definition get_relation_no_velocity (sys : oxr_system Q) (at_time : Z)
  : Z * xrt_space_relation Q :=
  (at_time - 4000000,
   mk_relation 3
               (mk_pose (mk_quat 0 0 0 1)%Q (mk_vec3 0 (8 # 5) 0)%Q)
               (mk_vec3 0 0 0)%Q).

(** A head device that advertises the opaque blend mode only. *)
Definition hmd : xrt_device Q :=
  mk_device XRT_BLEND_MODE_OPAQUE
            (mk_pose (mk_quat 0 0 0 1)%Q (mk_vec3 0 1 0)%Q).

(** A stereo system ([XR_VIEW_CONFIGURATION_TYPE_PRIMARY_STEREO] is 2). *)
Definition system : oxr_system Q := mk_system 2 hmd.

(** A session as [oxr_session_create] leaves it: READY, no frame open, the
    default IPD and prediction, and the two creation events pushed. *)
Definition created (xc : option (xrt_compositor Q)) : oxr_session Q :=
  mk_session system xc XR_SESSION_STATE_READY false false
             (63 # 1000)%Q (11 # 1000)%Q
             [XR_SESSION_STATE_IDLE; XR_SESSION_STATE_READY].

Definition with_compositor : oxr_session Q :=
  created (Some (mk_compositor (@nil (xrt_comp_call Q)))).

Definition headless : oxr_session Q := created None.

Definition stereo : XrSessionBeginInfo := mk_begin_info 2.
Definition mono : XrSessionBeginInfo := mk_begin_info 1.

(** The sessions that the entry points lead to from there. *)
Definition running (sess : oxr_session Q) : oxr_session Q :=
  snd (oxr_session_begin success_result sess stereo).

Definition in_frame (sess : oxr_session Q) : oxr_session Q :=
  snd (oxr_session_frame_begin success_result (running sess)).

Definition stopping (sess : oxr_session Q) : oxr_session Q :=
  snd (oxr_session_request_exit success_result (in_frame sess)).

Definition frame_end :=
  oxr_session_frame_end success_result quat_validate vec3_validate
                        pose_invert pose_transform.

(** Layers. *)
Definition released : oxr_swapchain :=
  mk_oxr_swapchain (mk_xrt_swapchain 3 1) 2.

Definition sub_image (sc : option oxr_swapchain) : XrSwapchainSubImage :=
  mk_sub_image sc (mk_rect 0 0 1024 1024) 0.

Definition quad (space : XrSpace) (sc : option oxr_swapchain)
  : XrCompositionLayerQuad Q :=
  mk_quad 0 space 0 (sub_image sc)
          (mk_pose (mk_quat 0 0 0 1)%Q (mk_vec3 0 0 (-2))%Q)
          (mk_vec2 1 1)%Q.

Definition view (sc : option oxr_swapchain)
  : XrCompositionLayerProjectionView Q :=
  mk_view identity_pose (mk_fov (-1) 1 1 (-1))%Q (sub_image sc).

Definition projection (space : XrSpace) (n : nat)
  (vs : list (XrCompositionLayerProjectionView Q))
  : XrCompositionLayerProjection Q :=
  mk_proj 0 space n vs.

Definition good_quad := LayerQuad (quad 7 (Some released)).
Definition good_projection :=
  LayerProjection
    (projection 7 2 [view (Some released); view (Some released)]).
Definition three_views :=
  LayerProjection
    (projection 7 3 [view (Some released); view (Some released);
                     view (Some released)]).

Definition frame (t : Z) (blend : Z)
  (ls : list (option (XrCompositionLayer Q))) : XrFrameEndInfo Q :=
  mk_frame_end_info t blend (length ls) (Some ls).

End Sample.

(** * OpenGL helpers (src/xrt/auxiliary/ogl/ogl_helpers.c) *)

Module Ogl.

Section Formats.

(** The sized internal formats named in the table; their values are those
    of the OpenGL headers, which are not among the sources. *)
Variables GL_RGB8 GL_SRGB8 GL_RGBA8 GL_SRGB8_ALPHA8 GL_RGB10_A2 GL_RGB16
          GL_RGB16F GL_RGBA16 GL_RGBA16F GL_DEPTH_COMPONENT16
          GL_DEPTH_COMPONENT32F GL_DEPTH24_STENCIL8 GL_DEPTH32F_STENCIL8 : Z.

Definition gl_formats : list Z :=
  [GL_RGB8; GL_SRGB8; GL_RGBA8; GL_SRGB8_ALPHA8; GL_RGB10_A2; GL_RGB16;
   GL_RGB16F; GL_RGBA16; GL_RGBA16F; GL_DEPTH_COMPONENT16;
   GL_DEPTH_COMPONENT32F; GL_DEPTH24_STENCIL8; GL_DEPTH32F_STENCIL8].

(** The formats are OpenGL enumerants: none is zero, no two are equal. *)
Hypothesis gl_formats_nonzero : Forall (fun f => f <> 0) gl_formats.
Hypothesis gl_formats_distinct : NoDup gl_formats.

(** The warning logged in the default case is not modelled. *)
Definition ogl_vk_format_to_gl (vk_format : Z) : Z :=
  match vk_format with
  | 4 => 0
  | 23 => GL_RGB8
  | 29 => GL_SRGB8
  | 30 => 0
  | 37 => GL_RGBA8
  | 43 => GL_SRGB8_ALPHA8
  | 44 => 0
  | 50 => 0
  | 64 => GL_RGB10_A2
  | 84 => GL_RGB16
  | 90 => GL_RGB16F
  | 91 => GL_RGBA16
  | 97 => GL_RGBA16F
  | 100 => 0
  | 124 => GL_DEPTH_COMPONENT16
  | 125 => 0
  | 126 => GL_DEPTH_COMPONENT32F
  | 127 => 0
  | 129 => GL_DEPTH24_STENCIL8
  | 130 => GL_DEPTH32F_STENCIL8
  | _ => 0
  end.

(** The Vulkan formats that have a translation. *)
Definition translated_vk_formats : list Z :=
  [23; 29; 37; 43; 64; 84; 90; 91; 97; 124; 126; 129; 130].

(** The table, read as a list of pairs. *)
Lemma ogl_vk_format_to_gl_table :
  forall vk_format,
    ogl_vk_format_to_gl vk_format = 0 \/
    In (vk_format, ogl_vk_format_to_gl vk_format)
       (combine translated_vk_formats gl_formats).
Proof.
  intro v. unfold ogl_vk_format_to_gl.
  destruct v as [|p|p]; [now left| |now left].
  do 8 (try (destruct p as [p|p|]; try (now left))).
  all: try (right; simpl; repeat (first [left; reflexivity | right])).
Qed.

Lemma combine_NoDup_snd :
  forall (A B : Type) (l1 : list A) (l2 : list B) a a' b,
    NoDup l2 ->
    In (a, b) (combine l1 l2) -> In (a', b) (combine l1 l2) -> a = a'.
Proof.
  intros A B l1. induction l1 as [|x l1 IH]; intros l2 a a' b Hnd H1 H2.
  - contradiction.
  - destruct l2 as [|y l2]; [contradiction|].
    inversion Hnd as [|y' l2' Hnotin Hnd']; subst.
    simpl in H1, H2. destruct H1 as [H1|H1], H2 as [H2|H2].
    + congruence.
    + injection H1 as <- <-. apply in_combine_r in H2. contradiction.
    + injection H2 as <- <-. apply in_combine_r in H1. contradiction.
    + exact (IH l2 a a' b Hnd' H1 H2).
Qed.

(** Zero is what [ogl_vk_format_to_gl] returns for a format it
    cannot translate, and it translates thirteen formats only: over all
    64-bit values, the result is an OpenGL format (not zero) exactly for
    the Vulkan formats 23, 29, 37, 43, 64, 84, 90, 91, 97, 124, 126, 129
    and 130. *)
Theorem ogl_vk_format_to_gl_translated :
  forall vk_format,
    ogl_vk_format_to_gl vk_format <> 0 <->
    In vk_format translated_vk_formats.
Proof.
  intro v. split.
  - intro Hnz. destruct (ogl_vk_format_to_gl_table v) as [H|H].
    + contradiction.
    + exact (in_combine_l _ _ _ _ H).
  - intro Hin. pose proof gl_formats_nonzero as Hnz. unfold gl_formats in Hnz.
    repeat (apply Forall_cons_iff in Hnz;
            let H := fresh "Hnz" in destruct Hnz as [H Hnz]).
    simpl in Hin.
    repeat (destruct Hin as [<-|Hin]; [assumption|]).
    contradiction.
Qed.

(** No two Vulkan formats are translated to the same OpenGL
    format: a result other than zero names the Vulkan format it came
    from. *)
Theorem ogl_vk_format_to_gl_injective :
  forall vk_format vk_format',
    ogl_vk_format_to_gl vk_format <> 0 ->
    ogl_vk_format_to_gl vk_format = ogl_vk_format_to_gl vk_format' ->
    vk_format = vk_format'.
Proof.
  intros v v' Hnz Heq.
  destruct (ogl_vk_format_to_gl_table v) as [H|H]; [contradiction|].
  destruct (ogl_vk_format_to_gl_table v') as [H'|H']; [congruence|].
  rewrite <- Heq in H'.
  exact (combine_NoDup_snd _ _ _ _ _ _ _ gl_formats_distinct H H').
Qed.

End Formats.

End Ogl.

(** * Calibration files (src/xrt/auxiliary/tracking/t_file.cpp) *)

Module TFile.

Section Mat.

(** A byte of a file or of a matrix buffer. *)
Variable byte : Type.

(** A [cv::Mat] as the two helpers see it: [elemSize()], [rows], [cols]
    and the buffer behind [data]. *)
Record cv_mat : Type := mk_mat {
  elemSize : Z;
  rows : Z;
  cols : Z;
  data : list byte
}.

(** The bytes of a [uint32_t] in memory, and the value of four bytes read
    as one: [fwrite] and [fread] move them as they are. *)
Variable u32_bytes : Z -> list byte.
Variable u32_value : list byte -> Z.
Hypothesis u32_bytes_length : forall x, length (u32_bytes x) = 4%nat.
Hypothesis u32_value_bytes :
  forall x, 0 <= x < 2 ^ 32 -> u32_value (u32_bytes x) = x.

(** [cv::Mat::create(rows, cols, type)], with the element size of the
    type: the matrix afterwards.  It is OpenCV's; what is used of it is
    the shape it leaves, whatever the buffer holds. *)
Variable mat_create : cv_mat -> Z -> Z -> Z -> cv_mat.
Hypothesis mat_create_shape :
  forall m r c esz,
    0 <= r -> 0 <= c -> 0 <= esz ->
    elemSize (mat_create m r c esz) = esz /\
    rows (mat_create m r c esz) = r /\
    cols (mat_create m r c esz) = c /\
    Z.of_nat (length (data (mat_create m r c esz))) = esz * r * c.

Definition uint32 (z : Z) : Z := z mod 2 ^ 32.

(** [write_cv_mat] always returns true; the model gives what it appends
    to the file, [fwrite] taken to write all it is given.  The result is
    [None] when the matrix buffer is shorter than what is read from
    it. *)
Definition write_cv_mat (m : cv_mat) : option (list byte) :=
  let header0 := uint32 (elemSize m) in
  let header1 := uint32 (rows m) in
  let header2 := uint32 (cols m) in
  let count := header0 * uint32 (header1 * header2) in
  if Z.of_nat (length (data m)) <? count
  then None
  else Some (u32_bytes header0 ++ u32_bytes header1 ++ u32_bytes header2
             ++ firstn (Z.to_nat count) (data m)).

(** What a call of [read_cv_mat] comes to: it returns, leaving the matrix
    and the rest of the file; or it does not (an OpenCV exception for a
    negative dimension, a write past the matrix buffer). *)
Inductive read_outcome : Type :=
| Returned (ret : bool) (m : cv_mat) (rest : list byte)
| Aborted.

(** The file is the bytes from the read position on.  [fread] takes what
    is there, up to what was asked, and returns the number of whole
    elements it got. *)
Definition read_cv_mat (f : list byte) (m : cv_mat) : read_outcome :=
  if Z.of_nat (length f) <? 12
  then Returned false m []
  else
    let header0 := u32_value (firstn 4 f) in
    let header1 := u32_value (firstn 4 (skipn 4 f)) in
    let header2 := u32_value (firstn 4 (skipn 8 f)) in
    let f := skipn 12 f in
    if (header1 =? 0) && (header2 =? 0)
    then Returned true m f
    else
      let r := to_int32 header1 in
      let c := to_int32 header2 in
      if (r <? 0) || (c <? 0)
      then Aborted
      else
        let esz := if header0 =? 4 then 4 else 8 in
        let m := mat_create m r c esz in
        let nmemb := uint32 (header1 * header2) in
        let got := firstn (Z.to_nat (header0 * nmemb)) f in
        if Z.of_nat (length (data m)) <? Z.of_nat (length got)
        then Aborted
        else
          let m :=
            mk_mat (elemSize m) (rows m) (cols m)
                   (got ++ skipn (length got) (data m)) in
          let read :=
            if header0 =? 0 then 0 else Z.of_nat (length got) / header0 in
          Returned (read =? nmemb) m (skipn (length got) f).

(** A two-dimensional matrix whose buffer holds exactly its elements,
    small enough for the element count to fit the 32-bit product the
    helpers compute. *)
Definition sized_matrix (m : cv_mat) : Prop :=
  0 <= elemSize m < 2 ^ 32 /\
  0 <= rows m < 2 ^ 31 /\
  0 <= cols m < 2 ^ 31 /\
  rows m * cols m < 2 ^ 32 /\
  Z.of_nat (length (data m)) = elemSize m * rows m * cols m.

(** Such a matrix of [float] or [double] elements. *)
Definition float_matrix (m : cv_mat) : Prop :=
  (elemSize m = 4 \/ elemSize m = 8) /\ sized_matrix m.

Lemma firstn_exact :
  forall (A : Type) (l1 l2 : list A) n,
    length l1 = n -> firstn n (l1 ++ l2) = l1.
Proof.
  intros A l1 l2 n <-. induction l1 as [|a l1 IH]; simpl.
  - reflexivity.
  - now rewrite IH.
Qed.

Lemma skipn_exact :
  forall (A : Type) (l1 l2 : list A) n,
    length l1 = n -> skipn n (l1 ++ l2) = l2.
Proof.
  intros A l1 l2 n <-. induction l1 as [|a l1 IH]; simpl; auto.
Qed.

(** Reading back a header that was written. *)
Lemma header_read_back :
  forall a b c body,
    let f := u32_bytes a ++ u32_bytes b ++ u32_bytes c ++ body in
    firstn 4 f = u32_bytes a /\
    firstn 4 (skipn 4 f) = u32_bytes b /\
    firstn 4 (skipn 8 f) = u32_bytes c /\
    skipn 12 f = body /\
    Z.of_nat (length f) = 12 + Z.of_nat (length body).
Proof.
  intros a b c body f. subst f.
  pose proof (u32_bytes_length a) as Ha.
  pose proof (u32_bytes_length b) as Hb.
  pose proof (u32_bytes_length c) as Hc.
  split; [now apply firstn_exact|].
  split; [rewrite (skipn_exact _ _ _ 4 Ha); now apply firstn_exact|].
  split.
  { replace (u32_bytes a ++ u32_bytes b ++ u32_bytes c ++ body)
      with ((u32_bytes a ++ u32_bytes b) ++ u32_bytes c ++ body)
      by (now rewrite <- app_assoc).
    rewrite (skipn_exact _ (u32_bytes a ++ u32_bytes b) _ 8)
      by (rewrite length_app; lia).
    now apply firstn_exact. }
  split.
  { replace (u32_bytes a ++ u32_bytes b ++ u32_bytes c ++ body)
      with ((u32_bytes a ++ u32_bytes b ++ u32_bytes c) ++ body)
      by (now rewrite <- !app_assoc).
    apply skipn_exact. rewrite !length_app. lia. }
  rewrite !length_app. lia.
Qed.

Lemma to_int32_small : forall z, 0 <= z < 2 ^ 31 -> to_int32 z = z.
Proof.
  intros z Hz. unfold to_int32. rewrite Z.mod_small; lia.
Qed.

(** What [write_cv_mat] writes for a sized matrix. *)
Lemma write_cv_mat_sized :
  forall m,
    sized_matrix m ->
    write_cv_mat m =
      Some (u32_bytes (elemSize m) ++ u32_bytes (rows m)
            ++ u32_bytes (cols m) ++ data m).
Proof.
  intros m (He & Hr & Hc & Hrc & Hlen). unfold write_cv_mat, uint32.
  rewrite (Z.mod_small (elemSize m)) by lia.
  rewrite (Z.mod_small (rows m)) by lia.
  rewrite (Z.mod_small (cols m)) by lia.
  rewrite (Z.mod_small (rows m * cols m)) by nia.
  assert (E : (Z.of_nat (length (data m))
               <? elemSize m * (rows m * cols m)) = false)
    by (apply Z.ltb_ge; lia).
  rewrite E. f_equal. f_equal. f_equal. f_equal.
  apply firstn_all2. lia.
Qed.

(** What [read_cv_mat] does with a file that starts with the whole
    header of a sized matrix that is not empty, followed by [body]. *)
Lemma read_cv_mat_header :
  forall m body target,
    sized_matrix m ->
    (rows m =? 0) && (cols m =? 0) = false ->
    read_cv_mat
      (u32_bytes (elemSize m) ++ u32_bytes (rows m) ++ u32_bytes (cols m)
       ++ body) target =
      let created :=
        mat_create target (rows m) (cols m)
                   (if elemSize m =? 4 then 4 else 8) in
      let got :=
        firstn (Z.to_nat (elemSize m * (rows m * cols m))) body in
      if Z.of_nat (length (data created)) <? Z.of_nat (length got)
      then Aborted
      else
        Returned
          ((if elemSize m =? 0 then 0
            else Z.of_nat (length got) / elemSize m) =? rows m * cols m)
          (mk_mat (elemSize created) (rows created) (cols created)
                  (got ++ skipn (length got) (data created)))
          (skipn (length got) body).
Proof.
  intros m body target (He & Hr & Hc & Hrc & Hlen) Hz. unfold read_cv_mat.
  destruct (header_read_back (elemSize m) (rows m) (cols m) body)
    as (H0 & H1 & H2 & H3 & H4).
  assert (E : (Z.of_nat
                 (length (u32_bytes (elemSize m) ++ u32_bytes (rows m)
                          ++ u32_bytes (cols m) ++ body)) <? 12) = false)
    by (apply Z.ltb_ge; lia).
  rewrite E, H0, H1, H2, H3.
  rewrite !u32_value_bytes by lia.
  rewrite Hz.
  rewrite !to_int32_small by lia.
  assert (Er : (rows m <? 0) = false) by (apply Z.ltb_ge; lia).
  assert (Ec : (cols m <? 0) = false) by (apply Z.ltb_ge; lia).
  rewrite Er, Ec. simpl orb. cbv iota.
  unfold uint32.
  rewrite (Z.mod_small (rows m * cols m)) by nia.
  reflexivity.
Qed.

(** Round trip.  For a matrix of floats or doubles, what [write_cv_mat]
    writes is the 12-byte header followed by the buffer, and
    [read_cv_mat] reads it back whatever follows it in the file and
    whatever matrix it is given to read into: it returns true, leaves
    the rest of the file to be read next and leaves the matrix that was
    written.  The one exception is a matrix with no rows and no columns:
    its record is read with success too, but the matrix read into is
    left as it was. *)
Theorem write_read_cv_mat :
  forall m,
    float_matrix m ->
    exists bytes,
      write_cv_mat m = Some bytes /\
      Z.of_nat (length bytes) = 12 + elemSize m * rows m * cols m /\
      forall rest target,
        read_cv_mat (bytes ++ rest) target =
          if (rows m =? 0) && (cols m =? 0)
          then Returned true target rest
          else Returned true m rest.
Proof.
  intros m [Hfloat Hm]. pose proof Hm as (He & Hr & Hc & Hrc & Hlen).
  eexists. split; [now apply write_cv_mat_sized|]. split.
  - rewrite !length_app, !u32_bytes_length. lia.
  - intros rest target. rewrite <- !app_assoc.
    destruct ((rows m =? 0) && (cols m =? 0)) eqn:Hz.
    + apply andb_prop in Hz. destruct Hz as [Hz1 Hz2].
      apply Z.eqb_eq in Hz1. apply Z.eqb_eq in Hz2.
      rewrite Hz1 in Hlen.
      destruct (data m); [|simpl in Hlen; lia].
      unfold read_cv_mat.
      destruct (header_read_back (elemSize m) (rows m) (cols m) rest)
        as (H0 & H1 & H2 & H3 & H4).
      assert (E : (Z.of_nat
                     (length (u32_bytes (elemSize m) ++ u32_bytes (rows m)
                              ++ u32_bytes (cols m) ++ [] ++ rest))
                   <? 12) = false)
        by (apply Z.ltb_ge; simpl app; lia).
      rewrite E. simpl app. rewrite H1, H2, H3.
      rewrite !u32_value_bytes by lia.
      rewrite Hz1, Hz2. reflexivity.
    + rewrite (read_cv_mat_header m (data m ++ rest) target Hm Hz).
      cbv zeta.
      assert (Esz : (if elemSize m =? 4 then 4 else 8) = elemSize m)
        by (destruct Hfloat as [-> | ->]; reflexivity).
      assert (E0 : (elemSize m =? 0) = false)
        by (destruct Hfloat as [-> | ->]; reflexivity).
      rewrite Esz, E0.
      destruct (mat_create_shape target (rows m) (cols m) (elemSize m))
        as (S1 & S2 & S3 & S4); [lia|lia|lia|].
      assert (Hgot : firstn (Z.to_nat (elemSize m * (rows m * cols m)))
                       (data m ++ rest) = data m)
        by (apply firstn_exact; lia).
      rewrite Hgot, S1, S2, S3.
      assert (E : (Z.of_nat
                     (length (data (mat_create target (rows m) (cols m)
                                               (elemSize m))))
                   <? Z.of_nat (length (data m))) = false)
        by (apply Z.ltb_ge; lia).
      rewrite E.
      rewrite (skipn_all2 (data (mat_create target (rows m) (cols m)
                                            (elemSize m)))) by lia.
      rewrite app_nil_r, (skipn_exact _ (data m) rest) by reflexivity.
      assert (Hdiv : Z.of_nat (length (data m)) / elemSize m
                     = rows m * cols m).
      { rewrite Hlen.
        replace (elemSize m * rows m * cols m)
          with (rows m * cols m * elemSize m) by ring.
        apply Z.div_mul. destruct Hfloat; lia. }
      rewrite Hdiv, Z.eqb_refl. destruct m; reflexivity.
Qed.

(** A record cut short is never taken for a whole one: on any proper
    prefix of what [write_cv_mat] wrote for a matrix of floats or
    doubles, [read_cv_mat] returns false with the file read to its end,
    whether the cut falls inside the header or inside the buffer. *)
Theorem read_cv_mat_truncated :
  forall m bytes before cut target,
    float_matrix m ->
    write_cv_mat m = Some bytes ->
    bytes = before ++ cut ->
    cut <> [] ->
    exists m', read_cv_mat before target = Returned false m' [].
Proof.
  intros m bytes before cut target [Hfloat Hm] Hw Hsplit Hcut.
  pose proof Hm as (He & Hr & Hc & Hrc & Hlen).
  rewrite (write_cv_mat_sized m Hm) in Hw. injection Hw as <-.
  assert (Hcutlen : (0 < length cut)%nat)
    by (destruct cut; [contradiction|simpl; lia]).
  assert (Htotal : Z.of_nat (length before) + Z.of_nat (length cut)
                   = 12 + elemSize m * rows m * cols m).
  { apply (f_equal (@length byte)) in Hsplit.
    rewrite !length_app, !u32_bytes_length in Hsplit. lia. }
  destruct (Z_lt_ge_dec (Z.of_nat (length before)) 12) as [Hshort|Hlong].
  - exists target. unfold read_cv_mat.
    apply Z.ltb_lt in Hshort. rewrite Hshort. reflexivity.
  - (* the header is whole: [before] is the header and a part of the
       buffer *)
    set (header := u32_bytes (elemSize m) ++ u32_bytes (rows m)
                   ++ u32_bytes (cols m)).
    assert (Hheader : length header = 12%nat)
      by (unfold header; rewrite !length_app, !u32_bytes_length; lia).
    assert (Hbefore : before = header ++ skipn 12 before).
    { rewrite <- (firstn_skipn 12 before) at 1. f_equal.
      assert (Hcutoff : firstn 12 (before ++ cut) = firstn 12 before).
      { rewrite firstn_app.
        replace (12 - length before)%nat with 0%nat by lia.
        now rewrite firstn_O, app_nil_r. }
      rewrite <- Hcutoff, <- Hsplit.
      replace (u32_bytes (elemSize m) ++ u32_bytes (rows m)
               ++ u32_bytes (cols m) ++ data m)
        with (header ++ data m)
        by (unfold header; now rewrite <- !app_assoc).
      now apply firstn_exact. }
    set (body := skipn 12 before) in *.
    assert (Hbody : Z.of_nat (length body)
                    < elemSize m * (rows m * cols m)).
    { apply (f_equal (@length byte)) in Hbefore.
      rewrite length_app, Hheader in Hbefore. lia. }
    assert (Hz : (rows m =? 0) && (cols m =? 0) = false).
    { destruct (rows m =? 0) eqn:Hz1; [|reflexivity].
      apply Z.eqb_eq in Hz1. rewrite Hz1 in Hbody. lia. }
    rewrite Hbefore. unfold header. rewrite <- !app_assoc.
    rewrite (read_cv_mat_header m body target Hm Hz).
    cbv zeta.
    assert (Esz : (if elemSize m =? 4 then 4 else 8) = elemSize m)
      by (destruct Hfloat as [-> | ->]; reflexivity).
    assert (E0 : (elemSize m =? 0) = false)
      by (destruct Hfloat as [-> | ->]; reflexivity).
    rewrite Esz, E0.
    destruct (mat_create_shape target (rows m) (cols m) (elemSize m))
      as (S1 & S2 & S3 & S4); [lia|lia|lia|].
    assert (Hgot : firstn (Z.to_nat (elemSize m * (rows m * cols m))) body
                   = body)
      by (apply firstn_all2; lia).
    rewrite Hgot.
    assert (E : (Z.of_nat
                   (length (data (mat_create target (rows m) (cols m)
                                             (elemSize m))))
                 <? Z.of_nat (length body)) = false)
      by (apply Z.ltb_ge; lia).
    rewrite E, skipn_all.
    assert (Hread : (Z.of_nat (length body) / elemSize m
                     =? rows m * cols m) = false).
    { apply Z.eqb_neq. intro Heq.
      assert (Hpos : 0 < elemSize m) by (destruct Hfloat; lia).
      pose proof (Z.mul_div_le (Z.of_nat (length body)) (elemSize m) Hpos)
        as Hle.
      rewrite Heq in Hle. lia. }
    rewrite Hread. eexists. reflexivity.
Qed.

(** The element size in the header is only looked at to choose between
    [float] and [double]: a record written for a matrix of any other
    element type is read into a matrix of doubles.  With elements
    narrower than eight bytes the read reports success, with the bytes
    written at the start of a buffer of doubles that they do not fill;
    with wider elements more is read than the buffer holds. *)
Theorem read_cv_mat_other_element_size :
  forall m bytes rest target,
    sized_matrix m ->
    0 < rows m -> 0 < cols m ->
    0 < elemSize m -> elemSize m <> 4 ->
    write_cv_mat m = Some bytes ->
    read_cv_mat (bytes ++ rest) target =
      if elemSize m <=? 8
      then
        Returned true
          (mk_mat 8 (rows m) (cols m)
             (data m ++
              skipn (length (data m))
                    (data (mat_create target (rows m) (cols m) 8))))
          rest
      else Aborted.
Proof.
  intros m bytes rest target Hm Hrows Hcols Hpos Hnot4 Hw.
  pose proof Hm as (He & Hr & Hc & Hrc & Hlen).
  rewrite (write_cv_mat_sized m Hm) in Hw. injection Hw as <-.
  assert (Hz : (rows m =? 0) && (cols m =? 0) = false).
  { destruct (rows m =? 0) eqn:Hz1; [|reflexivity].
    apply Z.eqb_eq in Hz1. lia. }
  rewrite <- !app_assoc.
  rewrite (read_cv_mat_header m (data m ++ rest) target Hm Hz).
  cbv zeta.
  assert (Esz : (elemSize m =? 4) = false) by (now apply Z.eqb_neq).
  assert (E0 : (elemSize m =? 0) = false) by (apply Z.eqb_neq; lia).
  rewrite Esz, E0.
  destruct (mat_create_shape target (rows m) (cols m) 8)
    as (S1 & S2 & S3 & S4); [lia|lia|lia|].
  assert (Hgot : firstn (Z.to_nat (elemSize m * (rows m * cols m)))
                   (data m ++ rest) = data m)
    by (apply firstn_exact; lia).
  rewrite Hgot, S1, S2, S3.
  destruct (elemSize m <=? 8) eqn:Hwide.
  - apply Z.leb_le in Hwide.
    assert (E : (Z.of_nat
                   (length (data (mat_create target (rows m) (cols m) 8)))
                 <? Z.of_nat (length (data m))) = false)
      by (apply Z.ltb_ge; nia).
    rewrite E, (skipn_exact _ (data m) rest) by reflexivity.
    assert (Hdiv : Z.of_nat (length (data m)) / elemSize m
                   = rows m * cols m).
    { rewrite Hlen.
      replace (elemSize m * rows m * cols m)
        with (rows m * cols m * elemSize m) by ring.
      apply Z.div_mul. lia. }
    rewrite Hdiv, Z.eqb_refl. reflexivity.
  - apply Z.leb_gt in Hwide.
    assert (E : (Z.of_nat
                   (length (data (mat_create target (rows m) (cols m) 8)))
                 <? Z.of_nat (length (data m))) = true)
      by (apply Z.ltb_lt; nia).
    rewrite E. reflexivity.
Qed.

End Mat.

End TFile.

(** * The statements at concrete inputs *)

Import Sample.

(** A frame whose second layer declares three views: the call returns that
    layer's error and the session, compositor log included, is as before;
    the valid quad in front of it was not submitted. *)
Lemma oxr_session_frame_end_validate_then_submit_witness :
  let sess := in_frame with_compositor in
  let info :=
    frame 1000 XR_ENVIRONMENT_BLEND_MODE_OPAQUE
          [Some good_quad; Some three_views; Some good_projection] in
  fst (frame_end sess info) = Ret XR_ERROR_VALIDATION_FAILURE /\
  snd (frame_end sess info) = sess.
Proof.
  intros sess info.
  assert (Hcount : layerCount info <> 0%nat) by discriminate.
  pose proof (oxr_session_frame_end_validate_then_submit
                Q success_result quat_validate vec3_validate
                pose_invert pose_transform sess info Hcount) as H.
  cbv zeta in H. destruct H as (_ & _ & H3).
  assert (Hblend : blend_mode_accepted sess info)
    by (split; discriminate).
  destruct (H3 (mk_compositor
                  [xrt_comp_begin_session Q 2; xrt_comp_begin_frame Q])
               eq_refl eq_refl eq_refl eq_refl Hblend) as [Hfail _].
  apply (Hfail [Some good_quad; Some three_views; Some good_projection]
               1%nat (Ret XR_ERROR_VALIDATION_FAILURE) eq_refl).
  - simpl. lia.
  - split; [|split].
    + intros j Hj. assert (j = 0%nat) as -> by lia.
      exists (Some good_quad). split; reflexivity.
    + exists (Some three_views). split; reflexivity.
    + discriminate.
Defined.

(** The same frame without the offending layer goes through: layer-begin,
    the two submissions in order, layer-commit. *)
Example frame_end_two_layers_submitted :
  let sess := in_frame with_compositor in
  let info :=
    frame 1000 XR_ENVIRONMENT_BLEND_MODE_OPAQUE
          [Some good_quad; Some good_projection] in
  fst (frame_end sess info) = Ret XR_SUCCESS /\
  map (@is_layer_submit Q) (comp_calls (snd (frame_end sess info))) =
    [false; false; false; true; true; false] /\
  frame_started (snd (frame_end sess info)) = false.
Proof. vm_compute. repeat split. Qed.

Lemma oxr_session_begin_outcomes_witness :
  state (snd (oxr_session_begin success_result with_compositor stereo)) =
    XR_SESSION_STATE_FOCUSED /\
  events (snd (oxr_session_begin success_result headless mono)) =
    [XR_SESSION_STATE_IDLE; XR_SESSION_STATE_READY;
     XR_SESSION_STATE_SYNCHRONIZED; XR_SESSION_STATE_VISIBLE;
     XR_SESSION_STATE_FOCUSED].
Proof.
  split.
  - destruct (oxr_session_begin_outcomes
                Q success_result success_result_succeeded
                with_compositor stereo) as (_ & _ & _ & H).
    destruct (H eq_refl (or_intror eq_refl)) as (_ & _ & Hst & _).
    exact Hst.
  - destruct (oxr_session_begin_outcomes
                Q success_result success_result_succeeded
                headless mono) as (_ & _ & _ & H).
    destruct (H eq_refl (or_introl eq_refl)) as (_ & _ & _ & Hev & _).
    exact Hev.
Defined.

(** A created session with a compositor, asked to begin with the mono
    view configuration on a stereo system: it was not running, and yet the
    call does not succeed and the state does not move. *)
Lemma oxr_session_begin_view_type_counterexample :
  is_running (state with_compositor) = false /\
  oxr_session_begin success_result with_compositor mono =
    (XR_ERROR_VIEW_CONFIGURATION_TYPE_UNSUPPORTED, with_compositor) /\
  XR_SUCCEEDED
    (fst (oxr_session_begin success_result with_compositor mono)) = false /\
  state (snd (oxr_session_begin success_result with_compositor mono)) =
    XR_SESSION_STATE_READY.
Proof. repeat split. Qed.

Lemma oxr_session_end_outcomes_witness :
  state (snd (oxr_session_end success_result (stopping with_compositor))) =
    XR_SESSION_STATE_EXITING /\
  oxr_session_end success_result (running headless) =
    (XR_ERROR_SESSION_NOT_STOPPING, running headless) /\
  oxr_session_end success_result headless =
    (XR_ERROR_SESSION_NOT_RUNNING, headless).
Proof.
  split; [|split].
  - destruct (oxr_session_end_outcomes
                Q success_result success_result_succeeded
                (stopping with_compositor)) as (_ & _ & H).
    destruct (H eq_refl) as (_ & _ & Hst & _). exact Hst.
  - destruct (oxr_session_end_outcomes
                Q success_result success_result_succeeded
                (running headless)) as (_ & H & _).
    apply H; [reflexivity|discriminate].
  - destruct (oxr_session_end_outcomes
                Q success_result success_result_succeeded
                headless) as (H & _).
    apply H. reflexivity.
Defined.

(** A headless session brought to STOPPING with a frame open by begin,
    beginFrame, requestExit. *)
Lemma oxr_session_end_headless_keeps_frame_started_witness :
  XR_SUCCEEDED
    (fst (oxr_session_end success_result (stopping headless))) = true /\
  frame_started
    (snd (oxr_session_end success_result (stopping headless))) = true.
Proof.
  apply (oxr_session_end_headless_keeps_frame_started
           Q success_result success_result_succeeded (stopping headless));
    reflexivity.
Defined.

(** The same run with a compositor: there the frame is discarded. *)
Example oxr_session_end_with_compositor_closes_frame :
  frame_started
    (snd (oxr_session_end success_result (stopping with_compositor))) =
    false.
Proof. reflexivity. Qed.

Lemma oxr_session_frame_end_time_invalid_witness :
  frame_end (in_frame headless)
            (frame 0 99 [Some three_views]) =
    (Ret XR_ERROR_TIME_INVALID, in_frame headless).
Proof.
  apply (oxr_session_frame_end_time_invalid
           Q success_result quat_validate vec3_validate
           pose_invert pose_transform).
  - reflexivity.
  - reflexivity.
  - simpl. lia.
Defined.

(** A display time of zero on a session that is not running, and on one
    that is running with no frame open: neither call reports the time. *)
Lemma oxr_session_frame_end_time_counterexample :
  displayTime (frame 0 XR_ENVIRONMENT_BLEND_MODE_OPAQUE []) <= 0 /\
  fst (frame_end with_compositor
                 (frame 0 XR_ENVIRONMENT_BLEND_MODE_OPAQUE [])) =
    Ret XR_ERROR_SESSION_NOT_RUNNING /\
  fst (frame_end (running with_compositor)
                 (frame 0 XR_ENVIRONMENT_BLEND_MODE_OPAQUE [])) =
    Ret XR_ERROR_CALL_ORDER_INVALID /\
  fst (frame_end with_compositor
                 (frame 0 XR_ENVIRONMENT_BLEND_MODE_OPAQUE [])) <>
    Ret XR_ERROR_TIME_INVALID.
Proof.
  split; [simpl; lia|]. repeat split. discriminate.
Qed.

Lemma oxr_session_frame_end_blend_mode_witness :
  let sess := in_frame with_compositor in
  fst (frame_end sess (frame 1000 99 [])) =
    Ret XR_ERROR_VALIDATION_FAILURE /\
  fst (frame_end sess (frame 1000 XR_ENVIRONMENT_BLEND_MODE_ADDITIVE [])) =
    Ret XR_ERROR_ENVIRONMENT_BLEND_MODE_UNSUPPORTED /\
  comp_calls
    (snd (frame_end sess (frame 1000 XR_ENVIRONMENT_BLEND_MODE_OPAQUE []))) =
    [xrt_comp_begin_session Q 2; xrt_comp_begin_frame Q;
     xrt_comp_discard_frame Q].
Proof.
  intro sess.
  pose (xc := mk_compositor
                [xrt_comp_begin_session Q 2; xrt_comp_begin_frame Q]).
  split; [|split].
  - destruct (oxr_session_frame_end_blend_mode
                Q success_result success_result_succeeded
                quat_validate vec3_validate pose_invert pose_transform
                sess (frame 1000 99 []) xc
                eq_refl eq_refl eq_refl eq_refl) as (H & _).
    unfold frame_end. rewrite H; reflexivity.
  - destruct (oxr_session_frame_end_blend_mode
                Q success_result success_result_succeeded
                quat_validate vec3_validate pose_invert pose_transform
                sess (frame 1000 XR_ENVIRONMENT_BLEND_MODE_ADDITIVE []) xc
                eq_refl eq_refl eq_refl eq_refl) as (_ & H & _).
    unfold frame_end. rewrite H; [reflexivity|discriminate|reflexivity].
  - destruct (oxr_session_frame_end_blend_mode
                Q success_result success_result_succeeded
                quat_validate vec3_validate pose_invert pose_transform
                sess (frame 1000 XR_ENVIRONMENT_BLEND_MODE_OPAQUE []) xc
                eq_refl eq_refl eq_refl eq_refl) as (_ & _ & H & _).
    assert (Hblend : blend_mode_accepted
                       sess (frame 1000 XR_ENVIRONMENT_BLEND_MODE_OPAQUE []))
      by (split; discriminate).
    destruct (H eq_refl Hblend) as (_ & _ & _ & Hcalls).
    exact Hcalls.
Defined.

Lemma oxr_session_frame_begin_outcomes_witness :
  fst (oxr_session_frame_begin success_result (running with_compositor)) =
    XR_SUCCESS /\
  fst (oxr_session_frame_begin success_result (in_frame with_compositor)) =
    XR_FRAME_DISCARDED /\
  frame_started
    (snd (oxr_session_frame_begin success_result
            (in_frame with_compositor))) = true.
Proof.
  split; [|split].
  - destruct (oxr_session_frame_begin_outcomes
                Q success_result success_result_succeeded
                (running with_compositor) eq_refl) as (_ & _ & _ & H).
    destruct (H eq_refl) as (Hr & _). rewrite Hr. reflexivity.
  - destruct (oxr_session_frame_begin_outcomes
                Q success_result success_result_succeeded
                (in_frame with_compositor) eq_refl) as (_ & _ & H & _).
    destruct (H eq_refl) as (Hr & _). exact Hr.
  - destruct (oxr_session_frame_begin_outcomes
                Q success_result success_result_succeeded
                (in_frame with_compositor) eq_refl) as (H & _).
    exact H.
Defined.

Lemma verify_layer_null_space_witness :
  verify_layer quat_validate vec3_validate
    (Some (LayerProjection (projection XR_NULL_HANDLE 3 []))) =
    Ret XR_ERROR_VALIDATION_FAILURE /\
  verify_layer quat_validate vec3_validate
    (Some (LayerQuad (quad XR_NULL_HANDLE (Some released)))) =
    Ret XR_ERROR_VALIDATION_FAILURE.
Proof.
  destruct (verify_layer_null_space Q quat_validate vec3_validate)
    as (Hproj & Hquad & _).
  split.
  - apply Hproj. reflexivity.
  - apply Hquad; [reflexivity|discriminate].
Defined.

(** A quad layer with a null space and a null swapchain: the swapchain
    test comes first, and the error kind is another one. *)
Lemma verify_layer_null_space_counterexample :
  quad_space (quad XR_NULL_HANDLE None) = XR_NULL_HANDLE /\
  verify_layer quat_validate vec3_validate
    (Some (LayerQuad (quad XR_NULL_HANDLE None))) =
    Ret XR_ERROR_LAYER_INVALID /\
  Ret XR_ERROR_LAYER_INVALID <> Ret XR_ERROR_VALIDATION_FAILURE.
Proof. repeat split. discriminate. Qed.

Lemma oxr_session_get_view_pose_at_prediction_witness :
  let get_pose dynamic :=
    snd (oxr_session_get_view_pose_at
           success_result quat_integrate_velocity ns_to_s Qplus
           get_relation_at dynamic angular_velocity_valid_bit
           (running headless) 20000000) in
  orientation (get_pose true) =
    quat_integrate_velocity
      (mk_quat 0 0 0 1)%Q (mk_vec3 0 1 0)%Q
      (ns_to_s 4000000 + (11 # 1000))%Q /\
  orientation (get_pose false) =
    quat_integrate_velocity
      (mk_quat 0 0 0 1)%Q (mk_vec3 0 1 0)%Q (11 # 1000)%Q /\
  position (get_pose true) = (mk_vec3 0 (8 # 5) 0)%Q /\
  snd (oxr_session_get_view_pose_at
         success_result quat_integrate_velocity ns_to_s Qplus
         get_relation_no_velocity true angular_velocity_valid_bit
         (running headless) 20000000) =
    mk_pose (mk_quat 0 0 0 1)%Q (mk_vec3 0 (8 # 5) 0)%Q.
Proof.
  intro get_pose. split; [|split; [|split]].
  - destruct (oxr_session_get_view_pose_at_prediction
                Q success_result quat_integrate_velocity ns_to_s Qplus
                get_relation_at true angular_velocity_valid_bit
                (running headless) 20000000) as (_ & _ & H & _).
    apply H. discriminate.
  - destruct (oxr_session_get_view_pose_at_prediction
                Q success_result quat_integrate_velocity ns_to_s Qplus
                get_relation_at false angular_velocity_valid_bit
                (running headless) 20000000) as (_ & _ & H & _).
    apply H. discriminate.
  - destruct (oxr_session_get_view_pose_at_prediction
                Q success_result quat_integrate_velocity ns_to_s Qplus
                get_relation_at true angular_velocity_valid_bit
                (running headless) 20000000) as (_ & H & _).
    exact H.
  - destruct (oxr_session_get_view_pose_at_prediction
                Q success_result quat_integrate_velocity ns_to_s Qplus
                get_relation_no_velocity true angular_velocity_valid_bit
                (running headless) 20000000) as (_ & _ & _ & H & _).
    apply H. reflexivity.
Defined.

Lemma verify_projection_layer_swapchain_unguarded_witness :
  verify_projection_layer quat_validate vec3_validate
    (projection 7 2 [view (Some released); view None]) = Undefined /\
  verify_quad_layer quat_validate vec3_validate (quad 7 None) =
    Ret XR_ERROR_LAYER_INVALID /\
  verify_projection_layer quat_validate vec3_validate
    (projection 7 2 [view (Some released); view (Some released)])
    <> Undefined.
Proof.
  destruct (verify_projection_layer_swapchain_unguarded
              Q success_result quat_validate vec3_validate
              pose_invert pose_transform)
    as (Hdef & Hnull & _ & Hquad & _).
  split; [|split].
  - apply (Hnull (projection 7 2 [view (Some released); view None])
                 1%nat (view None)).
    + discriminate.
    + reflexivity.
    + lia.
    + reflexivity.
    + intros j Hj. assert (j = 0%nat) as -> by lia.
      exists (view (Some released)). split; reflexivity.
    + split; reflexivity.
    + reflexivity.
  - apply Hquad. reflexivity.
  - apply Hdef.
    + simpl. lia.
    + intros v [<-|[<-|[]]]; discriminate.
Defined.

(** A frame whose projection layer has a null swapchain in its second
    view, behind a valid quad. *)
Example frame_end_null_view_swapchain :
  fst (frame_end (in_frame with_compositor)
         (frame 1000 XR_ENVIRONMENT_BLEND_MODE_OPAQUE
            [Some good_quad;
             Some (LayerProjection
                     (projection 7 2 [view (Some released); view None]))])) =
    Undefined.
Proof. reflexivity. Qed.

(** * The further statements at concrete inputs *)

Module SampleRun.

(** The sample interpretation applied to runs of calls. *)
Definition run :=
  oxr_run success_result quat_validate vec3_validate
          pose_invert pose_transform.

Definition apply :=
  oxr_apply success_result quat_validate vec3_validate
            pose_invert pose_transform.

(** Begin, render one frame of two layers, open another, ask to exit,
    end. *)
Definition one_frame : list (oxr_call Q) :=
  [call_begin Q stereo;
   call_frame_begin Q;
   call_frame_end
     (frame 1000 XR_ENVIRONMENT_BLEND_MODE_OPAQUE
            [Some good_quad; Some good_projection]);
   call_frame_begin Q;
   call_request_exit Q;
   call_end Q].

(** Frames without an exit request, one of them refused. *)
Definition no_exit : list (oxr_call Q) :=
  [call_begin Q stereo;
   call_frame_begin Q;
   call_frame_end (frame 1000 99 []);
   call_frame_end (frame 1000 XR_ENVIRONMENT_BLEND_MODE_OPAQUE []);
   call_frame_begin Q].

(** A clock that counts its updates, a timestamp domain that starts
    5000 ns after the backend's, and the frame pacing of a 90 Hz
    display. *)
Definition clock_update (ticks : Z) : Z * Z := (ticks, ticks + 1).
Definition to_ts (ticks : Z) (monotonic : Z) : Z := monotonic - 5000.
Definition wait_frame (xc : xrt_compositor Q) : Z * Z :=
  (20000000, 11111111).
Definition wait_frame_early (xc : xrt_compositor Q) : Z * Z :=
  (4000, 11111111).
Definition wait_frame_unset (xc : xrt_compositor Q) : Z * Z :=
  (0, 11111111).

Definition frame_wait :=
  oxr_session_frame_wait success_result clock_update to_ts wait_frame.

Definition untouched : XrFrameState := mk_frame_state true (-7) (-9).

(** A stage space half a metre up, and a device with fixed eye poses. *)
Definition stage : oxr_space Q :=
  mk_space 3 (mk_pose (mk_quat 0 0 0 1)%Q (mk_vec3 0 (1 # 2) 0)%Q) true.

Definition action_space : oxr_space Q :=
  mk_space 3 identity_pose false.

Definition ref_relation (sess : oxr_session Q) (space base : Z) (t : Z)
  : xrt_space_relation Q :=
  mk_relation 3 (mk_pose (mk_quat 0 0 0 1)%Q (mk_vec3 0 (8 # 5) 0)%Q)
              (mk_vec3 0 0 0)%Q.

Definition eye_pose (xdev : xrt_device Q) (eye_relation : xrt_vec3 Q)
  (i : nat) : xrt_pose Q :=
  mk_pose (mk_quat 0 0 0 1)%Q
          (mk_vec3 (match i with
                    | O => - (vec3_x eye_relation / 2)
                    | _ => vec3_x eye_relation / 2
                    end)%Q 0%Q 0%Q).

Definition eye_fov (xdev : xrt_device Q) (i : nat) : xrt_fov Q :=
  match i with
  | O => (mk_fov (-1) (4 # 5) 1 (-1))%Q
  | _ => (mk_fov (- (4 # 5)) 1 1 (-1))%Q
  end.

Definition openxr_locate (view pure base : xrt_pose Q) : xrt_pose Q :=
  pose_transform (pose_invert base) (pose_transform pure view).

Definition locate :=
  oxr_session_views success_result ref_relation eye_pose eye_fov
                    openxr_locate 0%Q.

Definition blank_view : XrView Q :=
  mk_xr_view identity_pose (mk_fov 0 0 0 0)%Q.

End SampleRun.

Import SampleRun.

Lemma oxr_session_request_exit_outcomes_witness :
  events (snd (oxr_session_request_exit success_result
                 (running with_compositor))) =
    events (running with_compositor) ++
    [XR_SESSION_STATE_VISIBLE; XR_SESSION_STATE_SYNCHRONIZED;
     XR_SESSION_STATE_STOPPING] /\
  events (snd (oxr_session_request_exit success_result
                 (stopping with_compositor))) =
    events (stopping with_compositor) ++ [XR_SESSION_STATE_STOPPING] /\
  oxr_session_request_exit success_result headless =
    (XR_ERROR_SESSION_NOT_RUNNING, headless).
Proof.
  split; [|split].
  - destruct (oxr_session_request_exit_outcomes
                Q success_result (running with_compositor)) as (_ & H).
    destruct (H eq_refl) as (_ & _ & _ & Hev & _). exact Hev.
  - destruct (oxr_session_request_exit_outcomes
                Q success_result (stopping with_compositor)) as (_ & H).
    destruct (H eq_refl) as (_ & _ & _ & Hev & _). exact Hev.
  - destruct (oxr_session_request_exit_outcomes
                Q success_result headless) as (H & _).
    apply H. reflexivity.
Defined.

Lemma oxr_run_states_between_calls_witness :
  exists sess',
    run with_compositor one_frame = Some sess' /\
    (exiting sess' = false /\
     (state sess' = XR_SESSION_STATE_READY \/
      state sess' = XR_SESSION_STATE_FOCUSED) \/
     exiting sess' = true /\
     (state sess' = XR_SESSION_STATE_FOCUSED \/
      state sess' = XR_SESSION_STATE_STOPPING \/
      state sess' = XR_SESSION_STATE_EXITING)).
Proof.
  eexists. split; [reflexivity|].
  apply (oxr_run_states_between_calls
           Q success_result success_result_succeeded
           quat_validate vec3_validate pose_invert pose_transform
           with_compositor one_frame);
    reflexivity.
Defined.

Lemma oxr_run_last_event_is_state_witness :
  exists sess' es',
    run with_compositor one_frame = Some sess' /\
    events sess' = es' ++ [state sess'].
Proof.
  assert (Hrun : exists sess', run with_compositor one_frame = Some sess')
    by (eexists; reflexivity).
  destruct Hrun as [sess' Hrun].
  destruct (oxr_run_last_event_is_state
              Q success_result success_result_succeeded
              quat_validate vec3_validate pose_invert pose_transform
              with_compositor one_frame sess')
    as [es' Hes'].
  - exists [XR_SESSION_STATE_IDLE]. reflexivity.
  - exact Hrun.
  - exists sess', es'. split; [exact Hrun|exact Hes'].
Defined.

Lemma oxr_run_compositor_protocol_witness :
  exists sess',
    run with_compositor one_frame = Some sess' /\ log_in_step sess'.
Proof.
  eexists. split; [reflexivity|].
  apply (oxr_run_compositor_protocol
           Q success_result success_result_succeeded
           quat_validate vec3_validate pose_invert pose_transform
           with_compositor one_frame).
  - exists (mk_compositor (@nil (xrt_comp_call Q))). split; reflexivity.
  - reflexivity.
Defined.

(** The log of that run, and what the protocol makes of it. *)
Example one_frame_log :
  option_map
    (fun s => (map (@is_layer_submit Q) (comp_calls s),
               comp_protocol (mk_phase false false false) (comp_calls s)))
    (run with_compositor one_frame) =
    Some ([false; false; false; true; true; false; false; false; false],
          Some (mk_phase false false false)).
Proof. vm_compute. reflexivity. Qed.

Lemma oxr_run_end_needs_request_exit_witness :
  exists sess',
    run with_compositor no_exit = Some sess' /\
    XR_SUCCEEDED (fst (oxr_session_end success_result sess')) = false /\
    snd (oxr_session_end success_result sess') = sess'.
Proof.
  eexists. split; [reflexivity|].
  apply (oxr_run_end_needs_request_exit
           Q success_result success_result_succeeded
           quat_validate vec3_validate pose_invert pose_transform
           with_compositor no_exit);
    reflexivity.
Defined.

Lemma oxr_run_exiting_is_kept_witness :
  exists sess',
    run (stopping headless)
        [call_end Q; call_begin Q mono; call_frame_begin Q] = Some sess' /\
    exiting sess' = true /\
    state sess' = XR_SESSION_STATE_FOCUSED.
Proof.
  eexists. split; [reflexivity|]. split; [|reflexivity].
  apply (oxr_run_exiting_is_kept
           Q success_result success_result_succeeded
           quat_validate vec3_validate pose_invert pose_transform
           (stopping headless)
           [call_end Q; call_begin Q mono; call_frame_begin Q]);
    reflexivity.
Defined.

Lemma oxr_apply_error_changes_nothing_witness :
  snd (apply (in_frame with_compositor)
         (call_frame_end
            (frame 1000 XR_ENVIRONMENT_BLEND_MODE_OPAQUE
                   [Some good_quad; Some three_views]))) =
    in_frame with_compositor.
Proof.
  apply (oxr_apply_error_changes_nothing
           Q success_result success_result_succeeded
           quat_validate vec3_validate pose_invert pose_transform
           (in_frame with_compositor) _ XR_ERROR_VALIDATION_FAILURE);
    reflexivity.
Defined.

Lemma oxr_session_frame_end_twice_witness :
  let once :=
    snd (frame_end (in_frame with_compositor)
           (frame 1000 XR_ENVIRONMENT_BLEND_MODE_OPAQUE [Some good_quad])) in
  frame_end once (frame 1000 XR_ENVIRONMENT_BLEND_MODE_OPAQUE []) =
    (Ret XR_ERROR_CALL_ORDER_INVALID, once).
Proof.
  apply (oxr_session_frame_end_twice
           Q success_result quat_validate vec3_validate
           pose_invert pose_transform
           (in_frame with_compositor)
           (frame 1000 XR_ENVIRONMENT_BLEND_MODE_OPAQUE [Some good_quad])
           (frame 1000 XR_ENVIRONMENT_BLEND_MODE_OPAQUE [])
           XR_SUCCESS);
    reflexivity.
Defined.

Lemma oxr_session_begin_exit_end_witness :
  let ended :=
    oxr_session_end success_result
      (snd (oxr_session_request_exit success_result
              (snd (oxr_session_begin success_result
                      with_compositor stereo)))) in
  state (snd ended) = XR_SESSION_STATE_EXITING /\
  comp_calls (snd ended) =
    [xrt_comp_begin_session Q 2; xrt_comp_end_session Q].
Proof.
  destruct (oxr_session_begin_exit_end
              Q success_result success_result_succeeded
              with_compositor stereo eq_refl (or_intror eq_refl))
    as (_ & _ & _ & Hst & _ & Hcalls).
  split; [exact Hst|exact Hcalls].
Defined.

Lemma oxr_session_frame_end_headless_witness :
  fst (frame_end (in_frame headless)
         (mk_frame_end_info 1000 99 5 None)) = Ret XR_SUCCESS /\
  frame_started
    (snd (frame_end (in_frame headless)
            (mk_frame_end_info 1000 99 5 None))) = false.
Proof.
  destruct (oxr_session_frame_end_headless
              Q success_result success_result_succeeded
              quat_validate vec3_validate pose_invert pose_transform
              (in_frame headless) (mk_frame_end_info 1000 99 5 None)
              eq_refl eq_refl eq_refl eq_refl) as [H _].
  unfold frame_end. rewrite H. split; reflexivity.
Defined.

Lemma verify_quad_layer_passes_iff_witness :
  verify_quad_layer quat_validate vec3_validate (quad 7 (Some released)) =
    Ret XR_SUCCESS /\
  verify_quad_layer quat_validate vec3_validate
    (mk_quad 0 7 0 (mk_sub_image (Some released) (mk_rect 16 0 512 512) 0)
             identity_pose (mk_vec2 1 1)%Q) <> Ret XR_SUCCESS.
Proof.
  split.
  - apply (verify_quad_layer_passes_iff Q quat_validate vec3_validate).
    exists released. repeat split; try reflexivity; discriminate.
  - intro H.
    apply (verify_quad_layer_passes_iff Q quat_validate vec3_validate) in H.
    destruct H as (_ & _ & _ & _ & _ & _ & Hx & _). discriminate Hx.
Defined.

Lemma verify_projection_layer_passes_iff_witness :
  verify_projection_layer quat_validate vec3_validate
    (projection 7 2 [view (Some released); view (Some released)]) =
    Ret XR_SUCCESS.
Proof.
  apply (verify_projection_layer_passes_iff Q quat_validate vec3_validate).
  split; [discriminate|]. split; [reflexivity|].
  intros j Hj. exists (view (Some released)), released.
  destruct j as [|[|j]]; [| |lia];
    repeat split; try reflexivity; discriminate.
Defined.

Lemma oxr_session_frame_end_submissions_witness :
  exists subs,
    comp_calls
      (snd (frame_end (in_frame with_compositor)
              (frame 1000 XR_ENVIRONMENT_BLEND_MODE_OPAQUE
                     [Some good_quad; Some good_projection]))) =
      [xrt_comp_begin_session Q 2; xrt_comp_begin_frame Q]
      ++ xrt_comp_layer_begin Q XRT_BLEND_MODE_OPAQUE
         :: subs ++ [xrt_comp_layer_commit Q] /\
    length subs = 2%nat.
Proof.
  destruct (oxr_session_frame_end_submissions
              Q success_result quat_validate vec3_validate
              pose_invert pose_transform
              (in_frame with_compositor)
              (frame 1000 XR_ENVIRONMENT_BLEND_MODE_OPAQUE
                     [Some good_quad; Some good_projection])
              (mk_compositor
                 [xrt_comp_begin_session Q 2; xrt_comp_begin_frame Q])
              XR_SUCCESS)
    as (ls & subs & _ & Hcalls & Hlen & _).
  - reflexivity.
  - discriminate.
  - reflexivity.
  - reflexivity.
  - exists subs. split; [exact Hcalls|exact Hlen].
Defined.

(** The quad of that frame, as the compositor gets it: the pose is the
    layer's, one metre lower, the head's tracking origin being one metre
    up. *)
Example frame_end_quad_submission :
  nth_error
    (comp_calls
       (snd (frame_end (in_frame with_compositor)
               (frame 1000 XR_ENVIRONMENT_BLEND_MODE_OPAQUE
                      [Some good_quad; Some good_projection])))) 3 =
    Some (xrt_comp_layer_quad
            1000 hmd 0 0 (mk_xrt_swapchain 3 1) 2 (mk_rect 0 0 1024 1024) 0
            (mk_pose (mk_quat 0 0 0 1)%Q (mk_vec3 0 (-1) (-2))%Q)
            (mk_vec2 1 1)%Q false).
Proof. vm_compute. reflexivity. Qed.

Lemma oxr_session_frame_end_call_order_codes_witness :
  fst (frame_end with_compositor (frame 0 99 [])) =
    Ret XR_ERROR_SESSION_NOT_RUNNING /\
  fst (frame_end (running with_compositor) (frame 0 99 [])) =
    Ret XR_ERROR_CALL_ORDER_INVALID /\
  fst (frame_end (in_frame with_compositor) (frame 0 99 [])) =
    Ret XR_ERROR_TIME_INVALID.
Proof.
  split; [|split].
  - destruct (oxr_session_frame_end_call_order_codes
                Q success_result success_result_succeeded
                quat_validate vec3_validate pose_invert pose_transform
                with_compositor (frame 0 99 [])) as (H & _).
    apply H. reflexivity.
  - destruct (oxr_session_frame_end_call_order_codes
                Q success_result success_result_succeeded
                quat_validate vec3_validate pose_invert pose_transform
                (running with_compositor) (frame 0 99 [])) as (_ & H & _).
    apply H. split; reflexivity.
  - destruct (oxr_session_frame_end_call_order_codes
                Q success_result success_result_succeeded
                quat_validate vec3_validate pose_invert pose_transform
                (in_frame with_compositor) (frame 0 99 [])) as (_ & _ & H).
    apply H. repeat split. simpl. lia.
Defined.

Lemma oxr_session_frame_wait_gate_witness :
  frame_wait with_compositor 0 untouched =
    (XR_ERROR_SESSION_NOT_RUNNING, 0, untouched) /\
  frame_wait (running headless) 0 untouched =
    (XR_SUCCESS, 1, mk_frame_state false (-7) (-9)).
Proof.
  destruct (oxr_session_frame_wait_gate
              Q success_result Z clock_update to_ts wait_frame
              with_compositor 0 untouched) as (H1 & _).
  destruct (oxr_session_frame_wait_gate
              Q success_result Z clock_update to_ts wait_frame
              (running headless) 0 untouched) as (_ & _ & H3).
  split; [apply H1; reflexivity|apply H3; reflexivity].
Defined.

Lemma oxr_session_frame_wait_with_compositor_witness :
  snd (frame_wait (running with_compositor) 0 untouched) =
    mk_frame_state true 19995000 11111111.
Proof.
  destruct (oxr_session_frame_wait_with_compositor
              Q success_result success_result_succeeded
              Z clock_update to_ts wait_frame
              (running with_compositor) 0 untouched
              (mk_compositor [xrt_comp_begin_session Q 2]) eq_refl)
    as (Hiff & Hok).
  assert (Hsucc : XR_SUCCEEDED
                    (fst (fst (frame_wait (running with_compositor) 0
                                          untouched))) = true).
  { apply Hiff. repeat split. }
  destruct (Hok Hsucc) as (_ & _ & Ht & Hp & Hr).
  unfold frame_wait in *.
  destruct (snd (oxr_session_frame_wait success_result clock_update to_ts
                   wait_frame (running with_compositor) 0 untouched))
    as [sr t p].
  simpl in Ht, Hp, Hr. rewrite Ht, Hp, Hr. reflexivity.
Defined.

Lemma oxr_session_frame_wait_failure_witness :
  oxr_session_frame_wait success_result clock_update to_ts wait_frame_unset
    (running with_compositor) 0 untouched =
    (XR_ERROR_RUNTIME_FAILURE, 1, untouched) /\
  oxr_session_frame_wait success_result clock_update to_ts wait_frame_early
    (running with_compositor) 0 untouched =
    (XR_ERROR_RUNTIME_FAILURE, 1, mk_frame_state true (-1000) 11111111).
Proof.
  split.
  - destruct (oxr_session_frame_wait_failure
                Q success_result success_result_succeeded
                Z clock_update to_ts wait_frame_unset
                (running with_compositor) 0 untouched
                (mk_compositor [xrt_comp_begin_session Q 2]) eq_refl eq_refl)
      as [(H & _)|[_|(_ & H & _)]];
      [discriminate H|reflexivity|discriminate H].
  - destruct (oxr_session_frame_wait_failure
                Q success_result success_result_succeeded
                Z clock_update to_ts wait_frame_early
                (running with_compositor) 0 untouched
                (mk_compositor [xrt_comp_begin_session Q 2]) eq_refl eq_refl)
      as [(H & _)|[(_ & H & _)|_]];
      [discriminate H|exfalso; apply H; reflexivity|reflexivity].
Defined.

Lemma oxr_session_views_two_call_witness :
  locate (running headless) (mk_view_locate_info stage 1000) 0 0
         (Some 0) [] =
    Some (mk_views_result XR_SUCCESS 0 (Some 2) []) /\
  locate (running headless) (mk_view_locate_info stage 1000) 0 1
         (Some 0) [blank_view] =
    Some (mk_views_result XR_ERROR_SIZE_INSUFFICIENT 0 (Some 2)
                          [blank_view]) /\
  locate (running headless) (mk_view_locate_info action_space 1000) 7 2
         (Some 0) [blank_view; blank_view] =
    Some (mk_views_result XR_SUCCESS 0 (Some 0) [blank_view; blank_view]).
Proof.
  split; [|split].
  - destruct (oxr_session_views_two_call
                Q success_result ref_relation eye_pose eye_fov
                openxr_locate 0%Q (running headless)
                (mk_view_locate_info stage 1000) 0 0 (Some 0) [])
      as (H & _); [lia|].
    apply H; reflexivity.
  - destruct (oxr_session_views_two_call
                Q success_result ref_relation eye_pose eye_fov
                openxr_locate 0%Q (running headless)
                (mk_view_locate_info stage 1000) 0 1 (Some 0) [blank_view])
      as (_ & H & _); [lia|].
    apply H; reflexivity.
  - destruct (oxr_session_views_two_call
                Q success_result ref_relation eye_pose eye_fov
                openxr_locate 0%Q (running headless)
                (mk_view_locate_info action_space 1000) 7 2 (Some 0)
                [blank_view; blank_view])
      as (_ & _ & _ & H); [lia|].
    apply H; reflexivity.
Defined.

Lemma oxr_session_views_located_witness :
  exists result,
    locate (running headless) (mk_view_locate_info stage 1000) 0 2
           (Some 0) [blank_view; blank_view; blank_view] = Some result /\
    nth_error (views_array result) 1 =
      Some (mk_xr_view
              (openxr_locate
                 (eye_pose hmd (mk_vec3 (63 # 1000) 0 0)%Q 1)
                 (mk_pose (mk_quat 0 0 0 1)%Q (mk_vec3 0 (8 # 5) 0)%Q)
                 (mk_pose (mk_quat 0 0 0 1)%Q (mk_vec3 0 (1 # 2) 0)%Q))
              (eye_fov hmd 1)).
Proof.
  eexists. split; [reflexivity|].
  apply (oxr_session_views_located
           Q success_result ref_relation eye_pose eye_fov openxr_locate 0%Q
           (running headless) (mk_view_locate_info stage 1000) 0 2 (Some 0)
           [blank_view; blank_view; blank_view]).
  - reflexivity.
  - lia.
  - reflexivity.
  - lia.
Defined.

(** * OpenGL helpers and calibration files on sample values *)

Module SampleAux.

(** The translation with the values the OpenGL registry gives the
    thirteen formats. *)
Definition gl_formats : list Z :=
  Ogl.gl_formats 0x8051 0x8C41 0x8058 0x8C43 0x8059 0x8054 0x881B 0x805B
                 0x881A 0x81A5 0x8CAC 0x88F0 0x8CAD.

Definition vk_format_to_gl : Z -> Z :=
  Ogl.ogl_vk_format_to_gl 0x8051 0x8C41 0x8058 0x8C43 0x8059 0x8054 0x881B
                          0x805B 0x881A 0x81A5 0x8CAC 0x88F0 0x8CAD.

Lemma gl_formats_nonzero : Forall (fun f => f <> 0) gl_formats.
Proof. repeat constructor; discriminate. Defined.

Lemma gl_formats_distinct : NoDup gl_formats.
Proof.
  repeat (constructor; [simpl; intros H; repeat destruct H as [H|H];
                        first [discriminate H | contradiction]|]).
  constructor.
Defined.

(** Files of bytes, a byte being a number below 256, and 32-bit values
    stored low byte first. *)
Definition u32_bytes (x : Z) : list Z :=
  [x mod 256; (x / 256) mod 256; (x / 65536) mod 256;
   (x / 16777216) mod 256].

Definition u32_value (bytes : list Z) : Z :=
  match bytes with
  | [b0; b1; b2; b3] => b0 + 256 * b1 + 65536 * b2 + 16777216 * b3
  | _ => 0
  end.

Lemma u32_bytes_length : forall x, length (u32_bytes x) = 4%nat.
Proof. reflexivity. Defined.

Lemma u32_value_bytes :
  forall x, 0 <= x < 2 ^ 32 -> u32_value (u32_bytes x) = x.
Proof.
  intros x Hx. unfold u32_value, u32_bytes.
  change (2 ^ 32) with 4294967296 in Hx.
  Z.to_euclidean_division_equations. lia.
Defined.

(** A matrix created afresh, its buffer zeroed. *)
Definition mat_create (m : TFile.cv_mat Z) (r c esz : Z) : TFile.cv_mat Z :=
  TFile.mk_mat Z esz r c (repeat 0 (Z.to_nat (esz * r * c))).

Lemma mat_create_shape :
  forall m r c esz,
    0 <= r -> 0 <= c -> 0 <= esz ->
    TFile.elemSize Z (mat_create m r c esz) = esz /\
    TFile.rows Z (mat_create m r c esz) = r /\
    TFile.cols Z (mat_create m r c esz) = c /\
    Z.of_nat (length (TFile.data Z (mat_create m r c esz))) = esz * r * c.
Proof.
  intros m r c esz Hr Hc Hesz. simpl. rewrite repeat_length.
  repeat split. rewrite Z2Nat.id; [reflexivity|nia].
Defined.

Definition write_cv_mat : TFile.cv_mat Z -> option (list Z) :=
  TFile.write_cv_mat Z u32_bytes.

Definition read_cv_mat : list Z -> TFile.cv_mat Z -> TFile.read_outcome Z :=
  TFile.read_cv_mat Z u32_value mat_create.

(** The image size as the calibration file has it: one row of two
    floats, here 1280.0 and 720.0. *)
Definition image_size : TFile.cv_mat Z :=
  TFile.mk_mat Z 4 1 2 [0; 0; 160; 68; 0; 0; 52; 68].

Definition image_size_record : list Z :=
  [4; 0; 0; 0; 1; 0; 0; 0; 2; 0; 0; 0; 0; 0; 160; 68; 0; 0; 52; 68].

(** A matrix that was never created, as the dummies of the calibration
    file. *)
Definition dummy : TFile.cv_mat Z := TFile.mk_mat Z 0 0 0 [].

(** A one by three matrix of bytes, and one of two doubles to an
    element. *)
Definition byte_row : TFile.cv_mat Z := TFile.mk_mat Z 1 1 3 [7; 8; 9].

Definition wide_row : TFile.cv_mat Z :=
  TFile.mk_mat Z 16 1 1 (repeat 1 16).

End SampleAux.

Import SampleAux.

Lemma ogl_vk_format_to_gl_translated_witness :
  vk_format_to_gl 43 <> 0 <-> In 43 Ogl.translated_vk_formats.
Proof.
  exact (Ogl.ogl_vk_format_to_gl_translated
           0x8051 0x8C41 0x8058 0x8C43 0x8059 0x8054 0x881B 0x805B
           0x881A 0x81A5 0x8CAC 0x88F0 0x8CAD gl_formats_nonzero 43).
Defined.

Lemma ogl_vk_format_to_gl_injective_witness :
  vk_format_to_gl 43 <> 0 /\
  vk_format_to_gl 43 = vk_format_to_gl 43 /\
  43 = 43.
Proof.
  assert (Hnz : vk_format_to_gl 43 <> 0) by discriminate.
  split; [exact Hnz|]. split; [reflexivity|].
  exact (Ogl.ogl_vk_format_to_gl_injective
           0x8051 0x8C41 0x8058 0x8C43 0x8059 0x8054 0x881B 0x805B
           0x881A 0x81A5 0x8CAC 0x88F0 0x8CAD gl_formats_distinct
           43 43 Hnz eq_refl).
Defined.

Lemma image_size_float_matrix : TFile.float_matrix Z image_size.
Proof.
  split; [left; reflexivity|].
  unfold TFile.sized_matrix. simpl. lia.
Defined.

Lemma write_read_cv_mat_witness :
  exists bytes,
    write_cv_mat image_size = Some bytes /\
    Z.of_nat (length bytes) = 20 /\
    forall rest target,
      read_cv_mat (bytes ++ rest) target =
        TFile.Returned Z true image_size rest.
Proof.
  exact (TFile.write_read_cv_mat
           Z u32_bytes u32_value u32_bytes_length u32_value_bytes
           mat_create mat_create_shape image_size image_size_float_matrix).
Defined.

(** The record of the image size, and its reading back with something
    behind it. *)
Example image_size_written :
  write_cv_mat image_size = Some image_size_record.
Proof. reflexivity. Qed.

Example image_size_read_back :
  read_cv_mat (image_size_record ++ [1; 2; 3]) dummy =
    TFile.Returned Z true image_size [1; 2; 3].
Proof. reflexivity. Qed.

Lemma read_cv_mat_truncated_witness :
  exists m',
    read_cv_mat (firstn 17 image_size_record) dummy =
      TFile.Returned Z false m' [].
Proof.
  apply (TFile.read_cv_mat_truncated
           Z u32_bytes u32_value u32_bytes_length u32_value_bytes
           mat_create mat_create_shape
           image_size image_size_record
           (firstn 17 image_size_record) (skipn 17 image_size_record)).
  - exact image_size_float_matrix.
  - reflexivity.
  - reflexivity.
  - discriminate.
Defined.

Lemma read_cv_mat_other_element_size_witness :
  read_cv_mat ([1; 0; 0; 0; 1; 0; 0; 0; 3; 0; 0; 0; 7; 8; 9] ++ [5]) dummy =
    TFile.Returned Z true
      (TFile.mk_mat Z 8 1 3 ([7; 8; 9] ++ repeat 0 21)) [5].
Proof.
  apply (TFile.read_cv_mat_other_element_size
           Z u32_bytes u32_value u32_bytes_length u32_value_bytes
           mat_create mat_create_shape byte_row).
  - unfold TFile.sized_matrix. simpl. lia.
  - simpl. lia.
  - simpl. lia.
  - simpl. lia.
  - discriminate.
  - reflexivity.
Defined.

(** A record of elements wider than a double: the read runs past the
    buffer. *)
Example wide_row_read_back :
  match write_cv_mat wide_row with
  | Some bytes => read_cv_mat bytes dummy = TFile.Aborted Z
  | None => False
  end.
Proof. reflexivity. Qed.
